(** * PDF-Kompressor: engine selection, fallback, quality mapping and
      output-path policy, verified over a shallow embedding of
      [app/pdf_compressor.py], [app/ghostscript_finder.py],
      [app/ghostscript_installer.py] and [app/__main__.py].

    Python [str] values are modelled as [string]: a character is a code
    point below 256.
    The file system, the external tool, the PDF library and the network
    are modelled by an explicit world that is threaded through every
    effectful function; exceptions are explicit outcomes. *)

From Stdlib Require Import ZArith Ascii String List Lia Bool.
From stdpp Require Import base decidable option list gmap strings pretty.

Open Scope Z_scope.

(* ===================================================================== *)
(** * Python string operations used by the sources *)
(* ===================================================================== *)

Module Py.

(** [len(s)] *)
Definition len (s : string) : Z := Z.of_nat (String.length s).

(** [s[n:]] for [n >= 0] *)
Fixpoint drop (n : nat) (s : string) : string :=
  match n, s with
  | O, _ => s
  | S _, EmptyString => EmptyString
  | S n', String _ r => drop n' r
  end.

(** [s[:n]] for [n >= 0] *)
Fixpoint take (n : nat) (s : string) : string :=
  match n, s with
  | O, _ => EmptyString
  | S _, EmptyString => EmptyString
  | S n', String c r => String c (take n' r)
  end.

(** [s[a:]], [s[:b]] and [s[a:b]]; the sources only slice at indices that
    are [>= 0], and a negative bound is clamped to [0] here. *)
Definition slice_from (a : Z) (s : string) : string := drop (Z.to_nat a) s.
Definition slice_to (b : Z) (s : string) : string := take (Z.to_nat b) s.
Definition slice (a b : Z) (s : string) : string :=
  take (Z.to_nat (b - a)) (drop (Z.to_nat a) s).

(** [s.rfind(c)] for a one-character [c]: the highest index, or [-1]. *)
Fixpoint rfind (c : ascii) (s : string) : Z :=
  match s with
  | EmptyString => -1
  | String x r =>
      let i := rfind c r in
      if 0 <=? i then i + 1
      else if Ascii.eqb x c then 0 else -1
  end.

(** [s.startswith(t)] *)
Fixpoint startswith (t s : string) : bool :=
  match t, s with
  | EmptyString, _ => true
  | String _ _, EmptyString => false
  | String a t', String b s' => Ascii.eqb a b && startswith t' s'
  end.

(** [s.endswith(t)] *)
Definition endswith (t s : string) : bool :=
  (String.length t <=? String.length s)%nat &&
  String.eqb (drop (String.length s - String.length t) s) t.

(** [t in s] *)
Fixpoint contains (t s : string) : bool :=
  startswith t s ||
  match s with
  | EmptyString => false
  | String _ r => contains t r
  end.

(** [c in s] for a single character, as a proposition *)
Fixpoint has_char (c : ascii) (s : string) : Prop :=
  match s with
  | EmptyString => False
  | String x r => x = c \/ has_char c r
  end.

(** [s.lower()]: the capital letters below 256 are [A]-[Z] and the
    code points 192-222 without the multiplication sign (215) *)
Definition lower_char (c : ascii) : ascii :=
  let n := N_of_ascii c in
  if ((65 <=? n) && (n <=? 90) ||
      (192 <=? n) && (n <=? 222) && negb (n =? 215))%N
  then ascii_of_N (n + 32) else c.

Fixpoint lower (s : string) : string :=
  match s with
  | EmptyString => EmptyString
  | String c r => String (lower_char c) (lower r)
  end.

(** [s.rstrip(c)] for a one-character [c] *)
Fixpoint rstrip (c : ascii) (s : string) : string :=
  match s with
  | EmptyString => EmptyString
  | String x r =>
      match rstrip c r with
      | EmptyString => if Ascii.eqb x c then EmptyString else String x EmptyString
      | r' => String x r'
      end
  end.

(** [c * n] *)
Fixpoint repeat_char (c : ascii) (n : nat) : string :=
  match n with
  | O => EmptyString
  | S n' => String c (repeat_char c n')
  end.

(** [str.isspace] on one character: below 256 the blanks are the code
    points 9-13, 28-32, 133 (next line) and 160 (no-break space) *)
Definition is_space (c : ascii) : bool :=
  let n := N_of_ascii c in
  ((9 <=? n) && (n <=? 13) || (28 <=? n) && (n <=? 32) ||
   (n =? 133) || (n =? 160))%N.

Fixpoint lstrip (s : string) : string :=
  match s with
  | EmptyString => EmptyString
  | String x r => if is_space x then lstrip r else s
  end.

Fixpoint rstrip_space (s : string) : string :=
  match s with
  | EmptyString => EmptyString
  | String x r =>
      match rstrip_space r with
      | EmptyString => if is_space x then EmptyString else String x EmptyString
      | r' => String x r'
      end
  end.

(** [s.strip()] *)
Definition strip (s : string) : string := rstrip_space (lstrip s).

(** Truth value of a [str] and of an [Optional[str]]. *)
Definition truthy (s : string) : bool := negb (String.eqb s EmptyString).
Definition truthy_opt (o : option string) : bool :=
  match o with Some s => truthy s | None => false end.

(** [a or b] on strings *)
Definition or_else (a b : string) : string := if truthy a then a else b.

(** [str(i)] / [f"{i}"] for a non-negative integer *)
Definition str_of_nat (n : nat) : string := pretty n.

End Py.

(* ===================================================================== *)
(** * [os.path] (the POSIX flavour of the standard library) *)
(* ===================================================================== *)

Module OsPath.

Definition sep : ascii := "/"%char.
Definition extsep : ascii := "."%char.

(** [os.path.basename] *)
Definition basename (p : string) : string :=
  let i := Py.rfind sep p + 1 in
  Py.slice_from i p.

(** [os.path.dirname] *)
Definition dirname (p : string) : string :=
  let i := Py.rfind sep p + 1 in
  let head := Py.slice_to i p in
  if Py.truthy head &&
     negb (String.eqb head (Py.repeat_char sep (String.length head)))
  then Py.rstrip sep head
  else head.

(** [os.path.split] *)
Definition split (p : string) : string * string := (dirname p, basename p).

(** one step of [os.path.join(a, *p)] *)
Definition join2 (path b : string) : string :=
  if Py.startswith "/" b then b
  else if negb (Py.truthy path) || Py.endswith "/" path then path +:+ b
  else path +:+ "/" +:+ b.

(** [os.path.join(a, *p)] *)
Definition join (a : string) (p : list string) : string :=
  fold_left join2 p a.

(** the [while filenameIndex < dotIndex] loop of [genericpath._splitext];
    [n] is [dotIndex - filenameIndex], the number of iterations left. *)
Fixpoint splitext_scan (p : string) (dotIndex : Z) (n : nat)
    (filenameIndex : Z) : string * string :=
  match n with
  | O => (p, EmptyString)
  | S n' =>
      if negb (String.eqb (Py.slice filenameIndex (filenameIndex + 1) p) ".")
      then (Py.slice_to dotIndex p, Py.slice_from dotIndex p)
      else splitext_scan p dotIndex n' (filenameIndex + 1)
  end.

(** [os.path.splitext] *)
Definition splitext (p : string) : string * string :=
  let sepIndex := Py.rfind sep p in
  let dotIndex := Py.rfind extsep p in
  if sepIndex <? dotIndex then
    let filenameIndex := sepIndex + 1 in
    splitext_scan p dotIndex (Z.to_nat (dotIndex - filenameIndex)) filenameIndex
  else (p, EmptyString).

End OsPath.

(* ===================================================================== *)
(** * Data model of [pdf_compressor.py] *)
(* ===================================================================== *)

Inductive Quality := extreme | strong | balanced | high.
Inductive Engine := auto | ghostscript | basic.

Global Instance Quality_eq_dec : EqDecision Quality.
Proof. solve_decision. Defined.
Global Instance Engine_eq_dec : EqDecision Engine.
Proof. solve_decision. Defined.

Record CompressResult := mkCompressResult {
  ok : bool;
  engine : Engine;
  input_path : string;
  output_path : string;
  message : string
}.

(** [_map_quality_to_pdfsettings] *)
Definition _map_quality_to_pdfsettings (quality : Quality) : string :=
  match quality with
  | extreme => "screen"
  | strong => "screen"
  | balanced => "ebook"
  | high => "printer"
  end.

(** [_ghostscript_extra_args_for_quality] *)
Definition _ghostscript_extra_args_for_quality (quality : Quality) : list string :=
  match quality with
  | extreme =>
      [ "-dDownsampleColorImages=true";
        "-dColorImageDownsampleType=/Average";
        "-dColorImageResolution=72";
        "-dDownsampleGrayImages=true";
        "-dGrayImageDownsampleType=/Average";
        "-dGrayImageResolution=72";
        "-dDownsampleMonoImages=true";
        "-dMonoImageDownsampleType=/Subsample";
        "-dMonoImageResolution=150";
        "-dAutoFilterColorImages=false";
        "-dColorImageFilter=/DCTEncode";
        "-dAutoFilterGrayImages=false";
        "-dGrayImageFilter=/DCTEncode";
        "-dJPEGQ=20";
        "-dDetectDuplicateImages=true";
        "-dSubsetFonts=true";
        "-dCompressFonts=true" ]
  | strong =>
      [ "-dDownsampleColorImages=true";
        "-dColorImageDownsampleType=/Average";
        "-dColorImageResolution=96";
        "-dDownsampleGrayImages=true";
        "-dGrayImageDownsampleType=/Average";
        "-dGrayImageResolution=96";
        "-dDownsampleMonoImages=true";
        "-dMonoImageDownsampleType=/Subsample";
        "-dMonoImageResolution=180";
        "-dAutoFilterColorImages=false";
        "-dColorImageFilter=/DCTEncode";
        "-dAutoFilterGrayImages=false";
        "-dGrayImageFilter=/DCTEncode";
        "-dJPEGQ=35";
        "-dDetectDuplicateImages=true";
        "-dSubsetFonts=true";
        "-dCompressFonts=true" ]
  | _ =>
      [ "-dDetectDuplicateImages=true";
        "-dSubsetFonts=true";
        "-dCompressFonts=true" ]
  end.

(** The command line assembled by [compress_with_ghostscript]:
    the nine-element [cmd] list, then [cmd[5:5] = extra]. *)
Definition gs_base_cmd (gs_path pdfsettings tmp_out input_path : string)
  : list string :=
  [ gs_path;
    "-sDEVICE=pdfwrite";
    "-dCompatibilityLevel=1.4";
    "-dPDFSETTINGS=/" +:+ pdfsettings;
    "-dNOPAUSE";
    "-dQUIET";
    "-dBATCH";
    "-sOutputFile=" +:+ tmp_out;
    input_path ].

Definition splice_at {A} (n : nat) (extra l : list A) : list A :=
  firstn n l ++ extra ++ skipn n l.

Definition gs_cmd (gs_path : string) (quality : Quality)
    (tmp_out input_path : string) : list string :=
  let pdfsettings := _map_quality_to_pdfsettings quality in
  let cmd := gs_base_cmd gs_path pdfsettings tmp_out input_path in
  let extra := _ghostscript_extra_args_for_quality quality in
  splice_at 5 extra cmd.

(* ===================================================================== *)
(** * The world: file system, call log and the behaviour of everything
      the program delegates to (tool, library, network, installer) *)
(* ===================================================================== *)

(** A path names a regular file with its contents, or a directory. *)
Inductive Node := File (content : string) | Dir.

(** Exceptions that reach the modelled code: [subprocess.TimeoutExpired]
    and any other [Exception], carrying its text [str(e)]. *)
Inductive Exn := TimeoutExpired | Error (msg : string).

(** The errors of [os.mkdir] that the file system decides. *)
Inductive MkdirError := FileExists | NotADirectory.

Definition mkdir_error_text (e : MkdirError) : string :=
  match e with
  | FileExists => "File exists"
  | NotADirectory => "Not a directory"
  end.

(** What one [subprocess.run(..., check=False)] does. *)
Inductive RunOutcome :=
  | Completed (returncode : Z) (stdout stderr : string)
  | RunRaised (e : Exn).

(** Calls whose success is not decided by the modelled file system alone
    (permissions, locked files, full disks, missing temp directory). *)
Inductive OsCall :=
  | CMkstemp
  | CRemove (p : string)
  | CMove (src dst : string)
  | CMakedirs (d : string)
  | CCopy (p : string)
  | CListdir (d : string)
  | CPrint (line : string).

(** The call log.  [EvEnter] and [EvDone] are ghost events recording that a
    backend was entered and that one file of a CLI job was finished; all
    others are calls leaving the process. *)
Inductive Event :=
  | EvLocate
  | EvEnter (e : Engine)
  | EvMkstemp (r : option string)
  | EvRun (cmd : list string) (returncode : option Z)
  | EvMakedirs (d : string) (done : bool)
  | EvRemove (p : string) (done : bool)
  | EvMove (src dst : string) (done : bool)
  | EvImportPikepdf (done : bool)
  | EvPikepdfOpen (p : string) (done : bool)
  | EvPikepdfSave (p : string) (compress_streams linearize : bool) (done : bool)
  | EvUrlopen (url : string) (done : bool)
  | EvCopy (p : string) (done : bool)
  | EvPrint (line : string)
  | EvLog (line : string)
  | EvMessageBox (title text : string)
  | EvGui (done : bool)
  | EvDone (src out : string) (res_ok : bool).

Record World := mkWorld {
  fs : gmap string Node;
  log : list Event
}.

(** One asset of the release-metadata JSON document. *)
Record Asset := mkAsset {
  asset_name : string;
  browser_download_url : option string
}.

(** Behaviour of the host and of the external collaborators.  Every field
    may depend on the whole current world (file system and history).
    [os.path] is modelled in its POSIX flavour (module [OsPath]) except
    where the probe of the usual Windows install locations takes the base
    name of a match: a match of those patterns is a Windows path on a
    Windows host, so there the function is the host's, [os_path_basename]
    ([posixpath.basename] or [ntpath.basename]). *)
Record Env := mkEnv {
  (* ghostscript_finder.py *)
  potential_roots : list string;
  which : string -> World -> option string;
  glob : string -> World -> list string;
  (* operating system *)
  os_fault : OsCall -> World -> option string;
  tempdir : string;
  random_name : World -> string;
  listdir : string -> World -> list string;
  abspath : string -> string;
  subprocess_run : list string -> option Z -> World -> RunOutcome * gmap string Node;
  (* pikepdf *)
  pikepdf_import : World -> option string;
  pikepdf_open : string -> World -> option string;
  pikepdf_save : string -> string -> bool -> bool -> World
                 -> option string * gmap string Node;
  (* ghostscript_installer.py *)
  arch_bits : string;
  release_assets : string -> World -> string + list Asset;
  re_search_ignorecase : string -> string -> bool;
  urlopen : string -> World -> string + string;
  (* front end *)
  log_path : World -> option string;
  gui_import : World -> option string;
  gui_main : World -> option string * gmap string Node;
  (* os.path of the host, as the probe uses it *)
  os_path_basename : string -> string
}.

(** ** The state-and-exception monad *)

Inductive Outcome (A : Type) :=
  | Ret (a : A)
  | Raise (e : Exn).
Arguments Ret {A} a.
Arguments Raise {A} e.

Definition M (A : Type) : Type := World -> Outcome A * World.

Global Instance M_ret : MRet M := fun A a w => (Ret a, w).
Global Instance M_bind : MBind M := fun A B f m w =>
  match m w with
  | (Ret a, w') => f a w'
  | (Raise e, w') => (Raise e, w')
  end.

Definition raise {A} (e : Exn) : M A := fun w => (Raise e, w).

(** [try: m  except Exception as e: h e] *)
Definition try_except {A} (m : M A) (h : Exn -> M A) : M A := fun w =>
  match m w with
  | (Ret a, w') => (Ret a, w')
  | (Raise e, w') => h e w'
  end.

(** [try: m  finally: c]; an exception of [c] replaces the outcome of [m]. *)
Definition try_finally {A} (m : M A) (c : M unit) : M A := fun w =>
  match m w with
  | (r, w') =>
      match c w' with
      | (Ret _, w'') => (r, w'')
      | (Raise e, w'') => (Raise e, w'')
      end
  end.

(** [try: m  except Exception: pass] *)
Definition swallow (m : M unit) : M unit :=
  try_except m (fun _ => mret tt).

Definition get_world : M World := fun w => (Ret w, w).
Definition emit (e : Event) : M unit := fun w =>
  (Ret tt, mkWorld (fs w) (log w ++ [e])).
Definition set_fs (f : gmap string Node) : M unit := fun w =>
  (Ret tt, mkWorld f (log w)).
Definition when (b : bool) (m : M unit) : M unit :=
  if b then m else mret tt.

(** ** File-system queries *)

Definition path_exists (f : gmap string Node) (p : string) : bool :=
  match f !! p with Some _ => true | None => false end.
Definition path_isdir (f : gmap string Node) (p : string) : bool :=
  match f !! p with Some Dir => true | _ => false end.
Definition path_isfile (f : gmap string Node) (p : string) : bool :=
  match f !! p with Some (File _) => true | _ => false end.
Definition file_nonempty (f : gmap string Node) (p : string) : bool :=
  match f !! p with Some (File c) => Py.truthy c | _ => false end.


Section Os.
Variable env : Env.

(** the name [os.path.join(dir, prefix + name + suffix)] that
    [tempfile.mkstemp] tries *)
Definition mkstemp_path (prefix suffix : string) (w : World) : string :=
  OsPath.join (tempdir env) [prefix +:+ random_name env w +:+ suffix].

(** [tempfile.mkstemp(prefix=..., suffix=...)] followed by closing the
    descriptor: a new, empty regular file ([prefix] defaults to ["tmp"]).
    One name is drawn; a name that is already taken counts as the
    failure [mkstemp] reports when it runs out of names. *)
Definition mkstemp (prefix suffix : string) : M string := fun w =>
  match os_fault env CMkstemp w with
  | Some msg => (Raise (Error msg), mkWorld (fs w) (log w ++ [EvMkstemp None]))
  | None =>
      let p := mkstemp_path prefix suffix w in
      match fs w !! p with
      | Some _ =>
          (Raise (Error "No usable temporary file name found"),
           mkWorld (fs w) (log w ++ [EvMkstemp None]))
      | None =>
          (Ret p, mkWorld (<[p := File EmptyString]> (fs w)) (log w ++ [EvMkstemp (Some p)]))
      end
  end.

(** [os.remove(p)] *)
Definition os_remove (p : string) : M unit := fun w =>
  match os_fault env (CRemove p) w with
  | Some msg => (Raise (Error msg), mkWorld (fs w) (log w ++ [EvRemove p false]))
  | None =>
      match fs w !! p with
      | Some (File _) =>
          (Ret tt, mkWorld (delete p (fs w)) (log w ++ [EvRemove p true]))
      | Some Dir =>
          (Raise (Error "Is a directory"), mkWorld (fs w) (log w ++ [EvRemove p false]))
      | None =>
          (Raise (Error "No such file or directory"),
           mkWorld (fs w) (log w ++ [EvRemove p false]))
      end
  end.

(** [shutil.move(src, dst)]: into [dst] when [dst] is a directory,
    otherwise onto [dst].  [os.rename] is tried first; when it is
    refused, the file is copied ([copy2]) and the source unlinked, so
    that a move can fail with the copy left at the destination. *)
Definition shutil_move (src dst : string) : M unit := fun w =>
  let failed := fun msg f =>
    (@Raise unit (Error msg), mkWorld f (log w ++ [EvMove src dst false])) in
  let real_dst :=
    if path_isdir (fs w) dst
    then OsPath.join dst [OsPath.basename (Py.rstrip OsPath.sep src)]
    else dst in
  if path_isdir (fs w) dst && path_exists (fs w) real_dst then
    failed "Destination path already exists" (fs w)
  else
    match fs w !! src with
    | None => failed "No such file or directory" (fs w)
    | Some node =>
        let moved :=
          (Ret tt, mkWorld (<[real_dst := node]> (delete src (fs w)))
                           (log w ++ [EvMove src dst true])) in
        match os_fault env (CMove src dst) w with
        | None => moved
        | Some _ =>
            match os_fault env (CCopy real_dst) w with
            | Some msg => failed msg (fs w)
            | None =>
                match os_fault env (CRemove src) w with
                | Some msg => failed msg (<[real_dst := node]> (fs w))
                | None => moved
                end
            end
        end
    end.

(** [os.mkdir(name)] on the file system: refused when something exists
    at [name], and when the folder in which [name] lies is a regular
    file *)
Definition mkdir_fs (name : string) (f : gmap string Node)
  : MkdirError + gmap string Node :=
  match f !! name with
  | Some _ => inl FileExists
  | None =>
      match f !! OsPath.dirname (Py.rstrip OsPath.sep name) with
      | Some (File _) => inl NotADirectory
      | _ => inr (<[name := Dir]> f)
      end
  end.

(** the [head] and [tail] that [os.makedirs(name)] works with:
    [path.split(name)], split once more when [tail] is empty *)
Definition makedirs_split (name : string) : string * string :=
  let '(head, tail) := OsPath.split name in
  if Py.truthy tail then (head, tail) else OsPath.split head.

(** [os.makedirs(name, exist_ok=True)] on the file system: a missing
    [head] is created first, by the recursive call; a [FileExistsError]
    of that call is passed over and any other error is raised again;
    then [name] itself is made, an error of [os.mkdir] being ignored
    when [name] is a directory.  The result is the error raised, if
    any, and the file system left.  [fuel] bounds the recursion; the
    length of [name] is enough, since [head] is shorter than [name]
    (lemma [makedirs_fs_fuel]). *)
Fixpoint makedirs_fs (fuel : nat) (name : string) (f : gmap string Node)
    : option MkdirError * gmap string Node :=
  let '(head, tail) := makedirs_split name in
  let missing := Py.truthy head && Py.truthy tail && negb (path_exists f head) in
  let '(err, f1) :=
    match fuel with
    | S fuel' => if missing then makedirs_fs fuel' head f else (None, f)
    | O => (None, f)
    end in
  match err with
  | Some NotADirectory => (err, f1)
  | _ =>
      if missing && String.eqb tail "." then (None, f1)
      else
        match mkdir_fs name f1 with
        | inr f2 => (None, f2)
        | inl e => if path_isdir f1 name then (None, f1) else (Some e, f1)
        end
  end.

(** [os.makedirs(d, exist_ok=True)] *)
Definition os_makedirs (d : string) : M unit := fun w =>
  match os_fault env (CMakedirs d) w with
  | Some msg => (Raise (Error msg), mkWorld (fs w) (log w ++ [EvMakedirs d false]))
  | None =>
      match makedirs_fs (String.length d) d (fs w) with
      | (Some e, f) =>
          (Raise (Error (mkdir_error_text e)), mkWorld f (log w ++ [EvMakedirs d false]))
      | (None, f) => (Ret tt, mkWorld f (log w ++ [EvMakedirs d true]))
      end
  end.

(** [subprocess.run(cmd, ..., timeout=timeout, check=False)] *)
Definition run (cmd : list string) (timeout : option Z)
  : M (Z * string * string) := fun w =>
  match subprocess_run env cmd timeout w with
  | (Completed rc out err, f) =>
      (Ret (rc, out, err), mkWorld f (log w ++ [EvRun cmd (Some rc)]))
  | (RunRaised e, f) => (Raise e, mkWorld f (log w ++ [EvRun cmd None]))
  end.

(** [os.listdir(d)] *)
Definition os_listdir (d : string) : M (list string) := fun w =>
  match os_fault env (CListdir d) w with
  | Some msg => (Raise (Error msg), w)
  | None => (Ret (listdir env d w), w)
  end.

(** [print(line)]: writing to standard output can fail (a closed pipe,
    a character the console cannot encode) *)
Definition print (line : string) : M unit := fun w =>
  match os_fault env (CPrint line) w with
  | Some msg => (Raise (Error msg), w)
  | None => (Ret tt, mkWorld (fs w) (log w ++ [EvPrint line]))
  end.

End Os.

(** [str(e)] of a caught exception *)
Definition exn_text (e : Exn) : string :=
  match e with
  | TimeoutExpired => "Command timed out"
  | Error msg => msg
  end.

(* ===================================================================== *)
(** * [ghostscript_finder.py] *)
(* ===================================================================== *)

Section Finder.
Variable env : Env.

(** [_which_any] *)
Fixpoint _which_any (candidates : list string) (w : World) : option string :=
  match candidates with
  | [] => None
  | name :: rest =>
      match which env name w with
      | Some path => if Py.truthy path then Some path else _which_any rest w
      | None => _which_any rest w
      end
  end.

(** the sort key [("64c" not in os.path.basename(p), p)] and its order *)
Definition probe_key (p : string) : bool * string :=
  (negb (Py.contains "64c" (os_path_basename env p)), p).

Definition key_le (a b : bool * string) : bool :=
  match fst a, fst b with
  | false, true => true
  | true, false => false
  | _, _ => String.leb (snd a) (snd b)
  end.

Fixpoint insert_sorted (x : string) (l : list string) : list string :=
  match l with
  | [] => [x]
  | y :: r =>
      if key_le (probe_key y) (probe_key x) then y :: insert_sorted x r
      else x :: l
  end.

(** [sorted(candidates, key=...)] (stable) *)
Definition sorted_by_key (l : list string) : list string :=
  fold_left (fun acc x => insert_sorted x acc) l [].

Definition windows_patterns : list string :=
  [ "C:\\Program Files\\gs\\gs*\\bin\\gswin64c.exe";
    "C:\\Program Files\\gs\\gs*\\bin\\gswin32c.exe";
    "C:\\Program Files (x86)\\gs\\gs*\\bin\\gswin64c.exe";
    "C:\\Program Files (x86)\\gs\\gs*\\bin\\gswin32c.exe" ].

(** [_probe_common_windows_paths] *)
Definition _probe_common_windows_paths (w : World) : option string :=
  let candidates := flat_map (fun pattern => glob env pattern w) windows_patterns in
  head (sorted_by_key candidates).

(** the bundled candidates, in the order of the two nested [for] loops *)
Definition bundled_candidates : list string :=
  flat_map
    (fun root =>
       map (fun name => OsPath.join root ["bin"; name])
           ["gswin64c.exe"; "gswin32c.exe"])
    (potential_roots env).

Definition locate (w : World) : option string :=
  match List.find (path_exists (fs w)) bundled_candidates with
  | Some p => Some p
  | None =>
      let path := _which_any ["gswin64c"; "gswin64c.exe"; "gswin32c"; "gswin32c.exe"; "gs"] w in
      if Py.truthy_opt path then path
      else
        let path := _probe_common_windows_paths w in
        match path with
        | Some p => if Py.truthy p && path_exists (fs w) p then Some p else None
        | None => None
        end
  end.

(** [get_ghostscript_path] *)
Definition get_ghostscript_path : M (option string) :=
  _ ← emit EvLocate;
  w ← get_world;
  mret (locate w).

End Finder.

(* ===================================================================== *)
(** * [ghostscript_installer.py] *)
(* ===================================================================== *)

Section Installer.
Variable env : Env.

Definition GITHUB_RELEASE_API : string :=
  "https://api.github.com/repos/ArtifexSoftware/ghostpdl-downloads/releases/latest".

(** [_arch_tag] *)
Definition _arch_tag : string :=
  if String.eqb (arch_bits env) "64bit" then "w64" else "w32".

(** the text of the pattern compiled by [_guess_asset_name_pattern] *)
Definition _guess_asset_name_pattern (arch : string) : string :=
  "gs\d{5}" +:+ arch +:+ "\.exe$".

Definition asset_matches (pat : string) (a : Asset) : bool :=
  re_search_ignorecase env pat (asset_name a) &&
  match browser_download_url a with
  | Some u => Py.truthy u && Py.endswith ".exe" u
  | None => false
  end.

(** [_fetch_latest_download_url]: every exception yields [None]. *)
Definition _fetch_latest_download_url (arch : string) : M (option string) := fun w =>
  match release_assets env GITHUB_RELEASE_API w with
  | inl _ => (Ret None, mkWorld (fs w) (log w ++ [EvUrlopen GITHUB_RELEASE_API false]))
  | inr assets =>
      let pat := _guess_asset_name_pattern arch in
      (Ret (match List.find (asset_matches pat) assets with
            | Some a => browser_download_url a
            | None => None
            end),
       mkWorld (fs w) (log w ++ [EvUrlopen GITHUB_RELEASE_API true]))
  end.

(** [urllib.request.urlopen(url)] and reading the whole response *)
Definition fetch (url : string) : M string := fun w =>
  match urlopen env url w with
  | inl msg => (Raise (Error msg), mkWorld (fs w) (log w ++ [EvUrlopen url false]))
  | inr body => (Ret body, mkWorld (fs w) (log w ++ [EvUrlopen url true]))
  end.

(** [shutil.copyfileobj(resp, f)] into the already created file [p] *)
Definition copy_to (body p : string) : M unit := fun w =>
  match os_fault env (CCopy p) w with
  | Some msg => (Raise (Error msg), mkWorld (fs w) (log w ++ [EvCopy p false]))
  | None => (Ret tt, mkWorld (<[p := File body]> (fs w)) (log w ++ [EvCopy p true]))
  end.

(** [_download_to_temp] *)
Definition _download_to_temp (url : string) : M (option string) :=
  try_except
    (body ← fetch url;
     path ← mkstemp env "gs-setup-" ".exe";
     _ ← copy_to body path;
     mret (Some path))
    (fun _ => mret None).

(** [_run_installer] *)
Definition _run_installer (installer_path : string) (silent : bool) : M bool :=
  try_except
    (let args := if silent then [installer_path; "/S"] else [installer_path] in
     proc ← run env args (Some 600);
     if fst (fst proc) =? 0 then mret true
     else if silent then
       proc2 ← run env [installer_path] (Some 600);
       mret (fst (fst proc2) =? 0)
     else mret false)
    (fun _ => mret false).

(** [ensure_ghostscript_installed]; the [try ... finally] block yields
    [true] when it leaves through [return None]. *)
Definition ensure_ghostscript_installed (auto_install : bool) : M (option string) :=
  gs ← get_ghostscript_path env;
  if Py.truthy_opt gs then mret gs
  else if negb auto_install then mret None
  else
    let arch := _arch_tag in
    url ← _fetch_latest_download_url arch;
    match url with
    | None => mret None
    | Some url =>
        if negb (Py.truthy url) then mret None
        else
          installer ← _download_to_temp url;
          match installer with
          | None => mret None
          | Some installer =>
              if negb (Py.truthy installer) then mret None
              else
                returned ← try_finally
                  (ok ← _run_installer installer true;
                   mret (negb ok))
                  (swallow (os_remove env installer));
                if (returned : bool) then mret None
                else get_ghostscript_path env
          end
    end.

End Installer.

(* ===================================================================== *)
(** * [pdf_compressor.py]: the two backends and the selector *)
(* ===================================================================== *)

Section Compressor.
Variable env : Env.

(** [import pikepdf] *)
Definition import_pikepdf : M unit := fun w =>
  match pikepdf_import env w with
  | Some msg => (Raise (Error msg), mkWorld (fs w) (log w ++ [EvImportPikepdf false]))
  | None => (Ret tt, mkWorld (fs w) (log w ++ [EvImportPikepdf true]))
  end.

(** [pikepdf.open(input_path)] *)
Definition pikepdf_open_ (p : string) : M unit := fun w =>
  match pikepdf_open env p w with
  | Some msg => (Raise (Error msg), mkWorld (fs w) (log w ++ [EvPikepdfOpen p false]))
  | None => (Ret tt, mkWorld (fs w) (log w ++ [EvPikepdfOpen p true]))
  end.

(** [pdf.save(output_path, compress_streams=..., linearize=...)] *)
Definition pikepdf_save_ (src out : string) (compress_streams linearize : bool)
  : M unit := fun w =>
  match pikepdf_save env src out compress_streams linearize w with
  | (Some msg, f) =>
      (Raise (Error msg),
       mkWorld f (log w ++ [EvPikepdfSave out compress_streams linearize false]))
  | (None, f) =>
      (Ret tt, mkWorld f (log w ++ [EvPikepdfSave out compress_streams linearize true]))
  end.

Definition gs_failure (input_path output_path message : string) : CompressResult :=
  mkCompressResult false ghostscript input_path output_path message.

(** the inner [try ... except Exception as move_err] of
    [compress_with_ghostscript]; [Some failure] when the [except] clause
    returns, [None] when control falls through to the success result. *)
Definition move_into_place (tmp_out input_path output_path : string)
  : M (option CompressResult) :=
  try_except
    (w ← get_world;
     _ ← when (path_exists (fs w) output_path) (os_remove env output_path);
     _ ← shutil_move env tmp_out output_path;
     mret None)
    (fun move_err =>
       mret (Some (gs_failure input_path output_path
                     ("Move failed: " +:+ exn_text move_err)))).

(** the body of the outer [try] *)
Definition run_ghostscript (cmd : list string) (timeout : option Z)
    (tmp_out input_path output_path : string) : M CompressResult :=
  proc ← run env cmd timeout;
  let '(returncode, stdout, stderr) := (proc : Z * string * string) in
  w ← get_world;
  if (returncode =? 0) && path_exists (fs w) tmp_out then
    _ ← swallow (os_makedirs env (Py.or_else (OsPath.dirname output_path) "."));
    moved ← move_into_place tmp_out input_path output_path;
    match moved with
    | Some failure => mret failure
    | None =>
        mret (mkCompressResult true ghostscript input_path output_path
                "Compressed with Ghostscript")
    end
  else
    let msg :=
      Py.or_else (Py.strip stderr)
        (Py.or_else (Py.strip stdout)
           ("Exited with code " +:+ pretty returncode)) in
    mret (gs_failure input_path output_path msg).

(** the clauses [except subprocess.TimeoutExpired] and
    [except Exception as e] *)
Definition gs_except (input_path output_path : string) (e : Exn)
  : M CompressResult :=
  match e with
  | TimeoutExpired =>
      mret (gs_failure input_path output_path "Ghostscript timed out")
  | Error msg =>
      mret (gs_failure input_path output_path ("Ghostscript error: " +:+ msg))
  end.

(** the [finally] block *)
Definition remove_temp (tmp_out : string) : M unit :=
  swallow
    (w ← get_world;
     when (path_exists (fs w) tmp_out) (os_remove env tmp_out)).

(** [compress_with_ghostscript] from [tempfile.mkstemp] on, for a tool
    path that passed the lookup *)
Definition gs_attempt (gs_path input_path output_path : string)
    (quality : Quality) (timeout : option Z) : M CompressResult :=
  tmp_out ← mkstemp env "tmp" ".pdf";
  let cmd := gs_cmd gs_path quality tmp_out input_path in
  try_finally
    (try_except
       (run_ghostscript cmd timeout tmp_out input_path output_path)
       (gs_except input_path output_path))
    (remove_temp tmp_out).

(** [compress_with_ghostscript] *)
Definition compress_with_ghostscript (input_path output_path : string)
    (quality : Quality) (gs_path : option string) (timeout : option Z)
  : M CompressResult :=
  _ ← emit (EvEnter ghostscript);
  gs_path ← match gs_path with
            | None => get_ghostscript_path env
            | Some g => mret (Some g)
            end;
  w ← get_world;
  match gs_path with
  | None => mret (gs_failure input_path output_path "Ghostscript not found")
  | Some gs_path =>
      if negb (Py.truthy gs_path) || negb (path_exists (fs w) gs_path) then
        mret (gs_failure input_path output_path "Ghostscript not found")
      else gs_attempt gs_path input_path output_path quality timeout
  end.

(** [compress_with_pikepdf]; [quality] is accepted and not used. *)
Definition compress_with_pikepdf (input_path output_path : string)
    (quality : Quality) : M CompressResult :=
  _ ← emit (EvEnter basic);
  imported ← try_except
    (_ ← import_pikepdf; mret None)
    (fun e =>
       mret (Some (mkCompressResult false basic input_path output_path
                     ("pikepdf not available: " +:+ exn_text e))));
  match imported with
  | Some failure => mret failure
  | None =>
      try_except
        (_ ← pikepdf_open_ input_path;
         _ ← pikepdf_save_ input_path output_path true true;
         w ← get_world;
         if path_exists (fs w) output_path then
           mret (mkCompressResult true basic input_path output_path
                   "Compressed with pikepdf")
         else
           mret (mkCompressResult false basic input_path output_path
                   "Unknown error during save"))
        (fun e =>
           mret (mkCompressResult false basic input_path output_path
                   ("pikepdf error: " +:+ exn_text e)))
  end.

(** [auto_compress] *)
Definition auto_compress (input_path output_path : string) (quality : Quality)
  : M CompressResult :=
  gs ← get_ghostscript_path env;
  if Py.truthy_opt gs then
    res ← compress_with_ghostscript input_path output_path quality gs None;
    if ok res then mret res
    else compress_with_pikepdf input_path output_path quality
  else compress_with_pikepdf input_path output_path quality.

(** [choose_engine]; the Precise backend is called with its defaults
    [gs_path=None, timeout=None]. *)
Definition choose_engine (engine : Engine)
  : string -> string -> Quality -> M CompressResult :=
  match engine with
  | ghostscript => fun i o q => compress_with_ghostscript i o q None None
  | basic => compress_with_pikepdf
  | auto => auto_compress
  end.

End Compressor.

(* ===================================================================== *)
(** * [pdf_compressor.py]: the output path resolver *)
(* ===================================================================== *)

(** the candidate [f"{root} ({i}){ext}"] *)
Definition candidate (root ext : string) (i : nat) : string :=
  root +:+ " (" +:+ Py.str_of_nat i +:+ ")" +:+ ext.

Section UniquePath.
(** [os.path.exists], as seen by the resolver *)
Variable exists_ : string -> bool.

(** the [while True] loop, run for at most [fuel] iterations from [i];
    [None] when the bound is reached before the loop returns. *)
Fixpoint unique_loop (root ext : string) (fuel i : nat) : option string :=
  match fuel with
  | O => None
  | S fuel' =>
      let cand := candidate root ext i in
      if negb (exists_ cand) then Some cand
      else unique_loop root ext fuel' (S i)
  end.

(** [ensure_unique_output_path] with the loop bounded by [fuel] *)
Definition ensure_unique_output_path_fuel (fuel : nat) (base_path : string)
  : option string :=
  if negb (exists_ base_path) then Some base_path
  else
    let '(root, ext) := OsPath.splitext base_path in
    unique_loop root ext fuel 1%nat.

End UniquePath.

(** [ensure_unique_output_path] on a file system: one more iteration than
    there are paths always lets the loop return
    (lemma [ensure_unique_output_path_fuel_enough]). *)
Definition ensure_unique_output_path (f : gmap string Node) (base_path : string)
  : string :=
  default base_path
    (ensure_unique_output_path_fuel (path_exists f) (S (size f)) base_path).

(** the [target_dir] and the base candidate of [default_output_path_for] *)
Definition target_dir_for (src_path : string) (output_dir : option string) : string :=
  match output_dir with
  | Some d => Py.or_else d (OsPath.dirname src_path)
  | None => OsPath.dirname src_path
  end.

Definition stem_of (src_path : string) : string :=
  fst (OsPath.splitext (OsPath.basename src_path)).

(** [default_output_path_for] *)
Definition default_output_path_for (f : gmap string Node) (src_path : string)
    (output_dir : option string) : string :=
  let name := OsPath.basename src_path in
  let '(stem, _) := OsPath.splitext name in
  let target_dir := target_dir_for src_path output_dir in
  let out := OsPath.join target_dir [stem +:+ "-compressed.pdf"] in
  ensure_unique_output_path f out.

(* ===================================================================== *)
(** * [__main__.py]: the command-line front end *)
(* ===================================================================== *)

Record Args := mkArgs {
  arg_input : option string;
  arg_output : option string;
  arg_engine : Engine;
  arg_auto_install_ghostscript : bool;
  arg_quality : Quality
}.

Section Cli.
Variable env : Env.

(** [logging_utils.safe_log] *)
Definition safe_log (message : string) : M (option string) :=
  w ← get_world;
  match log_path env w with
  | Some path => _ ← emit (EvLog message); mret (Some path)
  | None => mret None
  end.

(** [_show_critical_message] *)
Definition _show_critical_message (title text : string) : M unit :=
  emit (EvMessageBox title text).

Definition log_or_unavailable (l : option string) : string :=
  match l with
  | Some p => Py.or_else p "unavailable"
  | None => "unavailable"
  end.

Definition newline : string := String (ascii_of_nat 10) EmptyString.

(** the branch of [_run_cli] taken when [args.input] is falsy *)
Definition launch_gui : M Z :=
  _ ← try_except
        (_ ← ensure_ghostscript_installed env true; mret tt)
        (fun e =>
           _ ← safe_log ("Auto-install ghostscript failed: " +:+ exn_text e);
           mret tt);
  w ← get_world;
  match gui_import env w with
  | Some msg =>
      l ← safe_log ("GUI import failed: " +:+ msg);
      _ ← _show_critical_message "Startup error"
            ("Could not start the GUI. See log for details." +:+ newline +:+
             "Log: " +:+ log_or_unavailable l);
      mret 2
  | None =>
      let '(r, f) := gui_main env w in
      _ ← set_fs f;
      match r with
      | Some msg =>
          _ ← emit (EvGui false);
          l ← safe_log ("GUI runtime error: " +:+ msg);
          _ ← _show_critical_message "Runtime error"
                ("An error occurred. See log for details." +:+ newline +:+
                 "Log: " +:+ log_or_unavailable l);
          mret 2
      | None => _ ← emit (EvGui true); mret 0
      end
  end.

(** [out_arg and os.path.splitext(out_arg)[1].lower() == ".pdf"] *)
Definition out_arg_is_pdf (out_arg : option string) : bool :=
  match out_arg with
  | Some o => Py.truthy o && String.eqb (Py.lower (snd (OsPath.splitext o))) ".pdf"
  | None => false
  end.

Section Job.
Variable out_arg : option string.
Variable compressor : string -> string -> Quality -> M CompressResult.
Variable quality : Quality.

(** the closure [compress_one] *)
Definition compress_one (src : string) (out_dir : option string)
  : M (string * bool * string) :=
  w ← get_world;
  let out_path :=
    match out_arg with
    | Some o => if out_arg_is_pdf out_arg then o
                else default_output_path_for (fs w) src out_dir
    | None => default_output_path_for (fs w) src out_dir
    end in
  res ← compressor src out_path quality;
  _ ← emit (EvDone src out_path (ok res));
  mret (out_path, ok res, message res).

(** the body of [for i, p in enumerate(pdfs, start=1)] *)
Fixpoint folder_loop (total : nat) (out_dir : option string)
    (i : nat) (pdfs : list string) (ok_count : nat) : M nat :=
  match pdfs with
  | [] => mret ok_count
  | p :: rest =>
      r ← compress_one p out_dir;
      let '(out_path, res_ok, msg) := (r : string * bool * string) in
      let status : string := if res_ok then "OK" else "FAIL" in
      _ ← print env ("[" +:+ Py.str_of_nat i +:+ "/" +:+ Py.str_of_nat total +:+ "] " +:+
                 status +:+ ": " +:+ OsPath.basename p +:+ " -> " +:+ out_path);
      if negb res_ok then
        _ ← print env ("   " +:+ msg);
        folder_loop total out_dir (S i) rest ok_count
      else
        folder_loop total out_dir (S i) rest (S ok_count)
  end.
End Job.

(** the list comprehension computing [pdfs] from the names that
    [os.listdir] returned *)
Definition pdfs_among (in_path : string) (names : list string) (w : World)
  : list string :=
  map (fun f => OsPath.join in_path [f])
    (List.filter
       (fun f => Py.endswith ".pdf" (Py.lower f) &&
                 path_isfile (fs w) (OsPath.join in_path [f]))
       names).

(** the PDF files of the folder [in_path], when it can be listed *)
Definition list_pdfs (in_path : string) (w : World) : list string :=
  pdfs_among in_path (listdir env in_path w) w.

(** [if out_dir and not os.path.exists(out_dir): os.makedirs(out_dir, exist_ok=True)] *)
Definition make_out_dir (out_dir : option string) : M unit :=
  w ← get_world;
  match out_dir with
  | Some d => when (Py.truthy d && negb (path_exists (fs w) d)) (os_makedirs env d)
  | None => mret tt
  end.

Definition folder_mode (in_path : string) (out_arg : option string)
    (compressor : string -> string -> Quality -> M CompressResult)
    (quality : Quality) : M Z :=
  let out_dir := out_arg in
  _ ← make_out_dir out_dir;
  names ← os_listdir env in_path;
  w ← get_world;
  let pdfs := pdfs_among in_path names w in
  match pdfs with
  | [] => _ ← print env "No PDF files found in folder."; mret 1
  | _ =>
      ok_count ← folder_loop out_arg compressor quality (length pdfs) out_dir 1%nat pdfs 0%nat;
      _ ← print env ("Done. " +:+ Py.str_of_nat ok_count +:+ "/" +:+
                 Py.str_of_nat (length pdfs) +:+ " succeeded.");
      mret (if Nat.eqb ok_count (length pdfs) then 0 else 2)
  end.

Definition single_mode (in_path : string) (out_arg : option string)
    (compressor : string -> string -> Quality -> M CompressResult)
    (quality : Quality) : M Z :=
  w ← get_world;
  if negb (Py.endswith ".pdf" (Py.lower in_path)) || negb (path_exists (fs w) in_path) then
    _ ← print env "Input must be an existing PDF file or a folder.";
    mret 1
  else
    let out_dir := if out_arg_is_pdf out_arg then None else out_arg in
    _ ← make_out_dir out_dir;
    r ← compress_one out_arg compressor quality in_path out_dir;
    let '(out_path, res_ok, msg) := (r : string * bool * string) in
    if res_ok then
      _ ← print env ("OK: " +:+ OsPath.basename in_path +:+ " -> " +:+ out_path);
      mret 0
    else
      _ ← print env ("FAIL: " +:+ msg);
      mret 2.

(** [os.path.abspath(args.output) if args.output else None] *)
Definition out_arg_of (args : Args) : option string :=
  match arg_output args with
  | Some o => if Py.truthy o then Some (abspath env o) else None
  | None => None
  end.

(** the optional auto-install before a CLI job *)
Definition auto_install_step (args : Args) : M unit :=
  when (arg_auto_install_ghostscript args &&
        (bool_decide (arg_engine args = ghostscript) ||
         bool_decide (arg_engine args = auto)))
    (try_except
       (_ ← ensure_ghostscript_installed env true; mret tt)
       (fun _ => mret tt)).

(** [_run_cli], from the parsed [args] on *)
Definition _run_cli (args : Args) : M Z :=
  match arg_input args with
  | None => launch_gui
  | Some input =>
    if negb (Py.truthy input) then launch_gui
    else
      let in_path := abspath env input in
      let out_arg := out_arg_of args in
      let engine := arg_engine args in
      let quality := arg_quality args in
      let compressor := choose_engine env engine in
      _ ← auto_install_step args;
      w ← get_world;
      if path_isdir (fs w) in_path
      then folder_mode in_path out_arg compressor quality
      else single_mode in_path out_arg compressor quality
  end.

(** the files a CLI job sets out to compress, computed as [_run_cli]
    does: the PDF files listed in the input folder (after the output
    folder was created), or the single input file when it exists and
    its name ends in [.pdf]; [w] is the world after the optional
    auto-install.  An empty list is "no valid input". *)
Definition requested_files (args : Args) (input : string) (w : World)
  : list string :=
  let in_path := abspath env input in
  if path_isdir (fs w) in_path then
    list_pdfs in_path (snd (make_out_dir (out_arg_of args) w))
  else if negb (Py.endswith ".pdf" (Py.lower in_path)) ||
          negb (path_exists (fs w) in_path)
  then []
  else [in_path].

End Cli.


(* ===================================================================== *)
(** * The tuning flags as the specification words them *)
(* ===================================================================== *)

(** "enable image downsampling for [channel] to a target DPI using
    [method] resampling" *)
Definition spec_downsample (channel method : string) (dpi : nat) : list string :=
  [ "-dDownsample" +:+ channel +:+ "Images=true";
    "-d" +:+ channel +:+ "ImageDownsampleType=/" +:+ method;
    "-d" +:+ channel +:+ "ImageResolution=" +:+ Py.str_of_nat dpi ].

(** "force a specific lossy image encoding with an explicit quality factor" *)
Definition spec_force_jpeg (jpegq : nat) : list string :=
  [ "-dAutoFilterColorImages=false";
    "-dColorImageFilter=/DCTEncode";
    "-dAutoFilterGrayImages=false";
    "-dGrayImageFilter=/DCTEncode";
    "-dJPEGQ=" +:+ Py.str_of_nat jpegq ].

(** "enable duplicate-image detection, and enable font
    subsetting/compression" *)
Definition spec_size_savers : list string :=
  [ "-dDetectDuplicateImages=true";
    "-dSubsetFonts=true";
    "-dCompressFonts=true" ].

Definition spec_tuning (dpi mono_dpi jpegq : nat) : list string :=
  spec_downsample "Color" "Average" dpi ++
  spec_downsample "Gray" "Average" dpi ++
  spec_downsample "Mono" "Subsample" mono_dpi ++
  spec_force_jpeg jpegq ++
  spec_size_savers.

(* ===================================================================== *)
(** * Concrete hosts used to exercise the model *)
(* ===================================================================== *)

(** a directory [D] holding [a.pdf] and [a (1).pdf], seen through
    [os.path.exists] *)
Definition two_files_exist (p : string) : bool :=
  String.eqb p "D/a.pdf" || String.eqb p "D/a (1).pdf".

(** the three compression operations a caller can select *)
Inductive Operation :=
  | OpPrecise (gs_path : option string) (timeout : option Z)
  | OpBasic
  | OpAuto.

Definition perform (env : Env) (op : Operation)
    (input_path output_path : string) (quality : Quality) : M CompressResult :=
  match op with
  | OpPrecise gs_path timeout =>
      compress_with_ghostscript env input_path output_path quality gs_path timeout
  | OpBasic => compress_with_pikepdf env input_path output_path quality
  | OpAuto => auto_compress env input_path output_path quality
  end.

(** ** Reading the call log *)

(** events other than the two ghost markers *)
Definition sys_event (e : Event) : bool :=
  match e with
  | EvEnter _ | EvDone _ _ _ => false
  | _ => true
  end.

(** the backends entered, in order *)
Fixpoint entered (evs : list Event) : list Engine :=
  match evs with
  | [] => []
  | EvEnter e :: rest => e :: entered rest
  | _ :: rest => entered rest
  end.

(** the per-file results of a CLI job, in order *)
Fixpoint finished (evs : list Event) : list (string * bool) :=
  match evs with
  | [] => []
  | EvDone src _ res_ok :: rest => (src, res_ok) :: finished rest
  | _ :: rest => finished rest
  end.

(** a host on which nothing is installed, the network is down, the PDF
    library works and every tool run exits 0 without touching any file *)
Definition quiet_host : Env := {|
  potential_roots := [];
  which := fun _ _ => None;
  glob := fun _ _ => [];
  os_fault := fun _ _ => None;
  tempdir := "/tmp";
  random_name := fun _ => "k3x9q2";
  listdir := fun _ _ => [];
  abspath := fun p => p;
  subprocess_run := fun _ _ w => (Completed 0 EmptyString EmptyString, fs w);
  pikepdf_import := fun _ => None;
  pikepdf_open := fun _ _ => None;
  pikepdf_save := fun _ out _ _ w => (None, <[out := File "%PDF-1.7 rewritten"]> (fs w));
  arch_bits := "64bit";
  release_assets := fun _ _ => inl "network unreachable";
  re_search_ignorecase := fun _ _ => false;
  urlopen := fun _ _ => inl "network unreachable";
  log_path := fun _ => None;
  gui_import := fun _ => None;
  gui_main := fun w => (None, fs w);
  os_path_basename := OsPath.basename
|}.

(** [quiet_host] with one behaviour replaced *)
Definition with_os_fault (fault : OsCall -> World -> option string) (e : Env) : Env :=
  mkEnv (potential_roots e) (which e) (glob e) fault (tempdir e) (random_name e) (listdir e)
        (abspath e) (subprocess_run e) (pikepdf_import e) (pikepdf_open e)
        (pikepdf_save e) (arch_bits e) (release_assets e) (re_search_ignorecase e)
        (urlopen e) (log_path e) (gui_import e) (gui_main e)
        (os_path_basename e).

Definition with_subprocess_run
    (r : list string -> option Z -> World -> RunOutcome * gmap string Node)
    (e : Env) : Env :=
  mkEnv (potential_roots e) (which e) (glob e) (os_fault e) (tempdir e) (random_name e) (listdir e)
        (abspath e) r (pikepdf_import e) (pikepdf_open e)
        (pikepdf_save e) (arch_bits e) (release_assets e) (re_search_ignorecase e)
        (urlopen e) (log_path e) (gui_import e) (gui_main e)
        (os_path_basename e).

(** a file system holding a tool binary and one input document *)
Definition disk0 : gmap string Node :=
  {[ "/usr/bin/gs" := File "#!tool"; "in.pdf" := File "%PDF-1.7 original" ]}.

Definition world0 : World := mkWorld disk0 [].

(** [m] only appends to the log, and only events that are not ghost
    markers *)
Definition quiet {A} (m : M A) : Prop :=
  forall w, exists evs,
    log (snd (m w)) = log w ++ evs /\ Forall (fun e => sys_event e = true) evs.

(** what holds when the Precise backend returns [res] after creating the
    temporary file [tmp]: [rest] are the events after the tool was run and
    [w'] is the world at return *)
Definition attempt_post (tmp o : string) (res : CompressResult)
    (rest : list Event) (w' : World) : Prop :=
  Forall (fun e => sys_event e = true) rest /\
  output_path res = o /\
  (path_exists (fs w') tmp = false \/ exists rest', rest = rest' ++ [EvRemove tmp false]) /\
  (ok res = true ->
     path_exists (fs w') o = true /\ path_exists (fs w') tmp = false /\
     In (EvMove tmp o true) rest).

(** [quiet_host] without a usable temporary directory *)
Definition no_temp_dir_host : Env :=
  with_os_fault
    (fun c _ => match c with
                | CMkstemp => Some "No usable temporary directory found"
                | _ => None
                end)
    quiet_host.

(** a host whose tool fails with exit status 1 and on which files cannot
    be deleted (held open by another process) *)
Definition locked_files_host : Env :=
  with_subprocess_run
    (fun _ _ w => (Completed 1 EmptyString "Unrecoverable error", fs w))
    (with_os_fault
       (fun c _ => match c with
                   | CRemove _ => Some "Permission denied"
                   | _ => None
                   end)
       quiet_host).

(** one Precise job on each of these hosts *)
Definition precise_job (env : Env) : Outcome CompressResult * World :=
  perform env (OpPrecise (Some "/usr/bin/gs") None) "in.pdf" "out.pdf" balanced world0.

(** the invariant "[ok=true] implies the output file exists and is
    non-empty", as the specification states it *)
Definition ok_means_nonempty_output : Prop :=
  forall env op i o q w res w',
    perform env op i o q w = (Ret res, w') ->
    ok res = true ->
    path_isfile (fs w') (output_path res) = true /\
    file_nonempty (fs w') (output_path res) = true.

(** "the temporary file no longer exists when the function returns", as
    the specification states it: [tmp] is any file the call created with
    [mkstemp] *)
Definition temp_file_gone_on_return : Prop :=
  forall env i o q gs timeout w res w' pre post tmp,
    compress_with_ghostscript env i o q gs timeout w = (Ret res, w') ->
    log w' = log w ++ pre ++ EvMkstemp (Some tmp) :: post ->
    path_exists (fs w') tmp = false.

(** "the backends never raise", as the specification states it *)
Definition backends_never_raise : Prop :=
  forall env op i o q w,
    exists res w', perform env op i o q w = (Ret res, w').

(** a step of the installation that failed: the metadata query or the
    download could not be read, the temporary file could not be created or
    written, or a process could not be launched or timed out *)
Definition step_failed (e : Event) : bool :=
  match e with
  | EvUrlopen _ false | EvMkstemp None | EvCopy _ false | EvRun _ None => true
  | _ => false
  end.

(** a process that exited with status 0 *)
Definition exited_zero (e : Event) : bool :=
  match e with
  | EvRun _ (Some rc) => rc =? 0
  | _ => false
  end.

(** a host on which the release can be downloaded, the installer exits
    with status 1 both silently and interactively, and files cannot be
    deleted *)
Definition failing_installer_host : Env := {|
  potential_roots := [];
  which := fun _ _ => None;
  glob := fun _ _ => [];
  os_fault := fun c _ => match c with
                         | CRemove _ => Some "Permission denied"
                         | _ => None
                         end;
  tempdir := "/tmp";
  random_name := fun _ => "k3x9q2";
  listdir := fun _ _ => [];
  abspath := fun p => p;
  subprocess_run := fun _ _ w => (Completed 1 EmptyString EmptyString, fs w);
  pikepdf_import := fun _ => None;
  pikepdf_open := fun _ _ => None;
  pikepdf_save := fun _ out _ _ w => (None, <[out := File "%PDF-1.7 rewritten"]> (fs w));
  arch_bits := "64bit";
  release_assets := fun _ _ =>
    inr [mkAsset "gs10040w64.exe" (Some "https://example.org/gs10040w64.exe")];
  re_search_ignorecase := fun _ name => Py.endswith "w64.exe" (Py.lower name);
  urlopen := fun _ _ => inr "MZ installer";
  log_path := fun _ => None;
  gui_import := fun _ => None;
  gui_main := fun w => (None, fs w);
  os_path_basename := OsPath.basename
|}.

(** "the downloaded installer file is deleted even on failure", as the
    specification states it: [p] is any file a download was completed to *)
Definition installer_always_deleted : Prop :=
  forall env auto_install w r w' pre post p,
    ensure_ghostscript_installed env auto_install w = (Ret r, w') ->
    log w' = log w ++ pre ++ EvCopy p true :: post ->
    path_exists (fs w') p = false.

(** a folder [docs] with two PDF files and a text file; the library
    cannot open [docs/y.pdf] *)
Definition docs_disk : gmap string Node :=
  {[ "docs" := Dir;
     "docs/x.pdf" := File "%PDF-1.7 x";
     "docs/y.pdf" := File "not a pdf";
     "docs/notes.txt" := File "notes" ]}.

Definition docs_host : Env := {|
  potential_roots := [];
  which := fun _ _ => None;
  glob := fun _ _ => [];
  os_fault := fun _ _ => None;
  tempdir := "/tmp";
  random_name := fun _ => "k3x9q2";
  listdir := fun d _ => if String.eqb d "docs" then ["x.pdf"; "notes.txt"; "y.pdf"] else [];
  abspath := fun p => p;
  subprocess_run := fun _ _ w => (Completed 0 EmptyString EmptyString, fs w);
  pikepdf_import := fun _ => None;
  pikepdf_open := fun p _ => if String.eqb p "docs/y.pdf" then Some "unable to find trailer" else None;
  pikepdf_save := fun _ out _ _ w => (None, <[out := File "%PDF-1.7 rewritten"]> (fs w));
  arch_bits := "64bit";
  release_assets := fun _ _ => inl "network unreachable";
  re_search_ignorecase := fun _ _ => false;
  urlopen := fun _ _ => inl "network unreachable";
  log_path := fun _ => None;
  gui_import := fun _ => None;
  gui_main := fun w => (None, fs w);
  os_path_basename := OsPath.basename
|}.

Definition docs_args : Args :=
  mkArgs (Some "docs") None auto false balanced.

Definition docs_world : World := mkWorld docs_disk [].

(** every value [m] returns satisfies [P] *)
Definition returns {A} (P : A -> Prop) (m : M A) : Prop :=
  forall w a w', m w = (Ret a, w') -> P a.

(** a failed result says why *)
Definition reported (res : CompressResult) : Prop :=
  ok res = false -> message res <> EmptyString.


(* ===================================================================== *)
(** * Footprints: which calls a computation makes *)
(* ===================================================================== *)

(** every event [m] appends to the log satisfies [P] ([quiet] is
    [only sys_event]) *)
Definition only {A} (P : Event -> bool) (m : M A) : Prop :=
  forall w, exists evs,
    log (snd (m w)) = log w ++ evs /\ Forall (fun e => P e = true) evs.

(** the calls the Precise backend makes for the job [(i, o, q)] with the
    tool [g] and the temporary file [tmp]: besides the lookup and the
    creation of [tmp], it runs the tool with the command line of [gs_cmd],
    creates the directory of the destination, and deletes or moves nothing
    but the temporary file and the destination *)
Definition precise_call (g i o : string) (q : Quality) (tmp : string)
    (e : Event) : bool :=
  match e with
  | EvEnter ghostscript => true
  | EvLocate => true
  | EvMkstemp r =>
      match r with Some p => String.eqb p tmp | None => true end
  | EvRun cmd _ => bool_decide (cmd = gs_cmd g q tmp i)
  | EvMakedirs d _ => String.eqb d (Py.or_else (OsPath.dirname o) ".")
  | EvRemove p _ => String.eqb p tmp || String.eqb p o
  | EvMove src dst _ => String.eqb src tmp && String.eqb dst o
  | _ => false
  end.

(** the calls the Basic backend makes for the job [(i, o)] *)
Definition basic_call (i o : string) (e : Event) : bool :=
  match e with
  | EvEnter basic => true
  | EvImportPikepdf _ => true
  | EvPikepdfOpen p _ => String.eqb p i
  | EvPikepdfSave p compress_streams linearize _ =>
      String.eqb p o && compress_streams && linearize
  | _ => false
  end.

(** the calls of an installation that downloads [url] into [p]: the
    lookup, the query of the release API, the download, runs of [p] (with
    or without [/S]) and the deletion of [p] *)
Definition install_call (url p : string) (e : Event) : bool :=
  match e with
  | EvLocate => true
  | EvUrlopen u _ => String.eqb u GITHUB_RELEASE_API || String.eqb u url
  | EvMkstemp r =>
      match r with Some q => String.eqb q p | None => true end
  | EvCopy q _ => String.eqb q p
  | EvRun cmd _ => bool_decide (cmd = [p; "/S"]) || bool_decide (cmd = [p])
  | EvRemove q _ => String.eqb q p
  | _ => false
  end.

(** events of the tool chain: lookup, temporary files, processes,
    deletions and moves, downloads *)
Definition tool_chain_event (e : Event) : bool :=
  match e with
  | EvLocate | EvMkstemp _ | EvRun _ _ | EvRemove _ _ | EvMove _ _ _
  | EvUrlopen _ _ | EvCopy _ _ | EvEnter ghostscript => true
  | _ => false
  end.

(** events of a download *)
Definition network_event (e : Event) : bool :=
  match e with
  | EvUrlopen _ _ | EvCopy _ _ => true
  | _ => false
  end.

(** ** The Precise backend up to the tool run *)

(** the world in which the Precise backend examines the tool path: its
    entry is logged and, when no path was given, the lookup was made *)
Definition lookup_world (gs_path : option string) (w : World) : World :=
  mkWorld (fs w)
    (log w ++ EvEnter ghostscript ::
       match gs_path with Some _ => [] | None => [EvLocate] end).

(** the tool path the backend works with: [gs_path], or the result of the
    lookup when [gs_path is None] *)
Definition resolved_tool (env : Env) (gs_path : option string) (w : World)
  : option string :=
  match gs_path with
  | Some g => Some g
  | None => locate env (lookup_world None w)
  end.

(** the name [tempfile.mkstemp] draws in that world *)
Definition tmp_of (env : Env) (gs_path : option string) (w : World) : string :=
  mkstemp_path env "tmp" ".pdf" (lookup_world gs_path w).

(** the world in which the tool is started: the temporary file exists
    and is empty *)
Definition tool_world (env : Env) (gs_path : option string) (w : World) : World :=
  mkWorld (<[tmp_of env gs_path w := File EmptyString]> (fs w))
    (log (lookup_world gs_path w) ++ [EvMkstemp (Some (tmp_of env gs_path w))]).

(** the backend gets as far as starting the tool [g]: the tool path is
    not empty and exists, and the temporary file can be created *)
Definition tool_ready (env : Env) (gs_path : option string) (g : string)
    (w : World) : Prop :=
  resolved_tool env gs_path w = Some g /\
  Py.truthy g = true /\
  path_exists (fs w) g = true /\
  os_fault env CMkstemp (lookup_world gs_path w) = None /\
  fs w !! tmp_of env gs_path w = None.

(** the outcome of a tool run that makes the backend report a failure:
    the process could not be started or timed out, exited with a non-zero
    status, or left no file at [tmp]; [f] is the file system after the
    run *)
Definition tool_failed (r : RunOutcome) (f : gmap string Node) (tmp : string) : bool :=
  match r with
  | Completed rc _ _ => negb ((rc =? 0) && path_exists f tmp)
  | RunRaised _ => true
  end.

(** a result of [engine] for the job [(i, o)] *)
Definition names_job (e : Engine) (i o : string) (res : CompressResult) : Prop :=
  engine res = e /\ input_path res = i /\ output_path res = o.

(** the destinations of the per-file results of a CLI job, in order *)
Fixpoint destinations (evs : list Event) : list string :=
  match evs with
  | [] => []
  | EvDone _ out _ :: rest => out :: destinations rest
  | _ :: rest => destinations rest
  end.

(** the first element of a list of candidates is a least one for the sort
    key of [_probe_common_windows_paths] *)
Definition least_first (env : Env) (l : list string) : Prop :=
  forall h, head l = Some h ->
    forall q, In q l -> key_le (probe_key env h) (probe_key env q) = true.

(** the calls of a job whose destination is [o]: the PDF library saves to
    [o], a file is moved to [o] only, and a per-file result names [o] *)
Definition aimed_at (o : string) (e : Event) : bool :=
  match e with
  | EvPikepdfSave p _ _ _ => String.eqb p o
  | EvMove _ dst _ => String.eqb dst o
  | EvDone _ out _ => String.eqb out o
  | _ => true
  end.

(* ===================================================================== *)
(** * The claims on the fallback and on the exit code, as the
      specification states them *)
(* ===================================================================== *)

(** "if a tool path is found it runs the Precise backend exactly once,
    returns that result when it succeeds, and on any Precise failure runs
    the Basic backend exactly once and returns the Basic result": with a
    tool path, a job of the auto engine ends with a result, which is the
    success of the one Precise run or the result of the one Basic run
    that followed it *)
Definition auto_falls_back_on_any_failure : Prop :=
  forall env i o q w,
    Py.truthy_opt (locate env (mkWorld (fs w) (log w ++ [EvLocate]))) = true ->
    exists res w' evs,
      auto_compress env i o q w = (Ret res, w') /\
      log w' = log w ++ evs /\
      ((entered evs = [ghostscript] /\ engine res = ghostscript /\ ok res = true) \/
       (entered evs = [ghostscript; basic] /\ engine res = basic)).

(** the exit status of the process started on [__main__.py], whose last
    statement is [sys.exit(_run_cli())]: the code [_run_cli] returns, and
    1 when an exception escapes from it (the interpreter prints the
    traceback and exits with status 1) *)
Definition exit_status (r : Outcome Z) : Z :=
  match r with
  | Ret code => code
  | Raise _ => 1
  end.

(** "the process exit code is 0 when every requested file succeeded, 1
    when no valid input was found, and 2 when one or more files failed":
    a requested file succeeded when a success was recorded for it *)
Definition exit_code_tells_outcome : Prop :=
  forall env args input w evs,
    arg_input args = Some input ->
    Py.truthy input = true ->
    log (snd (_run_cli env args w)) = log w ++ evs ->
    let status := exit_status (fst (_run_cli env args w)) in
    let requested :=
      requested_files env args input (snd (auto_install_step env args w)) in
    let succeeded := fun src => In (src, true) (finished evs) in
    (requested = [] -> status = 1) /\
    (requested <> [] -> Forall succeeded requested -> status = 0) /\
    (Exists (fun src => ~ succeeded src) requested -> status = 2).

(* ===================================================================== *)
(** * [logging_utils.py] on the file system *)
(* ===================================================================== *)

(** What the logging module needs of the host besides [Env]: the folder
    of the program ([None] when it cannot be determined and
    [os.getcwd()] fails too), the two time stamps, and the failures of
    opening the log file and of writing to it. *)
Record LogHost := mkLogHost {
  base_dir : World -> option string;
  file_stamp : World -> string;
  line_stamp : World -> string;
  open_fault : string -> World -> option string;
  write_fault : string -> World -> option string
}.

(** The front end above sees [safe_log] through the oracle [log_path]
    only; here the module is modelled on the file system. *)
Module LoggingUtils.

Section Logging.
Variable env : Env.
Variable host : LogHost.

(** [_base_dir] *)
Definition _base_dir : M string := fun w =>
  match base_dir host w with
  | Some base => (Ret base, w)
  | None => (Raise (Error "No such file or directory"), w)
  end.

(** [get_log_path] *)
Definition get_log_path : M string :=
  base ← _base_dir;
  let logs_dir := OsPath.join base ["logs"] in
  try_except
    (_ ← os_makedirs env logs_dir;
     mret (OsPath.join logs_dir ["app.log"]))
    (fun _ =>
       w ← get_world;
       mret (OsPath.join base ["app-error-" +:+ file_stamp host w +:+ ".log"])).

(** [open(path, "a", encoding="utf-8")]: the file is created when it is
    missing, and its contents are kept *)
Definition open_append (path : string) : M string := fun w =>
  match open_fault host path w with
  | Some msg => (Raise (Error msg), w)
  | None =>
      match fs w !! path with
      | Some Dir => (Raise (Error "Is a directory"), w)
      | Some (File old) => (Ret old, w)
      | None => (Ret EmptyString, mkWorld (<[path := File EmptyString]> (fs w)) (log w))
      end
  end.

(** [f.write(text)] on a file opened for appending that held [old] *)
Definition write_append (path old text : string) : M unit := fun w =>
  match write_fault host path w with
  | Some msg => (Raise (Error msg), w)
  | None =>
      (Ret tt, mkWorld (<[path := File (old +:+ text)]> (fs w)) (log w ++ [EvLog text]))
  end.

(** the line [f"[{ts}] {message}\n"] *)
Definition log_line (ts message : string) : string :=
  "[" +:+ ts +:+ "] " +:+ message +:+ String (ascii_of_nat 10) EmptyString.

(** [safe_log] *)
Definition safe_log (message : string) : M (option string) :=
  try_except
    (path ← get_log_path;
     old ← open_append path;
     w ← get_world;
     _ ← write_append path old (log_line (line_stamp host w) message);
     mret (Some path))
    (fun _ => mret None).

End Logging.

End LoggingUtils.

(* ===================================================================== *)
(** * Hosts and jobs used to exercise the properties of the code *)
(* ===================================================================== *)

(** a portable distribution: a 32-bit tool is bundled under the
    application folder and another tool is on [PATH] *)
Definition portable_disk : gmap string Node :=
  {[ "/opt/app/ghostscript/bin/gswin32c.exe" := File "MZ bundled";
     "/usr/bin/gs" := File "#!tool";
     "in.pdf" := File "%PDF-1.7 original" ]}.

Definition portable_host : Env := {|
  potential_roots := ["/opt/app/ghostscript"; "/opt/app/ghostscript"];
  which := fun name _ => if String.eqb name "gs" then Some "/usr/bin/gs" else None;
  glob := fun _ _ => [];
  os_fault := fun _ _ => None;
  tempdir := "/tmp";
  random_name := fun _ => "k3x9q2";
  listdir := fun _ _ => [];
  abspath := fun p => p;
  subprocess_run := fun _ _ w => (Completed 0 EmptyString EmptyString, fs w);
  pikepdf_import := fun _ => None;
  pikepdf_open := fun _ _ => None;
  pikepdf_save := fun _ out _ _ w => (None, <[out := File "%PDF-1.7 rewritten"]> (fs w));
  arch_bits := "64bit";
  release_assets := fun _ _ => inl "network unreachable";
  re_search_ignorecase := fun _ _ => false;
  urlopen := fun _ _ => inl "network unreachable";
  log_path := fun _ => None;
  gui_import := fun _ => None;
  gui_main := fun w => (None, fs w);
  os_path_basename := OsPath.basename
|}.

Definition portable_world : World := mkWorld portable_disk [].



(** the tool writes a document to the file named by [-sOutputFile=] *)
Definition tool_writes (cmd : list string) (f : gmap string Node) : gmap string Node :=
  match List.find (Py.startswith "-sOutputFile=") cmd with
  | Some arg => <[Py.drop 13 arg := File "%PDF-1.4 compressed"]> f
  | None => f
  end.

(** a host with a working tool *)
Definition working_tool_host : Env :=
  with_subprocess_run
    (fun cmd _ w => (Completed 0 EmptyString EmptyString, tool_writes cmd (fs w)))
    quiet_host.

(** a no-break space (code point 160) and a space *)
Definition blanks : string := String (ascii_of_nat 160) " ".

(** a host whose tool fails and prints only blanks *)
Definition silent_failure_host : Env :=
  with_subprocess_run (fun _ _ w => (Completed 3 EmptyString blanks, fs w)) quiet_host.

(** a host with the tool on [PATH] and without a usable temporary
    directory *)
Definition tool_without_temp_dir_host : Env :=
  with_os_fault
    (fun c _ => match c with
                | CMkstemp => Some "No usable temporary directory found"
                | _ => None
                end)
    portable_host.

(** one job of the auto engine *)
Definition auto_job (env : Env) : Outcome CompressResult * World :=
  perform env OpAuto "in.pdf" "out.pdf" balanced world0.

(** command lines used below *)
Definition no_args : Args := mkArgs None None auto false balanced.

Definition into_new_folder_args : Args :=
  mkArgs (Some "in.pdf") (Some "outdir") basic false balanced.

(** [--input in.pdf], everything else left at its default *)
Definition single_file_args : Args :=
  mkArgs (Some "in.pdf") None auto false balanced.

(** a folder job whose [--output] names a PDF file *)
Definition docs_into_one_file_args : Args :=
  mkArgs (Some "docs") (Some "all.pdf") basic false balanced.

(** the folder [docs] next to a file [all.pdf] *)
Definition docs_world_with_output : World :=
  mkWorld (<["all.pdf" := File "%PDF-1.7 previous output"]> docs_disk) [].

(** a job whose destination lies two folders deep *)
Definition nested_output : string := "new/sub/out.pdf".

(** ** A Windows host *)

Module NtPath.

(** [ntpath.basename] on a path made of a drive letter, folders and a
    name, as the patterns of the probe match them: the text after the
    last separator, backslash or slash.  (On such a path this is what is
    left when [ntpath.split] has taken off the drive, the root and the
    folders; UNC roots and drive-relative paths do not occur among the
    matches.) *)
Definition basename (p : string) : string :=
  Py.slice_from (Z.max (Py.rfind "\"%char p) (Py.rfind "/"%char p) + 1) p.

End NtPath.

(** two installations: a 32-bit tool in the folder [gs64c] and a 64-bit
    tool in the folder [gs9.56] *)
Definition tool32_in_gs64c : string :=
  "C:\\Program Files\\gs\gs64c\bin\gswin32c.exe".
Definition tool64_in_gs956 : string :=
  "C:\\Program Files\\gs\gs9.56\bin\gswin64c.exe".

Definition windows_host : Env := {|
  potential_roots := [];
  which := fun _ _ => None;
  glob := fun pattern _ =>
    if String.eqb pattern "C:\\Program Files\\gs\\gs*\\bin\\gswin64c.exe"
    then [tool64_in_gs956]
    else if String.eqb pattern "C:\\Program Files\\gs\\gs*\\bin\\gswin32c.exe"
    then [tool32_in_gs64c]
    else [];
  os_fault := fun _ _ => None;
  tempdir := "C:\Temp";
  random_name := fun _ => "k3x9q2";
  listdir := fun _ _ => [];
  abspath := fun p => p;
  subprocess_run := fun _ _ w => (Completed 0 EmptyString EmptyString, fs w);
  pikepdf_import := fun _ => None;
  pikepdf_open := fun _ _ => None;
  pikepdf_save := fun _ out _ _ w => (None, <[out := File "%PDF-1.7 rewritten"]> (fs w));
  arch_bits := "64bit";
  release_assets := fun _ _ => inl "network unreachable";
  re_search_ignorecase := fun _ _ => false;
  urlopen := fun _ _ => inl "network unreachable";
  log_path := fun _ => None;
  gui_import := fun _ => None;
  gui_main := fun w => (None, fs w);
  os_path_basename := NtPath.basename
|}.

(* ===================================================================== *)
(** * Facts about the string operations *)
(* ===================================================================== *)

Module PyFacts.
Import Py.

Lemma str_app_cons a s t : String a s +:+ t = String a (s +:+ t).
Proof. reflexivity. Qed.

Lemma str_app_empty_l t : EmptyString +:+ t = t.
Proof. reflexivity. Qed.

Lemma str_app_empty_r s : s +:+ EmptyString = s.
Proof. induction s as [|a s IH]; [reflexivity|]. rewrite ?str_app_cons, IH. reflexivity. Qed.

Lemma str_app_assoc s t u : (s +:+ t) +:+ u = s +:+ t +:+ u.
Proof.
  induction s as [|a s IH]; [reflexivity|].
  rewrite ?str_app_cons, IH. reflexivity.
Qed.

Lemma str_length_app s t :
  String.length (s +:+ t) = (String.length s + String.length t)%nat.
Proof.
  induction s as [|a s IH]; [reflexivity|].
  rewrite ?str_app_cons. simpl. rewrite IH. reflexivity.
Qed.

Lemma str_app_inj_r s1 s2 t : s1 +:+ t = s2 +:+ t -> s1 = s2.
Proof.
  revert s2. induction s1 as [|a s1 IH]; intros [|b s2] H.
  - reflexivity.
  - apply (f_equal String.length) in H.
    rewrite str_app_empty_l, str_app_cons in H. simpl in H.
    rewrite str_length_app in H. lia.
  - apply (f_equal String.length) in H.
    rewrite str_app_empty_l, str_app_cons in H. simpl in H.
    rewrite str_length_app in H. lia.
  - rewrite !str_app_cons in H. injection H as -> H. f_equal. auto.
Qed.

Lemma has_char_app c s t : has_char c (s +:+ t) <-> has_char c s \/ has_char c t.
Proof.
  induction s as [|a s IH].
  - rewrite str_app_empty_l. simpl. tauto.
  - rewrite ?str_app_cons. simpl. tauto.
Qed.

Lemma drop_app_length s t : drop (String.length s) (s +:+ t) = t.
Proof. induction s as [|a s IH]; [reflexivity|]. rewrite ?str_app_cons. simpl. exact IH. Qed.

Lemma take_app_length s t : take (String.length s) (s +:+ t) = s.
Proof.
  induction s as [|a s IH]; [reflexivity|].
  rewrite ?str_app_cons. simpl. rewrite IH. reflexivity.
Qed.

Lemma take_app_le n s t :
  (n <= String.length s)%nat -> take n (s +:+ t) = take n s.
Proof.
  revert n. induction s as [|a s IH]; intros [|n] H; simpl in *; try reflexivity; try lia.
  rewrite ?str_app_cons. simpl. rewrite IH by lia. reflexivity.
Qed.

Lemma take_drop n s : take n s +:+ drop n s = s.
Proof.
  revert s. induction n as [|n IH]; intros [|a s]; simpl; try reflexivity.
  rewrite ?str_app_cons, IH. reflexivity.
Qed.

Lemma has_char_take c n s : has_char c (take n s) -> has_char c s.
Proof.
  revert s. induction n as [|n IH]; intros [|a s]; simpl; try tauto.
  intros [H|H]; [left; exact H | right; auto].
Qed.

Lemma has_char_drop c n s : has_char c (drop n s) -> has_char c s.
Proof.
  revert s. induction n as [|n IH]; intros [|a s]; simpl; try tauto.
  intros H. right. auto.
Qed.

(** ** [rfind] *)

Lemma rfind_range c s : -1 <= rfind c s < len s.
Proof.
  unfold len. induction s as [|a s IH]; simpl; [lia|].
  destruct (0 <=? rfind c s) eqn:E; [apply Z.leb_le in E; lia|].
  destruct (Ascii.eqb a c); lia.
Qed.

Lemma rfind_absent c s : ~ has_char c s -> rfind c s = -1.
Proof.
  induction s as [|a s IH]; simpl; [reflexivity|].
  intros H. rewrite IH by tauto. simpl.
  destruct (Ascii.eqb_spec a c); [tauto | reflexivity].
Qed.

Lemma rfind_present c s : has_char c s -> 0 <= rfind c s.
Proof.
  induction s as [|a s IH]; simpl; [tauto|].
  intros [->|H].
  - destruct (0 <=? rfind c s) eqn:E; [apply Z.leb_le in E; lia|].
    rewrite Ascii.eqb_refl. lia.
  - specialize (IH H). rewrite (proj2 (Z.leb_le _ _) IH). lia.
Qed.

Lemma rfind_app_absent c s t : ~ has_char c t -> rfind c (s +:+ t) = rfind c s.
Proof.
  intros H. induction s as [|a s IH].
  - rewrite str_app_empty_l. simpl. apply rfind_absent, H.
  - rewrite ?str_app_cons. simpl. rewrite IH. reflexivity.
Qed.

Lemma rfind_app_present c s t :
  0 <= rfind c t -> rfind c (s +:+ t) = len s + rfind c t.
Proof.
  intros H. unfold len. induction s as [|a s IH].
  - rewrite str_app_empty_l. simpl. lia.
  - rewrite ?str_app_cons. simpl. rewrite IH.
    replace (0 <=? _) with true by (symmetry; apply Z.leb_le; lia). lia.
Qed.

Lemma rfind_last c s t :
  ~ has_char c t -> rfind c (s +:+ String c t) = len s.
Proof.
  intros H. rewrite rfind_app_present.
  - simpl. rewrite (rfind_absent _ _ H). simpl. rewrite Ascii.eqb_refl. lia.
  - simpl. rewrite (rfind_absent _ _ H). simpl. rewrite Ascii.eqb_refl. lia.
Qed.

(** everything after the last occurrence is free of [c] *)
Lemma drop_after_rfind c s : ~ has_char c (drop (Z.to_nat (rfind c s + 1)) s).
Proof.
  induction s as [|a s IH]; simpl; [tauto|].
  destruct (0 <=? rfind c s) eqn:E.
  - apply Z.leb_le in E.
    replace (Z.to_nat (rfind c s + 1 + 1)) with (S (Z.to_nat (rfind c s + 1))) by lia.
    simpl. exact IH.
  - apply Z.leb_gt in E.
    assert (Hr : rfind c s = -1) by (pose proof (rfind_range c s); lia).
    rewrite Hr in IH. simpl in IH.
    destruct (Ascii.eqb_spec a c); simpl.
    + exact IH.
    + intros [?|?]; [congruence | tauto].
Qed.

Lemma drop_add k m s : drop (k + m) s = drop k (drop m s).
Proof.
  revert s. induction m as [|m IH]; intros s.
  - rewrite Nat.add_0_r. reflexivity.
  - rewrite Nat.add_succ_r. destruct s as [|a s]; simpl.
    + destruct k; reflexivity.
    + apply IH.
Qed.

Lemma drop_past_rfind c n s :
  (Z.to_nat (rfind c s + 1) <= n)%nat -> ~ has_char c (drop n s).
Proof.
  intros Hn H.
  apply (drop_after_rfind c s).
  replace n with ((n - Z.to_nat (rfind c s + 1)) + Z.to_nat (rfind c s + 1))%nat in H by lia.
  rewrite drop_add in H. eapply has_char_drop, H.
Qed.

Lemma startswith_sep_absent s : ~ has_char "/" s -> startswith "/" s = false.
Proof.
  destruct s as [|a s]; [reflexivity|].
  intros H. cbn [startswith has_char] in *.
  destruct (Ascii.eqb_spec "/" a) as [<-|]; [tauto | reflexivity].
Qed.

Lemma slice_char_at a c b :
  slice (len a) (len a + 1) (a +:+ String c b) = String c EmptyString.
Proof.
  unfold slice, len. rewrite Nat2Z.id.
  replace (Z.to_nat (Z.of_nat (String.length a) + 1 - Z.of_nat (String.length a))) with 1%nat by lia.
  rewrite drop_app_length. reflexivity.
Qed.

(** ** Decimal rendering *)

Lemma pretty_N_char_not_sep x : pretty_N_char x <> "/"%char.
Proof. unfold pretty_N_char. by repeat case_match. Qed.

Lemma pretty_N_go_no_sep x s :
  ~ has_char "/" s -> ~ has_char "/" (pretty_N_go x s).
Proof.
  revert s. induction (N.lt_wf_0 x) as [x _ IH]; intros s Hs.
  assert (x = 0 \/ 0 < x)%N as [->|Hx] by lia.
  - rewrite pretty_N_go_0. exact Hs.
  - rewrite pretty_N_go_step by exact Hx. apply IH.
    + apply N.div_lt; lia.
    + simpl. intros [H|H]; [exact (pretty_N_char_not_sep _ H) | tauto].
Qed.

Lemma str_of_nat_no_sep n : ~ has_char "/" (str_of_nat n).
Proof.
  unfold str_of_nat, pretty, pretty_nat, pretty, pretty_N.
  case_decide.
  - simpl. intros [E|E]; [discriminate E | exact E].
  - apply pretty_N_go_no_sep. simpl. tauto.
Qed.

Lemma str_of_nat_inj n m : str_of_nat n = str_of_nat m -> n = m.
Proof. unfold str_of_nat. apply pretty_nat_inj. Qed.

End PyFacts.

(* ===================================================================== *)
(** * Facts about [os.path] *)
(* ===================================================================== *)

Module OsPathFacts.
Import Py PyFacts OsPath.

Lemma basename_no_sep p : ~ has_char sep (basename p).
Proof. unfold basename, slice_from. apply drop_after_rfind. Qed.

(** [splitext] either keeps the path whole or cuts it at [dotIndex]. *)
Lemma splitext_scan_cases p d n i :
  splitext_scan p d n i = (p, EmptyString) \/
  splitext_scan p d n i = (slice_to d p, slice_from d p).
Proof.
  revert i. induction n as [|n IH]; intros i; cbn [splitext_scan]; [left; reflexivity|].
  destruct (negb _); [right; reflexivity | apply IH].
Qed.

Lemma splitext_concat p : fst (splitext p) +:+ snd (splitext p) = p.
Proof.
  unfold splitext. destruct (_ <? _); [|apply str_app_empty_r].
  destruct (splitext_scan_cases p (rfind extsep p)
             (Z.to_nat (rfind extsep p - (rfind sep p + 1))) (rfind sep p + 1)) as [-> | ->];
    cbn [fst snd]; [apply str_app_empty_r | apply take_drop].
Qed.

Lemma splitext_ext_no_sep p : ~ has_char sep (snd (splitext p)).
Proof.
  unfold splitext. destruct (Z.ltb_spec (rfind sep p) (rfind extsep p)) as [Hlt|]; [|simpl; tauto].
  destruct (splitext_scan_cases p (rfind extsep p)
             (Z.to_nat (rfind extsep p - (rfind sep p + 1))) (rfind sep p + 1)) as [-> | ->];
    cbn [snd]; [simpl; tauto|].
  unfold slice_from. apply drop_past_rfind.
  pose proof (rfind_range sep p). lia.
Qed.

Lemma splitext_root_no_sep p : ~ has_char sep p -> ~ has_char sep (fst (splitext p)).
Proof.
  intros Hp H. apply Hp.
  rewrite <- (splitext_concat p). apply has_char_app. left. exact H.
Qed.

Lemma stem_no_sep src : ~ has_char sep (stem_of src).
Proof. apply splitext_root_no_sep, basename_no_sep. Qed.

(** the scan stops at the first character that is not a dot *)
Lemma splitext_scan_found p d n i j :
  0 <= i -> i + Z.of_nat n = d -> i <= j < d ->
  slice j (j + 1) p <> "." ->
  splitext_scan p d n i = (slice_to d p, slice_from d p).
Proof.
  revert i. induction n as [|n IH]; intros i Hi Hd Hj Hne; [lia|].
  cbn [splitext_scan].
  destruct (String.eqb_spec (slice i (i + 1) p) ".") as [E|E]; cbn [negb]; [|reflexivity].
  apply IH; try lia.
  - assert (j <> i) by (intros ->; contradiction). lia.
  - exact Hne.
Qed.

(** [splitext] of a path whose last component is [name.pdf], where
    [name] holds no separator and some character other than a dot. *)
Lemma splitext_pdf pre n1 c n2 :
  c <> "."%char ->
  ~ has_char sep (n1 +:+ String c n2) ->
  splitext (pre +:+ (n1 +:+ String c n2) +:+ ".pdf")
  = (pre +:+ (n1 +:+ String c n2), ".pdf").
Proof.
  intros Hc Hsep.
  set (name := n1 +:+ String c n2) in *.
  set (p := pre +:+ name +:+ ".pdf").
  assert (Hp : p = (pre +:+ name) +:+ String extsep "pdf").
  { unfold p. rewrite str_app_assoc. reflexivity. }
  assert (Hdot : rfind extsep p = len (pre +:+ name)).
  { rewrite Hp. apply rfind_last. unfold extsep. simpl.
    intros [H|[H|[H|H]]]; try discriminate H; exact H. }
  assert (Hsepi : rfind sep p = rfind sep pre).
  { unfold p. apply rfind_app_absent. intros H. apply has_char_app in H as [H|H]; [tauto|].
    unfold sep in H. simpl in H.
    destruct H as [H|[H|[H|[H|H]]]]; try discriminate H; exact H. }
  pose proof (rfind_range sep pre) as Hr.
  assert (Hlen : len (pre +:+ name) = len pre + len name).
  { unfold len. rewrite str_length_app. lia. }
  assert (Hname : len name = len n1 + 1 + len n2).
  { unfold len, name. rewrite str_length_app. simpl. lia. }
  unfold splitext. fold p. rewrite Hdot, Hsepi.
  destruct (Z.ltb_spec (rfind sep pre) (len (pre +:+ name))) as [_|Hge].
  2:{ unfold len in *. lia. }
  rewrite (splitext_scan_found p _ _ _ (len (pre +:+ n1))).
  - unfold slice_to, slice_from, len. rewrite Nat2Z.id, Hp.
    rewrite take_app_length, drop_app_length. reflexivity.
  - lia.
  - unfold len in *. lia.
  - rewrite Hlen, Hname. unfold len. rewrite str_length_app. unfold len in *. lia.
  - replace p with ((pre +:+ n1) +:+ String c (n2 +:+ ".pdf")).
    + rewrite slice_char_at. intros H. injection H as H. exact (Hc H).
    + unfold p, name. rewrite !str_app_assoc. reflexivity.
Qed.

(** the model agrees with the standard library on its documented cases *)
Example basename_dirname_examples :
  basename "D/a.pdf" = "a.pdf" /\ dirname "D/a.pdf" = "D" /\
  basename "a.pdf" = "a.pdf" /\ dirname "a.pdf" = EmptyString /\
  basename "/a.pdf" = "a.pdf" /\ dirname "/a.pdf" = "/" /\
  basename "D/sub/" = EmptyString /\ dirname "D/sub/" = "D/sub" /\
  dirname "//a.pdf" = "//" /\ dirname "D//a.pdf" = "D".
Proof. vm_compute. repeat split; reflexivity. Qed.

Example splitext_examples :
  splitext "D/a.pdf" = ("D/a", ".pdf") /\
  splitext "D/a.tar.gz" = ("D/a.tar", ".gz") /\
  splitext "D/.bashrc" = ("D/.bashrc", EmptyString) /\
  splitext "D/...a.b" = ("D/...a", ".b") /\
  splitext "D.x/a" = ("D.x/a", EmptyString) /\
  splitext "a." = ("a", ".").
Proof. vm_compute. repeat split; reflexivity. Qed.

Example join_examples :
  join "D" ["a"; "b"] = "D/a/b" /\
  join "D/" ["a"] = "D/a" /\
  join EmptyString ["a"] = "a" /\
  join "D" ["/a"] = "/a" /\
  join "D" [EmptyString] = "D/".
Proof. vm_compute. repeat split; reflexivity. Qed.

End OsPathFacts.

(* ===================================================================== *)
(** * The counting loop of [ensure_unique_output_path] *)
(* ===================================================================== *)

Module OsPathJoin.
Import Py PyFacts OsPath OsPathFacts.

Lemma join_single d b : join d [b] = join2 d b.
Proof. reflexivity. Qed.

(** joining a directory and a separator-free name prepends a fixed prefix *)
Lemma join2_name d b :
  ~ has_char sep b ->
  join2 d b = (if negb (truthy d) || endswith "/" d then d else d +:+ "/") +:+ b.
Proof.
  intros Hb. unfold join2. rewrite (startswith_sep_absent b Hb).
  destruct (negb (truthy d) || endswith "/" d); [reflexivity|].
  rewrite str_app_assoc. reflexivity.
Qed.

Lemma dirname_app_no_sep r s :
  ~ has_char sep s -> dirname (r +:+ s) = dirname r.
Proof.
  intros Hs. unfold dirname. rewrite (rfind_app_absent sep r s Hs).
  unfold slice_to. rewrite take_app_le; [reflexivity|].
  pose proof (rfind_range sep r). unfold len in *. lia.
Qed.

End OsPathJoin.

Section UniqueLoopFacts.
Import Py PyFacts OsPath OsPathFacts OsPathJoin.
Variable exists_ : string -> bool.
Variables root ext : string.

Lemma candidate_inj i j : candidate root ext i = candidate root ext j -> i = j.
Proof.
  unfold candidate. intros H.
  apply (inj (String.app root)) in H.
  apply (inj (String.app " (")) in H.
  apply str_app_inj_r in H.
  apply str_of_nat_inj, H.
Qed.

(** from [i] on, the loop returns the first candidate that does not exist,
    as soon as the bound reaches it *)
Lemma unique_loop_scan fuel i k :
  (i <= k < i + fuel)%nat ->
  exists_ (candidate root ext k) = false ->
  exists k', (i <= k' <= k)%nat /\
    unique_loop exists_ root ext fuel i = Some (candidate root ext k') /\
    exists_ (candidate root ext k') = false /\
    forall j, (i <= j < k')%nat -> exists_ (candidate root ext j) = true.
Proof.
  revert i. induction fuel as [|fuel IH]; intros i Hk Hfree; [lia|].
  cbn [unique_loop].
  destruct (exists_ (candidate root ext i)) eqn:Ei; cbn [negb].
  - assert (k <> i) by (intros ->; congruence).
    destruct (IH (S i)) as (k' & Hk' & Hloop & Hfree' & Hbelow); [lia | exact Hfree |].
    exists k'. repeat split; try lia; try assumption.
    intros j Hj. destruct (decide (j = i)) as [->|]; [exact Ei | apply Hbelow; lia].
  - exists i. repeat split; try lia; try assumption.
Qed.

(** pigeonhole: among [length files + 1] candidates one is not in [files] *)
Lemma some_candidate_free (files : list string) :
  (forall k, exists_ (candidate root ext k) = true -> In (candidate root ext k) files) ->
  exists k, (1 <= k <= S (length files))%nat /\ exists_ (candidate root ext k) = false.
Proof.
  intros Hfin.
  set (cs := map (candidate root ext) (seq 1 (S (length files)))).
  destruct (existsb (fun c => negb (exists_ c)) cs) eqn:E.
  - apply existsb_exists in E as (c & Hc & Hneg).
    apply in_map_iff in Hc as (k & <- & Hk). apply in_seq in Hk.
    exists k. split; [lia|]. destruct (exists_ _); [discriminate | reflexivity].
  - exfalso.
    assert (Hall : forall c, In c cs -> exists_ c = true).
    { intros c Hc. destruct (exists_ c) eqn:Ec; [reflexivity|].
      assert (existsb (fun c => negb (exists_ c)) cs = true); [|congruence].
      apply existsb_exists. exists c. rewrite Ec. auto. }
    assert (Hincl : incl cs files).
    { intros c Hc. pose proof (Hall c Hc) as Hex.
      apply in_map_iff in Hc as (k & <- & _). apply Hfin, Hex. }
    assert (Hnd : List.NoDup cs).
    { unfold cs. apply Finite.Injective_map_NoDup; [|apply seq_NoDup].
      intros a b. apply candidate_inj. }
    pose proof (NoDup_incl_length Hnd Hincl) as Hlen.
    unfold cs in Hlen. rewrite length_map, length_seq in Hlen. lia.
Qed.

Lemma unique_loop_total (files : list string) fuel :
  (forall k, exists_ (candidate root ext k) = true -> In (candidate root ext k) files) ->
  (length files < fuel)%nat ->
  exists k, (1 <= k)%nat /\
    unique_loop exists_ root ext fuel 1 = Some (candidate root ext k) /\
    exists_ (candidate root ext k) = false /\
    forall j, (1 <= j < k)%nat -> exists_ (candidate root ext j) = true.
Proof.
  intros Hfin Hfuel.
  destruct (some_candidate_free files Hfin) as (k & Hk & Hfree).
  destruct (unique_loop_scan fuel 1 k) as (k' & Hk' & Hloop & Hfree' & Hbelow);
    [lia | exact Hfree |].
  exists k'. repeat split; try lia; assumption.
Qed.

End UniqueLoopFacts.

Section FsFacts.
Variable f : gmap string Node.

Lemma path_exists_listed p : path_exists f p = true -> In p (map fst (map_to_list f)).
Proof.
  unfold path_exists. destruct (f !! p) as [n|] eqn:E; [intros _ | discriminate].
  apply in_map_iff. exists (p, n). split; [reflexivity|].
  apply list_elem_of_In, elem_of_map_to_list, E.
Qed.

Lemma listed_length : length (map fst (map_to_list f)) = size f.
Proof. rewrite length_map. apply length_map_to_list. Qed.

(** one more iteration than there are paths suffices on a file system *)
Lemma ensure_unique_output_path_fuel_enough base_path :
  exists p,
    ensure_unique_output_path_fuel (path_exists f) (S (size f)) base_path = Some p /\
    path_exists f p = false.
Proof.
  unfold ensure_unique_output_path_fuel.
  destruct (path_exists f base_path) eqn:E; cbn [negb].
  - destruct (OsPath.splitext base_path) as [root ext].
    destruct (unique_loop_total (path_exists f) root ext (map fst (map_to_list f)) (S (size f)))
      as (k & _ & Hloop & Hfree & _).
    + intros k. apply path_exists_listed.
    + rewrite listed_length. lia.
    + eauto.
  - eauto.
Qed.

Lemma ensure_unique_output_path_free base_path :
  path_exists f (ensure_unique_output_path f base_path) = false.
Proof.
  unfold ensure_unique_output_path.
  destruct (ensure_unique_output_path_fuel_enough base_path) as (p & -> & Hp).
  exact Hp.
Qed.

End FsFacts.

(* ===================================================================== *)
(** * Quality presets (C2) *)
(* ===================================================================== *)

(** C2. The coarse profile is extreme -> screen, strong -> screen,
    balanced -> ebook, high -> printer, a total function on exactly these
    four presets; the tuning flags are, for extreme, Average downsampling of
    colour and gray images to 72 DPI, Subsample downsampling of mono images
    to 150 DPI, forced DCTEncode with JPEGQ=20, duplicate-image detection
    and font subsetting/compression; for strong the same shape with 96, 180
    and 35; for balanced and high only duplicate-image detection and font
    subsetting/compression.  The flags are spliced into the command line
    after its first five elements. *)
Theorem quality_mapping_and_tuning_flags (quality : Quality) :
  (quality = extreme \/ quality = strong \/ quality = balanced \/ quality = high) /\
  _map_quality_to_pdfsettings quality =
    match quality with
    | extreme => "screen" | strong => "screen"
    | balanced => "ebook" | high => "printer"
    end /\
  _ghostscript_extra_args_for_quality quality =
    match quality with
    | extreme => spec_tuning 72 150 20
    | strong => spec_tuning 96 180 35
    | balanced | high => spec_size_savers
    end /\
  forall gs_path tmp_out input_path,
    gs_cmd gs_path quality tmp_out input_path =
      [ gs_path; "-sDEVICE=pdfwrite"; "-dCompatibilityLevel=1.4";
        "-dPDFSETTINGS=/" +:+ _map_quality_to_pdfsettings quality; "-dNOPAUSE" ]
      ++ _ghostscript_extra_args_for_quality quality
      ++ [ "-dQUIET"; "-dBATCH"; "-sOutputFile=" +:+ tmp_out; input_path ].
Proof.
  split; [destruct quality; tauto|].
  split; [destruct quality; reflexivity|].
  split; [destruct quality; vm_compute; reflexivity|].
  intros gs_path tmp_out input_path. destruct quality; reflexivity.
Qed.

(* ===================================================================== *)
(** * Output path resolver (C4, C10) *)
(* ===================================================================== *)

Section Resolver.
Import Py PyFacts OsPath OsPathFacts OsPathJoin.

(** the name [<stem>-compressed<suffix>.pdf] holds no separator *)
Lemma compressed_name_no_sep src suffix :
  ~ has_char sep suffix ->
  ~ has_char sep (stem_of src +:+ "-compressed" +:+ suffix +:+ ".pdf").
Proof.
  intros Hs H.
  apply has_char_app in H as [H|H]; [exact (stem_no_sep src H)|].
  apply has_char_app in H as [H|H].
  { unfold sep in H. simpl in H. repeat (destruct H as [H|H]; [discriminate H|]). exact H. }
  apply has_char_app in H as [H|H]; [exact (Hs H)|].
  unfold sep in H. simpl in H. repeat (destruct H as [H|H]; [discriminate H|]). exact H.
Qed.

Lemma counting_suffix_no_sep k : ~ has_char sep (" (" +:+ str_of_nat k +:+ ")").
Proof.
  intros H. apply has_char_app in H as [H|H].
  { unfold sep in H. simpl in H. repeat (destruct H as [H|H]; [discriminate H|]). exact H. }
  apply has_char_app in H as [H|H]; [exact (str_of_nat_no_sep k H)|].
  unfold sep in H. simpl in H. repeat (destruct H as [H|H]; [discriminate H|]). exact H.
Qed.

(** [splitext] of the base candidate, and the shape of its numbered
    candidates *)
Lemma splitext_base_candidate d src :
  splitext (join d [stem_of src +:+ "-compressed.pdf"]) =
  ((if negb (truthy d) || endswith "/" d then d else d +:+ "/")
     +:+ stem_of src +:+ "-compressed", ".pdf").
Proof.
  rewrite join_single, join2_name.
  2:{ apply (compressed_name_no_sep src EmptyString). simpl. tauto. }
  set (pre := if negb (truthy d) || endswith "/" d then d else d +:+ "/").
  pose proof (splitext_pdf pre (stem_of src) "-" "compressed") as H.
  replace (pre +:+ stem_of src +:+ "-compressed.pdf")
    with (pre +:+ (stem_of src +:+ String "-" "compressed") +:+ ".pdf")
    by (rewrite !str_app_assoc; reflexivity).
  rewrite H.
  - reflexivity.
  - discriminate.
  - intros Hc. apply has_char_app in Hc as [Hc|Hc]; [exact (stem_no_sep src Hc)|].
    unfold sep in Hc. simpl in Hc.
    repeat (destruct Hc as [Hc|Hc]; [discriminate Hc|]). exact Hc.
Qed.

Lemma numbered_candidate d src k :
  candidate ((if negb (truthy d) || endswith "/" d then d else d +:+ "/")
               +:+ stem_of src +:+ "-compressed") ".pdf" k
  = join d [stem_of src +:+ "-compressed" +:+ (" (" +:+ str_of_nat k +:+ ")") +:+ ".pdf"].
Proof.
  rewrite join_single, join2_name.
  2:{ apply compressed_name_no_sep, counting_suffix_no_sep. }
  unfold candidate. rewrite !str_app_assoc. reflexivity.
Qed.

End Resolver.

(** C4. The resolver targets the explicit output directory when one is
    given (a non-empty string, as [output_dir or ...] tests it) and the
    source file's own directory otherwise, proposes
    [<stem>-compressed.pdf] there, returns it unchanged when nothing exists
    at that path, and otherwise returns [<stem>-compressed (k).pdf] for the
    first [k = 1, 2, ...] at which nothing exists. *)
Theorem default_output_path_for_resolves
    (f : gmap string Node) (src_path : string) (output_dir : option string) :
  let target_dir :=
    match output_dir with
    | Some d => if Py.truthy d then d else OsPath.dirname src_path
    | None => OsPath.dirname src_path
    end in
  let stem := fst (OsPath.splitext (OsPath.basename src_path)) in
  let named (suffix : string) :=
    OsPath.join target_dir [stem +:+ "-compressed" +:+ suffix +:+ ".pdf"] in
  let numbered (k : nat) := named (" (" +:+ Py.str_of_nat k +:+ ")") in
  let result := default_output_path_for f src_path output_dir in
  path_exists f result = false /\
  ((path_exists f (named EmptyString) = false /\ result = named EmptyString) \/
   (path_exists f (named EmptyString) = true /\
    exists k, (1 <= k)%nat /\ result = numbered k /\
      forall j, (1 <= j < k)%nat -> path_exists f (numbered j) = true)).
Proof.
  intros target_dir stem named numbered result.
  assert (Hres : result = ensure_unique_output_path f (named EmptyString)).
  { unfold result, default_output_path_for, named, stem.
    destruct (OsPath.splitext (OsPath.basename src_path)) as [s e]. reflexivity. }
  split; [rewrite Hres; apply ensure_unique_output_path_free|].
  rewrite Hres. unfold ensure_unique_output_path, ensure_unique_output_path_fuel.
  destruct (path_exists f (named EmptyString)) eqn:E; cbn [negb].
  - right. split; [reflexivity|].
    pose proof (splitext_base_candidate target_dir src_path) as Hsplit.
    change (OsPath.join target_dir [stem_of src_path +:+ "-compressed.pdf"])
      with (named EmptyString) in Hsplit.
    rewrite Hsplit.
    set (root := _ +:+ stem_of src_path +:+ "-compressed").
    destruct (unique_loop_total (path_exists f) root ".pdf"
                (map fst (map_to_list f)) (S (size f)))
      as (k & Hk & Hloop & _ & Hbelow).
    + intros k. apply path_exists_listed.
    + rewrite listed_length. lia.
    + rewrite Hloop. cbn [default from_option id].
      exists k. split; [exact Hk|]. split.
      * unfold root, numbered, named, stem. apply numbered_candidate.
      * intros j Hj. unfold numbered, named, stem.
        fold (stem_of src_path).
        rewrite <- numbered_candidate. apply Hbelow, Hj.
  - left. split; reflexivity.
Qed.

(** the resolver examples of the specification *)
Example resolve_fresh :
  default_output_path_for ∅ "D/a.pdf" None = "D/a-compressed.pdf".
Proof. reflexivity. Qed.

Example resolve_taken :
  default_output_path_for {[ "D/a-compressed.pdf" := File "%PDF" ]} "D/a.pdf" None
  = "D/a-compressed (1).pdf".
Proof. vm_compute. reflexivity. Qed.

Example resolve_taken_twice :
  default_output_path_for
    {[ "D/a-compressed.pdf" := File "%PDF"; "D/a-compressed (1).pdf" := File "%PDF" ]}
    "D/a.pdf" None
  = "D/a-compressed (2).pdf".
Proof. vm_compute. reflexivity. Qed.

Example resolve_explicit_directory :
  default_output_path_for {[ "D/a-compressed.pdf" := File "%PDF" ]} "D/a.pdf" (Some "out")
  = "out/a-compressed.pdf".
Proof. vm_compute. reflexivity. Qed.

(** C10. When only finitely many paths exist in the directory of
    [base_path], the counting loop of [ensure_unique_output_path] returns:
    some bound on the number of iterations is enough, every larger bound
    gives the same path, that path is [base_path] or a numbered candidate,
    and nothing exists at it when it is checked. *)
Theorem ensure_unique_output_path_terminates
    (exists_ : string -> bool) (base_path : string) (files : list string) :
  (forall p, OsPath.dirname p = OsPath.dirname base_path ->
             exists_ p = true -> In p files) ->
  exists (fuel : nat) (p : string),
    (forall fuel', (fuel <= fuel')%nat ->
       ensure_unique_output_path_fuel exists_ fuel' base_path = Some p) /\
    exists_ p = false /\
    (p = base_path \/
     exists k, (1 <= k)%nat /\
       p = candidate (fst (OsPath.splitext base_path))
                     (snd (OsPath.splitext base_path)) k).
Proof.
  intros Hfin.
  unfold ensure_unique_output_path_fuel.
  destruct (exists_ base_path) eqn:E; cbn [negb].
  - pose proof (OsPathFacts.splitext_concat base_path) as Hcat.
    pose proof (OsPathFacts.splitext_ext_no_sep base_path) as Hext.
    destruct (OsPath.splitext base_path) as [root ext]. cbn [fst snd] in *.
    destruct (some_candidate_free exists_ root ext files) as (k & Hk & Hfree).
    { intros k Hex. apply Hfin; [|exact Hex].
      unfold candidate. rewrite <- Hcat.
      rewrite !OsPathJoin.dirname_app_no_sep; [reflexivity | exact Hext |].
      intros H. apply PyFacts.has_char_app in H as [H|H].
      { unfold OsPath.sep in H. simpl in H.
        repeat (destruct H as [H|H]; [discriminate H|]). exact H. }
      apply PyFacts.has_char_app in H as [H|H]; [exact (PyFacts.str_of_nat_no_sep k H)|].
      apply PyFacts.has_char_app in H as [H|H]; [|exact (Hext H)].
      unfold OsPath.sep in H. simpl in H.
      repeat (destruct H as [H|H]; [discriminate H|]). exact H. }
    destruct (unique_loop_scan exists_ root ext k 1 k) as (k' & Hk' & _ & Hfree' & Hbelow);
      [lia | exact Hfree |].
    exists k', (candidate root ext k'). split; [|split].
    + intros fuel' Hfuel.
      destruct (unique_loop_scan exists_ root ext fuel' 1 k') as (k'' & Hk'' & Hloop & _ & Hb);
        [lia | exact Hfree' |].
      rewrite Hloop. f_equal. f_equal.
      destruct (decide (k'' = k')) as [->|Hne]; [reflexivity|].
      exfalso. assert (Hlt : (1 <= k'' < k')%nat) by lia.
      specialize (Hbelow k'' Hlt).
      destruct (unique_loop_scan exists_ root ext fuel' 1 k') as (k3 & ? & Hloop3 & Hfree3 & ?);
        [lia | exact Hfree' |].
      rewrite Hloop in Hloop3. injection Hloop3 as Heq.
      apply candidate_inj in Heq. subst k3. congruence.
    + exact Hfree'.
    + right. exists k'. split; [lia | reflexivity].
  - exists 0%nat, base_path. split; [|split]; auto.
Qed.

(** the loop on a directory that holds [a.pdf] and [a (1).pdf] *)
Lemma ensure_unique_output_path_terminates_witness :
  (forall p, OsPath.dirname p = OsPath.dirname "D/a.pdf" ->
             two_files_exist p = true -> In p ["D/a.pdf"; "D/a (1).pdf"]) /\
  exists (fuel : nat) (p : string),
    (forall fuel', (fuel <= fuel')%nat ->
       ensure_unique_output_path_fuel two_files_exist fuel' "D/a.pdf" = Some p) /\
    two_files_exist p = false /\
    (p = "D/a.pdf" \/
     exists k, (1 <= k)%nat /\
       p = candidate (fst (OsPath.splitext "D/a.pdf"))
                     (snd (OsPath.splitext "D/a.pdf")) k).
Proof.
  assert (H : forall p, OsPath.dirname p = OsPath.dirname "D/a.pdf" ->
             two_files_exist p = true -> In p ["D/a.pdf"; "D/a (1).pdf"]).
  { intros p _ Hp. unfold two_files_exist in Hp.
    apply orb_true_iff in Hp as [Hp|Hp]; apply String.eqb_eq in Hp; subst; simpl; auto. }
  split; [exact H|].
  exact (ensure_unique_output_path_terminates two_files_exist "D/a.pdf"
           ["D/a.pdf"; "D/a (1).pdf"] H).
Defined.

(* ===================================================================== *)
(** * Reasoning about the monad and the call log *)
(* ===================================================================== *)

Lemma bind_ret_eq {A B} (m : M A) (k : A -> M B) w a w' :
  m w = (Ret a, w') -> (m ≫= k) w = k a w'.
Proof. intros H. unfold mbind, M_bind. rewrite H. reflexivity. Qed.

Lemma bind_raise_eq {A B} (m : M A) (k : A -> M B) w e w' :
  m w = (Raise e, w') -> (m ≫= k) w = (Raise e, w').
Proof. intros H. unfold mbind, M_bind. rewrite H. reflexivity. Qed.

Lemma entered_app l1 l2 : entered (l1 ++ l2) = entered l1 ++ entered l2.
Proof.
  induction l1 as [|e l1 IH]; [reflexivity|].
  destruct e; simpl; rewrite ?IH; reflexivity.
Qed.

Lemma finished_app l1 l2 : finished (l1 ++ l2) = finished l1 ++ finished l2.
Proof.
  induction l1 as [|e l1 IH]; [reflexivity|].
  destruct e; simpl; rewrite ?IH; reflexivity.
Qed.

Lemma entered_sys evs : Forall (fun e => sys_event e = true) evs -> entered evs = [].
Proof.
  induction 1 as [|e evs He _ IH]; [reflexivity|].
  destruct e; simpl in *; try discriminate; exact IH.
Qed.

Lemma finished_sys evs : Forall (fun e => sys_event e = true) evs -> finished evs = [].
Proof.
  induction 1 as [|e evs He _ IH]; [reflexivity|].
  destruct e; simpl in *; try discriminate; exact IH.
Qed.

Create HintDb quiet_db.

Section Quiet.
Context {A B : Type}.

Lemma quiet_ret (a : A) : quiet (mret a).
Proof. intros w. exists []. simpl. rewrite app_nil_r. auto. Qed.

Lemma quiet_raise (e : Exn) : quiet (@raise A e).
Proof. intros w. exists []. simpl. rewrite app_nil_r. auto. Qed.

Lemma quiet_bind (m : M A) (k : A -> M B) :
  quiet m -> (forall a, quiet (k a)) -> quiet (m ≫= k).
Proof.
  intros Hm Hk w. unfold mbind, M_bind.
  destruct (Hm w) as (e1 & H1 & F1). destruct (m w) as [[a|e] w1]; simpl in *.
  - destruct (Hk a w1) as (e2 & H2 & F2).
    exists (e1 ++ e2). rewrite H2, H1, app_assoc. split; [reflexivity|].
    apply Forall_app; auto.
  - exists e1. auto.
Qed.

Lemma quiet_try_except (m : M A) (h : Exn -> M A) :
  quiet m -> (forall e, quiet (h e)) -> quiet (try_except m h).
Proof.
  intros Hm Hh w. unfold try_except.
  destruct (Hm w) as (e1 & H1 & F1). destruct (m w) as [[a|e] w1]; simpl in *.
  - exists e1. auto.
  - destruct (Hh e w1) as (e2 & H2 & F2).
    exists (e1 ++ e2). rewrite H2, H1, app_assoc. split; [reflexivity|].
    apply Forall_app; auto.
Qed.

Lemma quiet_try_finally (m : M A) (c : M unit) :
  quiet m -> quiet c -> quiet (try_finally m c).
Proof.
  intros Hm Hc w. unfold try_finally.
  destruct (Hm w) as (e1 & H1 & F1). destruct (m w) as [r w1]; simpl in *.
  destruct (Hc w1) as (e2 & H2 & F2). destruct (c w1) as [[[]|e] w2]; simpl in *;
    exists (e1 ++ e2); rewrite H2, H1, app_assoc; (split; [reflexivity|]);
    apply Forall_app; auto.
Qed.

End Quiet.

Lemma quiet_swallow (m : M unit) : quiet m -> quiet (swallow m).
Proof. intros H. apply quiet_try_except; [exact H | intros; apply quiet_ret]. Qed.

Lemma quiet_when b (m : M unit) : quiet m -> quiet (when b m).
Proof. intros H. destruct b; [exact H | apply quiet_ret]. Qed.

Lemma quiet_get_world : quiet get_world.
Proof. intros w. exists []. simpl. rewrite app_nil_r. auto. Qed.

Lemma quiet_set_fs f : quiet (set_fs f).
Proof. intros w. exists []. simpl. rewrite app_nil_r. auto. Qed.

Lemma quiet_emit e : sys_event e = true -> quiet (emit e).
Proof. intros H w. exists [e]. simpl. auto. Qed.

(** an operation that appends exactly one non-ghost event *)
Ltac quiet_primitive :=
  intros w;
  repeat match goal with
         | |- context [match ?x with _ => _ end] => destruct x eqn:?
         end;
  (eexists [_]; simpl; split; [reflexivity | repeat constructor]).

Section QuietOs.
Variable env : Env.

Lemma quiet_mkstemp prefix suffix : quiet (mkstemp env prefix suffix).
Proof. unfold mkstemp. quiet_primitive. Qed.

Lemma quiet_os_remove p : quiet (os_remove env p).
Proof. unfold os_remove. quiet_primitive. Qed.

Lemma quiet_shutil_move src dst : quiet (shutil_move env src dst).
Proof. unfold shutil_move. quiet_primitive. Qed.

Lemma quiet_os_makedirs d : quiet (os_makedirs env d).
Proof. unfold os_makedirs. quiet_primitive. Qed.

Lemma quiet_run cmd timeout : quiet (run env cmd timeout).
Proof. unfold run. quiet_primitive. Qed.

Lemma quiet_print line : quiet (print env line).
Proof.
  unfold print. intros w. destruct (os_fault env (CPrint line) w).
  - exists []. simpl. rewrite app_nil_r. auto.
  - exists [EvPrint line]. simpl. split; [reflexivity | repeat constructor].
Qed.

Lemma quiet_os_listdir d : quiet (os_listdir env d).
Proof.
  unfold os_listdir. intros w. exists [].
  destruct (os_fault env (CListdir d) w); simpl; rewrite app_nil_r; auto.
Qed.

Lemma quiet_import_pikepdf : quiet (import_pikepdf env).
Proof. unfold import_pikepdf. quiet_primitive. Qed.

Lemma quiet_pikepdf_open p : quiet (pikepdf_open_ env p).
Proof. unfold pikepdf_open_. quiet_primitive. Qed.

Lemma quiet_pikepdf_save src out c l : quiet (pikepdf_save_ env src out c l).
Proof. unfold pikepdf_save_. quiet_primitive. Qed.

Lemma quiet_fetch url : quiet (fetch env url).
Proof. unfold fetch. quiet_primitive. Qed.

Lemma quiet_copy_to body p : quiet (copy_to env body p).
Proof. unfold copy_to. quiet_primitive. Qed.

Lemma quiet_fetch_latest arch : quiet (_fetch_latest_download_url env arch).
Proof. unfold _fetch_latest_download_url. quiet_primitive. Qed.

Lemma quiet_get_ghostscript_path : quiet (get_ghostscript_path env).
Proof.
  unfold get_ghostscript_path.
  apply quiet_bind; [apply quiet_emit; reflexivity | intros _].
  apply quiet_bind; [apply quiet_get_world | intros; apply quiet_ret].
Qed.

End QuietOs.

#[global] Hint Resolve quiet_ret quiet_raise quiet_get_world quiet_set_fs
  quiet_mkstemp quiet_os_remove quiet_shutil_move quiet_os_makedirs quiet_run
  quiet_print quiet_os_listdir quiet_import_pikepdf quiet_pikepdf_open quiet_pikepdf_save
  quiet_fetch quiet_copy_to quiet_fetch_latest quiet_get_ghostscript_path
  : quiet_db.

(** decompose a monadic term, one combinator at a time *)
Ltac quiet_step :=
  match goal with
  | |- quiet (mbind _ _) => apply quiet_bind; [| intros ?]
  | |- quiet (_ ≫= _) => apply quiet_bind; [| intros ?]
  | |- quiet (try_except _ _) => apply quiet_try_except; [| intros ?]
  | |- quiet (try_finally _ _) => apply quiet_try_finally
  | |- quiet (swallow _) => apply quiet_swallow
  | |- quiet (when _ _) => apply quiet_when
  | |- quiet (emit _) => apply quiet_emit; reflexivity
  | |- quiet (match ?x with _ => _ end) => destruct x
  | |- quiet (if ?b then _ else _) => destruct b
  | |- quiet (let '(_, _) := ?x in _) => destruct x
  | |- quiet _ => solve [auto with quiet_db]
  end.

Ltac quiet_tac := repeat quiet_step.

Section QuietApp.
Variable env : Env.

Lemma quiet_download_to_temp url : quiet (_download_to_temp env url).
Proof. unfold _download_to_temp. quiet_tac. Qed.

Lemma quiet_run_installer p silent : quiet (_run_installer env p silent).
Proof. unfold _run_installer. quiet_tac. Qed.

Lemma quiet_ensure_ghostscript_installed b : quiet (ensure_ghostscript_installed env b).
Proof.
  unfold ensure_ghostscript_installed.
  pose proof quiet_download_to_temp. pose proof quiet_run_installer.
  quiet_tac.
Qed.

End QuietApp.

(* ===================================================================== *)
(** * File-system lookups and case analysis *)
(* ===================================================================== *)

Lemma path_exists_insert (f : gmap string Node) p q n :
  path_exists (<[p := n]> f) q = if decide (p = q) then true else path_exists f q.
Proof.
  unfold path_exists. rewrite lookup_insert. destruct (decide (p = q)); reflexivity.
Qed.

Lemma path_exists_delete (f : gmap string Node) p q :
  path_exists (delete p f) q = if decide (p = q) then false else path_exists f q.
Proof.
  unfold path_exists. rewrite lookup_delete. destruct (decide (p = q)); reflexivity.
Qed.

(** unfold the monad and split on every scrutinee *)
Ltac unfold_monad :=
  cbv beta iota delta
    [mbind M_bind mret M_ret try_except try_finally swallow when
     get_world emit set_fs raise fst snd] in *.

Ltac split_cases :=
  repeat match goal with
         | |- context [match ?x with _ => _ end] =>
             lazymatch x with
             | context [match _ with _ => _ end] => fail
             | _ => destruct x eqn:?; simplify_eq/=
             end
         end.

(* ===================================================================== *)
(** * Facts about [os.makedirs] *)
(* ===================================================================== *)

Section Prefixes.
Import Py.

Lemma startswith_refl s : startswith s s = true.
Proof.
  induction s as [|a s IH]; [reflexivity|]. simpl.
  rewrite Ascii.eqb_refl. exact IH.
Qed.

Lemma startswith_trans s t u :
  startswith s t = true -> startswith t u = true -> startswith s u = true.
Proof.
  revert t u. induction s as [|a s IH]; intros t u Hst Htu; [reflexivity|].
  destruct t as [|b t]; [discriminate Hst|].
  destruct u as [|c u]; [discriminate Htu|].
  simpl in *. apply andb_true_iff in Hst as (Hab & Hst).
  apply andb_true_iff in Htu as (Hbc & Htu).
  apply Ascii.eqb_eq in Hab, Hbc. subst. rewrite Ascii.eqb_refl. simpl.
  exact (IH _ _ Hst Htu).
Qed.

Lemma startswith_take n s : startswith (take n s) s = true.
Proof.
  revert s. induction n as [|n IH]; intros [|a s]; try reflexivity.
  simpl. rewrite Ascii.eqb_refl. apply IH.
Qed.

Lemma startswith_rstrip c s : startswith (rstrip c s) s = true.
Proof.
  induction s as [|a s IH]; [reflexivity|]. cbn [rstrip].
  destruct (rstrip c s) as [|b r] eqn:Hr.
  - destruct (Ascii.eqb a c); [reflexivity|].
    simpl. rewrite Ascii.eqb_refl. reflexivity.
  - cbn [startswith]. rewrite Ascii.eqb_refl. exact IH.
Qed.

Lemma length_take n s : (String.length (take n s) <= n)%nat.
Proof.
  revert s. induction n as [|n IH]; intros [|a s]; simpl; try lia.
  specialize (IH s). lia.
Qed.

Lemma length_startswith s t :
  startswith s t = true -> (String.length s <= String.length t)%nat.
Proof.
  revert t. induction s as [|a s IH]; intros [|b t] H; simpl in *;
    try discriminate H; try lia.
  apply andb_true_iff in H as (_ & H). specialize (IH _ H). lia.
Qed.

End Prefixes.

Section Makedirs.
Import Py OsPath.

(** [os.path.dirname] returns a prefix of the path *)
Lemma dirname_prefix p : startswith (dirname p) p = true.
Proof.
  unfold dirname, slice_to.
  set (head := take _ p).
  assert (H : startswith head p = true) by apply startswith_take.
  destruct (_ && _); [|exact H].
  eapply startswith_trans; [apply startswith_rstrip | exact H].
Qed.

(** and a shorter one, unless the base name is empty *)
Lemma dirname_shorter p :
  truthy (basename p) = true -> (String.length (dirname p) < String.length p)%nat.
Proof.
  unfold basename, dirname, slice_from, slice_to.
  set (i := Z.to_nat (rfind sep p + 1)).
  intros Ht.
  assert (Hlen : (String.length (take i p) < String.length p)%nat).
  { pose proof (PyFacts.take_drop i p) as Hp.
    apply (f_equal String.length) in Hp. rewrite PyFacts.str_length_app in Hp.
    destruct (drop i p); [discriminate Ht|]. simpl in Hp. lia. }
  destruct (_ && _); [|exact Hlen].
  pose proof (length_startswith _ _ (startswith_rstrip sep (take i p))). lia.
Qed.

Lemma makedirs_split_prefix name :
  startswith (fst (makedirs_split name)) name = true.
Proof.
  unfold makedirs_split, split. destruct (truthy (basename name)); cbn [fst].
  - apply dirname_prefix.
  - eapply startswith_trans; apply dirname_prefix.
Qed.

Lemma makedirs_split_shorter name :
  truthy (snd (makedirs_split name)) = true ->
  (String.length (fst (makedirs_split name)) < String.length name)%nat.
Proof.
  unfold makedirs_split, split. destruct (truthy (basename name)) eqn:Hb; cbn [fst snd].
  - intros _. apply dirname_shorter, Hb.
  - intros Ht. apply dirname_shorter in Ht.
    pose proof (length_startswith _ _ (dirname_prefix name)). lia.
Qed.

(** [os.mkdir] adds a directory at its argument, or nothing *)
Lemma mkdir_fs_grows name f f' :
  mkdir_fs name f = inr f' -> f !! name = None /\ f' = <[name := Dir]> f.
Proof.
  unfold mkdir_fs. destruct (f !! name); [discriminate|].
  destruct (f !! _) as [[c|]|]; intros H; simplify_eq/=; auto.
Qed.

(** [os.makedirs] only adds directories, where nothing was, at prefixes of
    its argument; this holds of the file system it leaves when it fails,
    too *)
Lemma makedirs_fs_grows fuel name f p :
  snd (makedirs_fs fuel name f) !! p = f !! p \/
  (f !! p = None /\
   snd (makedirs_fs fuel name f) !! p = Some Dir /\
   startswith p name = true).
Proof.
  revert name f. induction fuel as [|fuel IH]; intros name f.
  - cbn [makedirs_fs].
    destruct (makedirs_split name) as [head tail].
    destruct (_ && String.eqb tail "."); [left; reflexivity|].
    destruct (mkdir_fs name f) as [e|f2] eqn:Hmk.
    + destruct (path_isdir f name); left; reflexivity.
    + apply mkdir_fs_grows in Hmk as (Hnone & ->). cbn [snd].
      destruct (decide (name = p)) as [->|Hne].
      * right. rewrite lookup_insert_eq. auto using startswith_refl.
      * left. apply lookup_insert_ne, Hne.
  - cbn [makedirs_fs].
    pose proof (makedirs_split_prefix name) as Hpre.
    destruct (makedirs_split name) as [head tail]. cbn [fst] in Hpre.
    set (missing := truthy head && truthy tail && negb (path_exists f head)).
    assert (Hrec : forall r, r = (if missing then makedirs_fs fuel head f else (None, f)) ->
              snd r !! p = f !! p \/
              (f !! p = None /\ snd r !! p = Some Dir /\ startswith p name = true)).
    { intros r ->. destruct missing; [|left; reflexivity].
      destruct (IH head f) as [H|(H1 & H2 & H3)]; [left; exact H|].
      right. split; [exact H1|]. split; [exact H2|].
      eapply startswith_trans; eassumption. }
    destruct (if missing then makedirs_fs fuel head f else (None, f)) as [err f1] eqn:Hr.
    specialize (Hrec _ eq_refl). cbn [snd] in Hrec.
    assert (Hdone : forall f2, f2 = f1 ->
              f2 !! p = f !! p \/
              (f !! p = None /\ f2 !! p = Some Dir /\ startswith p name = true)).
    { intros f2 ->. exact Hrec. }
    assert (Hmk : snd (if missing && String.eqb tail "." then (@None MkdirError, f1)
                   else match mkdir_fs name f1 with
                        | inr f2 => (None, f2)
                        | inl e => if path_isdir f1 name then (None, f1) else (Some e, f1)
                        end) !! p = f !! p \/
                  (f !! p = None /\
                   snd (if missing && String.eqb tail "." then (@None MkdirError, f1)
                   else match mkdir_fs name f1 with
                        | inr f2 => (None, f2)
                        | inl e => if path_isdir f1 name then (None, f1) else (Some e, f1)
                        end) !! p = Some Dir /\ startswith p name = true)).
    { destruct (missing && String.eqb tail "."); [apply Hdone; reflexivity|].
      destruct (mkdir_fs name f1) as [e|f2] eqn:Hm.
      - destruct (path_isdir f1 name); apply Hdone; reflexivity.
      - apply mkdir_fs_grows in Hm as (Hnone & ->). cbn [snd].
        destruct (decide (name = p)) as [->|Hne].
        + right. rewrite lookup_insert_eq.
          destruct Hrec as [H|(H1 & H2 & _)]; [|congruence].
          rewrite <- H, Hnone. auto using startswith_refl.
        + rewrite lookup_insert_ne by exact Hne. exact Hrec. }
    destruct err as [[|]|]; [exact Hmk | apply Hdone; reflexivity | exact Hmk].
Qed.

(** the length of the path is fuel enough *)
Lemma makedirs_fs_fuel name : forall fuel f,
  (String.length name <= fuel)%nat ->
  makedirs_fs fuel name f = makedirs_fs (String.length name) name f.
Proof.
  remember (String.length name) as n eqn:Hn.
  revert name Hn. induction n as [n IH] using lt_wf_ind. intros name Hn fuel f Hle.
  assert (Hstep : forall k, (n <= k)%nat ->
            makedirs_fs k name f =
            let '(head, tail) := makedirs_split name in
            let missing := truthy head && truthy tail && negb (path_exists f head) in
            let '(err, f1) :=
              if missing then makedirs_fs (String.length head) head f else (None, f) in
            match err with
            | Some NotADirectory => (err, f1)
            | _ =>
                if missing && String.eqb tail "." then (None, f1)
                else
                  match mkdir_fs name f1 with
                  | inr f2 => (None, f2)
                  | inl e => if path_isdir f1 name then (None, f1) else (Some e, f1)
                  end
            end).
  { intros k Hk.
    pose proof (makedirs_split_shorter name) as Hshort.
    destruct k as [|k]; cbn [makedirs_fs];
      destruct (makedirs_split name) as [head tail]; cbn [fst snd] in Hshort; cbv zeta.
    - destruct (truthy head && truthy tail && negb (path_exists f head)) eqn:Hm;
        [|reflexivity].
      apply andb_true_iff in Hm as (Hm & _). apply andb_true_iff in Hm as (_ & Ht).
      specialize (Hshort Ht). lia.
    - destruct (truthy head && truthy tail && negb (path_exists f head)) eqn:Hm;
        [|reflexivity].
      pose proof Hm as Hm'.
      apply andb_true_iff in Hm' as (Hm' & _). apply andb_true_iff in Hm' as (_ & Ht).
      specialize (Hshort Ht).
      rewrite (IH (String.length head)) with (name := head) (fuel := k);
        [reflexivity | lia | reflexivity | lia]. }
  rewrite (Hstep fuel Hle), (Hstep n (le_n _)). reflexivity.
Qed.

End Makedirs.

(** what one [os.makedirs] leaves: one event, and a file system that grew
    by directories at prefixes of [d] at most *)
Lemma os_makedirs_grows (env : Env) d w :
  (exists done, log (snd (os_makedirs env d w)) = log w ++ [EvMakedirs d done]) /\
  forall p,
    fs (snd (os_makedirs env d w)) !! p = fs w !! p \/
    (fs w !! p = None /\
     fs (snd (os_makedirs env d w)) !! p = Some Dir /\
     Py.startswith p d = true).
Proof.
  unfold os_makedirs.
  destruct (os_fault env (CMakedirs d) w); [split; [eexists; reflexivity | auto]|].
  pose proof (makedirs_fs_grows (String.length d) d (fs w)) as Hg.
  destruct (makedirs_fs (String.length d) d (fs w)) as [[e|] f]; cbn [snd fs log] in *;
    (split; [eexists; reflexivity | exact Hg]).
Qed.

(* ===================================================================== *)
(** * The Precise backend, block by block *)
(* ===================================================================== *)

Section Precise.
Variable env : Env.

(** the [finally] block never raises; it leaves the temporary file absent
    unless its [os.remove] failed *)
Lemma remove_temp_spec tmp w :
  exists w', remove_temp env tmp w = (Ret tt, w') /\
    ((path_exists (fs w) tmp = false /\ w' = w) \/
     (fs w' = delete tmp (fs w) /\ log w' = log w ++ [EvRemove tmp true]) \/
     (path_exists (fs w) tmp = true /\ fs w' = fs w /\
      log w' = log w ++ [EvRemove tmp false])).
Proof.
  unfold remove_temp, os_remove. unfold_monad. simpl.
  destruct (path_exists (fs w) tmp) eqn:E.
  - split_cases; eexists; (split; [reflexivity|]); simpl; auto.
  - eexists. split; [reflexivity|]. left. destruct w; auto.
Qed.

(** the move block never raises; when it falls through, the destination
    exists, differs from the temporary file, and the temporary file is gone *)
Lemma move_into_place_spec tmp i o w :
  exists r w', move_into_place env tmp i o w = (Ret r, w') /\
    match r with
    | None =>
        tmp <> o /\ path_exists (fs w') o = true /\ path_exists (fs w') tmp = false /\
        exists pre, log w' = log w ++ pre ++ [EvMove tmp o true]
    | Some failure => ok failure = false /\ output_path failure = o
    end.
Proof.
  unfold move_into_place, os_remove, shutil_move. unfold_monad. simpl.
  split_cases; do 2 eexists; (split; [reflexivity|]); simpl; auto.
  all: unfold path_exists, path_isdir in *.
  all: repeat match goal with
              | H : context [match ?x with _ => _ end] |- _ => destruct x eqn:?; simplify_eq/=
              end.
  all: try (destruct (decide (tmp = o)) as [->|Hne]; simplify_map_eq).
  all: try (split; [assumption|]); try (split; [reflexivity|]).
  all: try (split; [by simplify_map_eq|]).
  all: try (eexists [_]; simpl; rewrite <- ?app_assoc; reflexivity).
  all: try (exists []; reflexivity).
Qed.


Lemma bind_get_world {A} (k : World -> M A) w : (get_world ≫= k) w = k w w.
Proof. reflexivity. Qed.

Lemma bind_emit {A} (k : unit -> M A) e w :
  (emit e ≫= k) w = k tt (mkWorld (fs w) (log w ++ [e])).
Proof. reflexivity. Qed.

Lemma quiet_move_into_place tmp i o : quiet (move_into_place env tmp i o).
Proof. unfold move_into_place. quiet_tac. Qed.

Lemma quiet_remove_temp tmp : quiet (remove_temp env tmp).
Proof. unfold remove_temp. quiet_tac. Qed.

Lemma run_spec cmd timeout w :
  exists rc, log (snd (run env cmd timeout w)) = log w ++ [EvRun cmd rc].
Proof.
  unfold run. destruct (subprocess_run env cmd timeout w) as [[rc out err|e] f];
    eexists; reflexivity.
Qed.

(** the body of the outer [try]: it starts by running the tool, only that
    run can raise, and a success result means the temporary file was moved
    onto the destination *)
Lemma run_ghostscript_spec cmd timeout tmp i o w :
  exists rc rest,
    log (snd (run_ghostscript env cmd timeout tmp i o w))
      = log w ++ EvRun cmd rc :: rest /\
    Forall (fun e => sys_event e = true) rest /\
    match fst (run_ghostscript env cmd timeout tmp i o w) with
    | Ret res =>
        output_path res = o /\
        (ok res = true ->
           path_exists (fs (snd (run_ghostscript env cmd timeout tmp i o w))) o = true /\
           path_exists (fs (snd (run_ghostscript env cmd timeout tmp i o w))) tmp = false /\
           In (EvMove tmp o true) rest)
    | Raise _ => rest = []
    end.
Proof.
  unfold run_ghostscript.
  destruct (run_spec cmd timeout w) as (rc & Hlog).
  destruct (run env cmd timeout w) as [[[[returncode out] err]|e] w1] eqn:Hrun; simpl in Hlog.
  2:{ rewrite (bind_raise_eq _ _ _ _ _ Hrun). exists rc, []. simpl. repeat split; auto. }
  rewrite (bind_ret_eq _ _ _ _ _ Hrun). rewrite bind_get_world.
  exists rc.
  destruct ((returncode =? 0) && path_exists (fs w1) tmp).
  2:{ exists []. simpl. rewrite Hlog. repeat split; auto; discriminate. }
  set (mk := swallow (os_makedirs env (Py.or_else (OsPath.dirname o) "."))).
  assert (Hmk : exists w2 ev, mk w1 = (Ret tt, w2) /\ log w2 = log w1 ++ [ev] /\ sys_event ev = true).
  { unfold mk, os_makedirs. unfold_monad. split_cases; do 2 eexists; repeat split. }
  destruct Hmk as (w2 & ev & Hmk & Hlog2 & Hev).
  rewrite (bind_ret_eq _ _ _ _ _ Hmk).
  destruct (move_into_place_spec tmp i o w2) as (r & w3 & Hmv & Hspec).
  destruct (quiet_move_into_place tmp i o w2) as (evs & Hlog3 & Hsys).
  rewrite Hmv in Hlog3. simpl in Hlog3.
  rewrite (bind_ret_eq _ _ _ _ _ Hmv).
  exists (ev :: evs).
  destruct r as [failure|]; simpl.
  - destruct Hspec as (Hok & Hout).
    rewrite Hlog3, Hlog2, Hlog, <- !app_assoc. simpl.
    repeat split; auto; congruence.
  - destruct Hspec as (Hne & Ho & Ht & pre & Hpre).
    rewrite Hlog3, Hlog2, Hlog, <- !app_assoc. simpl.
    repeat split; auto.
    right. rewrite Hlog3 in Hpre. apply app_inv_head in Hpre. subst evs.
    apply in_or_app. right. simpl. auto.
Qed.

(** [compress_with_ghostscript] from [mkstemp] on *)
Lemma gs_attempt_spec gs i o q timeout w :
  match gs_attempt env gs i o q timeout w with
  | (Ret res, w') =>
      exists tmp rc rest,
        log w' = log w ++ EvMkstemp (Some tmp) :: EvRun (gs_cmd gs q tmp i) rc :: rest /\
        attempt_post tmp o res rest w'
  | (Raise _, w') => log w' = log w ++ [EvMkstemp None] /\ fs w' = fs w
  end.
Proof.
  unfold gs_attempt.
  destruct (mkstemp env "tmp" ".pdf" w) as [[tmp|e] w1] eqn:Hmk.
  2:{ rewrite (bind_raise_eq _ _ _ _ _ Hmk).
      unfold mkstemp in Hmk. revert Hmk. split_cases; intros; simplify_eq/=; auto. }
  rewrite (bind_ret_eq _ _ _ _ _ Hmk).
  assert (Hlog1 : log w1 = log w ++ [EvMkstemp (Some tmp)]).
  { unfold mkstemp in Hmk. revert Hmk. split_cases; intros; simplify_eq/=; auto. }
  set (cmd := gs_cmd gs q tmp i).
  destruct (run_ghostscript_spec cmd timeout tmp i o w1) as (rc & rest & Hlog2 & Hsys & Hres).
  unfold try_finally, try_except.
  destruct (run_ghostscript env cmd timeout tmp i o w1) as [r w2]. simpl in Hlog2, Hres.
  destruct (remove_temp_spec tmp w2) as (w3 & Hrm & Hcases).
  assert (Hstep : forall res,
            (ok res = true -> path_exists (fs w2) o = true /\ path_exists (fs w2) tmp = false
                              /\ In (EvMove tmp o true) rest) ->
            output_path res = o ->
            exists rest3, log w3 = log w ++ EvMkstemp (Some tmp) :: EvRun cmd rc :: rest3 /\
              attempt_post tmp o res rest3 w3).
  { intros res Hok Hout.
    destruct Hcases as [(Hno & ->) | [(Hfs & Hl) | (Hyes & Hfs & Hl)]].
    - exists rest. split.
      + rewrite Hlog2, Hlog1, <- app_assoc. reflexivity.
      + split; [exact Hsys|]. split; [exact Hout|]. split; [left; exact Hno|]. exact Hok.
    - exists (rest ++ [EvRemove tmp true]). split.
      + rewrite Hl, Hlog2, Hlog1, <- !app_assoc. reflexivity.
      + assert (Hgone : path_exists (fs w3) tmp = false).
        { rewrite Hfs, path_exists_delete. destruct (decide (tmp = tmp)); congruence. }
        split; [apply Forall_app; split; [exact Hsys | repeat constructor]|].
        split; [exact Hout|]. split; [left; exact Hgone|].
        intros H. destruct (Hok H) as (Ho & Ht & Hin).
        split; [|split; [exact Hgone | apply in_or_app; auto]].
        rewrite Hfs, path_exists_delete.
        destruct (decide (tmp = o)) as [->|]; [congruence | exact Ho].
    - exists (rest ++ [EvRemove tmp false]). split.
      + rewrite Hl, Hlog2, Hlog1, <- !app_assoc. reflexivity.
      + split; [apply Forall_app; split; [exact Hsys | repeat constructor]|].
        split; [exact Hout|]. split; [right; eauto|].
        intros H. destruct (Hok H) as (Ho & Ht & Hin). congruence. }
  destruct r as [res|e].
  - rewrite Hrm. destruct Hres as (Hout & Hok).
    destruct (Hstep res Hok Hout) as (rest3 & ? & ?). exists tmp, rc, rest3. auto.
  - subst rest.
    assert (Hex : exists res, gs_except i o e w2 = (Ret res, w2) /\ ok res = false /\ output_path res = o).
    { destruct e; eexists; repeat split. }
    destruct Hex as (res & -> & Hok & Hout). rewrite Hrm.
    destruct (Hstep res) as (rest3 & ? & ?); [rewrite Hok; discriminate | exact Hout |].
    exists tmp, rc, rest3. auto.
Qed.

End Precise.

(* ===================================================================== *)
(** * The two backends and the selector *)
(* ===================================================================== *)

Section Backends.
Variable env : Env.

Lemma quiet_run_ghostscript cmd timeout tmp i o :
  quiet (run_ghostscript env cmd timeout tmp i o).
Proof.
  unfold run_ghostscript. pose proof (quiet_move_into_place env).
  quiet_tac.
Qed.

Lemma quiet_gs_except i o e : quiet (gs_except i o e).
Proof. unfold gs_except. quiet_tac. Qed.

Lemma quiet_gs_attempt gs i o q timeout : quiet (gs_attempt env gs i o q timeout).
Proof.
  unfold gs_attempt.
  pose proof (quiet_run_ghostscript). pose proof quiet_gs_except.
  pose proof (quiet_remove_temp env).
  quiet_tac.
Qed.

(** a computation that starts with a ghost marker and is quiet afterwards *)
Lemma enter_then_quiet {A} (e : Event) (k : unit -> M A) w :
  quiet (k tt) ->
  exists evs,
    log (snd ((emit e ≫= k) w)) = log w ++ e :: evs /\
    Forall (fun e => sys_event e = true) evs.
Proof.
  intros Hk. rewrite bind_emit.
  destruct (Hk (mkWorld (fs w) (log w ++ [e]))) as (evs & Hlog & Hsys).
  exists evs. rewrite Hlog. simpl. rewrite <- app_assoc. auto.
Qed.

(** the Precise backend logs its entry once, then only calls *)
Lemma precise_log i o q gs timeout w :
  exists evs,
    log (snd (compress_with_ghostscript env i o q gs timeout w))
      = log w ++ EvEnter ghostscript :: evs /\
    Forall (fun e => sys_event e = true) evs.
Proof.
  unfold compress_with_ghostscript. apply enter_then_quiet.
  pose proof quiet_gs_attempt. quiet_tac.
Qed.

(** the Basic backend logs its entry once, then only calls *)
Lemma basic_log i o q w :
  exists evs,
    log (snd (compress_with_pikepdf env i o q w)) = log w ++ EvEnter basic :: evs /\
    Forall (fun e => sys_event e = true) evs.
Proof.
  unfold compress_with_pikepdf. apply enter_then_quiet. quiet_tac.
Qed.

(** the Basic backend never raises, and reports success only after it has
    seen the output path exist *)
Lemma basic_spec i o q w :
  exists res w',
    compress_with_pikepdf env i o q w = (Ret res, w') /\
    output_path res = o /\
    (ok res = true -> path_exists (fs w') o = true) /\
    (ok res = false -> message res <> EmptyString).
Proof.
  unfold compress_with_pikepdf, import_pikepdf, pikepdf_open_, pikepdf_save_.
  unfold_monad. split_cases; do 2 eexists; (split; [reflexivity|]); simpl;
    repeat split; auto; try discriminate.
Qed.

(** the Precise backend: what it returns and what it leaves behind *)
Lemma precise_spec i o q gs timeout w :
  exists pre, (pre = [] \/ pre = [EvLocate]) /\
  match compress_with_ghostscript env i o q gs timeout w with
  | (Ret res, w') =>
      (res = gs_failure i o "Ghostscript not found" /\ fs w' = fs w /\
       log w' = log w ++ EvEnter ghostscript :: pre) \/
      (exists g tmp rc rest,
         log w' = log w ++ EvEnter ghostscript :: pre ++
                    EvMkstemp (Some tmp) :: EvRun (gs_cmd g q tmp i) rc :: rest /\
         attempt_post tmp o res rest w')
  | (Raise _, w') =>
      log w' = log w ++ EvEnter ghostscript :: pre ++ [EvMkstemp None] /\
      fs w' = fs w
  end.
Proof.
  unfold compress_with_ghostscript. rewrite bind_emit.
  set (w1 := mkWorld (fs w) (log w ++ [EvEnter ghostscript])).
  assert (Hlookup : exists pre g w2,
            (pre = [] \/ pre = [EvLocate]) /\
            (match gs with
             | Some g => mret (Some g)
             | None => get_ghostscript_path env
             end) w1 = (Ret g, w2) /\
            fs w2 = fs w /\ log w2 = log w ++ EvEnter ghostscript :: pre).
  { destruct gs as [g|].
    - exists [], (Some g), w1. repeat split; auto.
    - exists [EvLocate]. do 2 eexists. split; [auto|]. split; [reflexivity|].
      simpl. rewrite <- app_assoc. auto. }
  destruct Hlookup as (pre & g & w2 & Hpre & Hlk & Hfs & Hlog).
  exists pre. split; [exact Hpre|].
  rewrite (bind_ret_eq _ _ _ _ _ Hlk). rewrite bind_get_world.
  destruct g as [g|]; [|left; auto].
  destruct (negb (Py.truthy g) || negb (path_exists (fs w2) g)); [left; auto|].
  pose proof (gs_attempt_spec env g i o q timeout w2) as Hat.
  destruct (gs_attempt env g i o q timeout w2) as [[res|e] w3].
  - right. destruct Hat as (tmp & rc & rest & Hl & Hpost).
    exists g, tmp, rc, rest. split; [|exact Hpost].
    rewrite Hl, Hlog, <- app_assoc. reflexivity.
  - destruct Hat as (Hl & Hf). split; [|congruence].
    rewrite Hl, Hlog, <- app_assoc. reflexivity.
Qed.

(** the locator, seen as a function of the world in which it is called *)
Lemma get_ghostscript_path_eq w :
  get_ghostscript_path env w =
    (Ret (locate env (mkWorld (fs w) (log w ++ [EvLocate]))),
     mkWorld (fs w) (log w ++ [EvLocate])).
Proof. reflexivity. Qed.

End Backends.

(* ===================================================================== *)
(** * Engine selection and fallback (C1) *)
(* ===================================================================== *)

(** X28. The auto engine, path by path.  It first locates the tool.  If a
    tool path is found it runs the Precise backend exactly once and
    returns that result when it is a success; when Precise returns a
    failed result it then runs the Basic backend exactly once, in the
    world Precise left, and returns the Basic outcome whatever it is;
    when Precise raises, the exception leaves [auto_compress] as it is,
    with Precise entered once and Basic not at all.  If no tool path is
    found it runs only the Basic backend.  No backend is entered more
    than once. *)
Theorem auto_compress_policy (env : Env) (input_path output_path : string)
    (quality : Quality) (w : World) :
  let w1 := mkWorld (fs w) (log w ++ [EvLocate]) in
  let gs := locate env w1 in
  let final := auto_compress env input_path output_path quality w in
  exists evs,
    log (snd final) = log w ++ EvLocate :: evs /\
    if Py.truthy_opt gs then
      let precise :=
        compress_with_ghostscript env input_path output_path quality gs None w1 in
      match fst precise with
      | Ret res =>
          if ok res
          then final = precise /\ entered evs = [ghostscript]
          else final = compress_with_pikepdf env input_path output_path quality (snd precise)
               /\ entered evs = [ghostscript; basic]
      | Raise _ => final = precise /\ entered evs = [ghostscript]
      end
    else
      final = compress_with_pikepdf env input_path output_path quality w1 /\
      entered evs = [basic].
Proof.
  intros w1 gs final. unfold final, auto_compress.
  rewrite (bind_ret_eq _ _ _ _ _ (get_ghostscript_path_eq env w)).
  fold w1. fold gs.
  destruct (Py.truthy_opt gs).
  - destruct (precise_log env input_path output_path quality gs None w1)
      as (evs1 & Hl1 & Hs1).
    destruct (compress_with_ghostscript env input_path output_path quality gs None w1)
      as [[res|e] w2] eqn:Hp; simpl in Hl1; cbn [fst snd].
    + rewrite (bind_ret_eq _ _ _ _ _ Hp).
      destruct (ok res).
      * exists (EvEnter ghostscript :: evs1). simpl.
        rewrite Hl1. unfold w1. simpl. rewrite <- app_assoc. simpl.
        rewrite (entered_sys _ Hs1). auto.
      * destruct (basic_log env input_path output_path quality w2) as (evs2 & Hl2 & Hs2).
        exists (EvEnter ghostscript :: evs1 ++ EvEnter basic :: evs2).
        rewrite Hl2, Hl1. unfold w1. simpl. rewrite <- !app_assoc. simpl.
        rewrite entered_app. simpl.
        rewrite (entered_sys _ Hs1), (entered_sys _ Hs2). auto.
    + rewrite (bind_raise_eq _ _ _ _ _ Hp).
      exists (EvEnter ghostscript :: evs1). simpl.
      rewrite Hl1. unfold w1. simpl. rewrite <- app_assoc. simpl.
      rewrite (entered_sys _ Hs1). auto.
  - destruct (basic_log env input_path output_path quality w1) as (evs2 & Hl2 & Hs2).
    exists (EvEnter basic :: evs2).
    rewrite Hl2. unfold w1. simpl. rewrite <- app_assoc. simpl.
    rewrite (entered_sys _ Hs2). auto.
Qed.

(** C1: where the tool is found and the temporary file cannot be created,
    the Precise backend fails by raising (see C5), and the auto engine
    lets the exception through: the Basic backend is not run and no
    result is returned, whereas the claim has every failure of Precise
    followed by one Basic run whose result is returned. *)
Theorem auto_raises_without_fallback :
  locate tool_without_temp_dir_host (mkWorld disk0 [EvLocate]) = Some "/usr/bin/gs" /\
  fst (auto_job tool_without_temp_dir_host)
    = Raise (Error "No usable temporary directory found") /\
  entered (log (snd (auto_job tool_without_temp_dir_host))) = [ghostscript] /\
  ~ auto_falls_back_on_any_failure.
Proof.
  assert (E : fst (auto_job tool_without_temp_dir_host)
              = Raise (Error "No usable temporary directory found"))
    by (vm_compute; reflexivity).
  split; [vm_compute; reflexivity|]. split; [exact E|].
  split; [vm_compute; reflexivity|].
  intros H.
  destruct (H tool_without_temp_dir_host "in.pdf" "out.pdf" balanced world0)
    as (res & w' & evs & Hret & _); [vm_compute; reflexivity|].
  unfold auto_job, perform in E. rewrite Hret in E. discriminate E.
Qed.

(* ===================================================================== *)
(** * Success and the output file (C3) *)
(* ===================================================================== *)

(** C3, as stated, fails: a tool that exits 0 without writing leaves the
    empty file created by [mkstemp], which is moved to the destination
    and reported as a success. *)
Lemma ok_with_empty_output :
  fst (precise_job quiet_host)
    = Ret (mkCompressResult true ghostscript "in.pdf" "out.pdf"
             "Compressed with Ghostscript") /\
  fs (snd (precise_job quiet_host)) !! "out.pdf" = Some (File EmptyString) /\
  ~ ok_means_nonempty_output.
Proof.
  split; [vm_compute; reflexivity|]. split; [vm_compute; reflexivity|].
  intros H.
  destruct (precise_job quiet_host) as [[res|e] w'] eqn:E.
  - pose proof E as E'. vm_compute in E'. injection E' as Hr Hw.
    assert (Hok : ok res = true) by (rewrite <- Hr; reflexivity).
    destruct (H _ _ _ _ _ _ _ _ E Hok) as (_ & Hne).
    rewrite <- Hr, <- Hw in Hne. vm_compute in Hne. discriminate Hne.
  - vm_compute in E. discriminate E.
Qed.

(** C3, amended. For every compression operation (Precise, Basic or
    auto), whenever the returned result has ok=true, the recorded output
    path is the requested one and something exists at it when the
    operation returns; its size is not examined. *)
Theorem ok_implies_output_exists (env : Env) (op : Operation)
    (input_path output_path_ : string) (quality : Quality) (w : World)
    (res : CompressResult) (w' : World) :
  perform env op input_path output_path_ quality w = (Ret res, w') ->
  ok res = true ->
  output_path res = output_path_ /\
  path_exists (fs w') (output_path res) = true.
Proof.
  assert (Hprecise : forall gs timeout w0 r w1,
            compress_with_ghostscript env input_path output_path_ quality gs timeout w0
              = (Ret r, w1) ->
            ok r = true ->
            output_path r = output_path_ /\ path_exists (fs w1) (output_path r) = true).
  { intros gs timeout w0 r w1 E Hok.
    destruct (precise_spec env input_path output_path_ quality gs timeout w0) as (pre & _ & H).
    rewrite E in H. destruct H as [(-> & _) | (g & tmp & rc & rest & _ & Hpost)].
    - discriminate Hok.
    - destruct Hpost as (_ & Hout & _ & Hmoved).
      destruct (Hmoved Hok) as (Ho & _). rewrite Hout. auto. }
  assert (Hbasic : forall w0 r w1,
            compress_with_pikepdf env input_path output_path_ quality w0 = (Ret r, w1) ->
            ok r = true ->
            output_path r = output_path_ /\ path_exists (fs w1) (output_path r) = true).
  { intros w0 r w1 E Hok.
    destruct (basic_spec env input_path output_path_ quality w0) as (r' & w1' & E' & Hout & Hex & _).
    rewrite E in E'. injection E' as <- <-. rewrite Hout. auto. }
  destruct op as [gs timeout| |]; simpl.
  - apply Hprecise.
  - apply Hbasic.
  - unfold auto_compress.
    rewrite (bind_ret_eq _ _ _ _ _ (get_ghostscript_path_eq env w)).
    destruct (Py.truthy_opt _); [|apply Hbasic].
    set (w1 := mkWorld (fs w) (log w ++ [EvLocate])).
    destruct (compress_with_ghostscript env input_path output_path_ quality
                (locate env w1) None w1) as [[r|e] w2] eqn:Hp.
    + rewrite (bind_ret_eq _ _ _ _ _ Hp).
      destruct (ok r) eqn:Hokr.
      * intros E Hok. injection E as <- <-. eapply Hprecise; eauto.
      * apply Hbasic.
    + rewrite (bind_raise_eq _ _ _ _ _ Hp). discriminate.
Qed.

(** the amended invariant at work on the job above *)
Lemma ok_implies_output_exists_witness :
  exists res w',
    precise_job quiet_host = (Ret res, w') /\
    ok res = true /\
    output_path res = "out.pdf" /\
    path_exists (fs w') (output_path res) = true.
Proof.
  destruct (precise_job quiet_host) as [[res|e] w'] eqn:E.
  - assert (Hok : ok res = true).
    { pose proof E as E'. vm_compute in E'. injection E' as <- _. reflexivity. }
    exists res, w'. split; [reflexivity|]. split; [exact Hok|].
    exact (ok_implies_output_exists quiet_host (OpPrecise (Some "/usr/bin/gs") None)
             "in.pdf" "out.pdf" balanced world0 res w' E Hok).
  - vm_compute in E. discriminate E.
Defined.

(* ===================================================================== *)
(** * Exceptions at the backend boundary (C5) *)
(* ===================================================================== *)

(** the Basic backend always returns a result *)
Lemma basic_never_raises env i o q w :
  exists res w', compress_with_pikepdf env i o q w = (Ret res, w').
Proof.
  destruct (basic_spec env i o q w) as (res & w' & E & _). eauto.
Qed.

(** the Precise backend raises only out of [tempfile.mkstemp] *)
Lemma precise_raises_only_from_mkstemp env i o q gs timeout w e w' :
  compress_with_ghostscript env i o q gs timeout w = (Raise e, w') ->
  exists pre, log w' = log w ++ EvEnter ghostscript :: pre ++ [EvMkstemp None].
Proof.
  intros E. destruct (precise_spec env i o q gs timeout w) as (pre & _ & H).
  rewrite E in H. destruct H as (H & _). eauto.
Qed.

(** C5: where the temporary file cannot be created, [tempfile.mkstemp]
    (called before the [try]) raises, and the Precise backend lets the
    exception through to its caller instead of returning a failed
    result. *)
Theorem precise_raises_without_temp_dir :
  fst (precise_job no_temp_dir_host)
    = Raise (Error "No usable temporary directory found") /\
  ~ backends_never_raise.
Proof.
  assert (E : fst (precise_job no_temp_dir_host)
              = Raise (Error "No usable temporary directory found"))
    by (vm_compute; reflexivity).
  split; [exact E|].
  intros H.
  destruct (H no_temp_dir_host (OpPrecise (Some "/usr/bin/gs") None)
              "in.pdf" "out.pdf" balanced world0) as (res & w' & Hret).
  unfold precise_job in E. rewrite Hret in E. discriminate E.
Qed.

(* ===================================================================== *)
(** * The temporary file of the Precise backend (C6) *)
(* ===================================================================== *)

(** C6, as stated, fails: when the tool exits with status 1 and the
    clean-up [os.remove] is refused, the error is swallowed and the
    temporary file is still there when the function returns. *)
Lemma temp_file_left_when_remove_fails :
  fst (precise_job locked_files_host)
    = Ret (gs_failure "in.pdf" "out.pdf" "Unrecoverable error") /\
  log (snd (precise_job locked_files_host))
    = [ EvEnter ghostscript;
        EvMkstemp (Some "/tmp/tmpk3x9q2.pdf");
        EvRun (gs_cmd "/usr/bin/gs" balanced "/tmp/tmpk3x9q2.pdf" "in.pdf") (Some 1);
        EvRemove "/tmp/tmpk3x9q2.pdf" false ] /\
  path_exists (fs (snd (precise_job locked_files_host))) "/tmp/tmpk3x9q2.pdf" = true /\
  ~ temp_file_gone_on_return.
Proof.
  split; [vm_compute; reflexivity|]. split; [vm_compute; reflexivity|].
  split; [vm_compute; reflexivity|].
  intros H.
  destruct (precise_job locked_files_host) as [[res|e] w'] eqn:E.
  - pose proof E as E'. vm_compute in E'. injection E' as Hr Hw.
    assert (Hgone : path_exists (fs w') "/tmp/tmpk3x9q2.pdf" = false).
    { eapply (H locked_files_host "in.pdf" "out.pdf" balanced (Some "/usr/bin/gs") None
                world0 res w' [EvEnter ghostscript] _ "/tmp/tmpk3x9q2.pdf" E).
      rewrite <- Hw. reflexivity. }
    rewrite <- Hw in Hgone. vm_compute in Hgone. discriminate Hgone.
  - vm_compute in E. discriminate E.
Qed.

Lemma gs_cmd_output_file g q tmp i : In ("-sOutputFile=" +:+ tmp) (gs_cmd g q tmp i).
Proof.
  unfold gs_cmd, splice_at, gs_base_cmd. cbn [firstn skipn].
  apply in_or_app. right. apply in_or_app. right. simpl. auto.
Qed.

(** C6, amended. Whenever the Precise backend returns, either it stopped
    at the tool lookup and touched no file, or it created a temporary file
    before running the tool, told the tool to write to that file, and at
    return the temporary file no longer exists unless the clean-up
    [os.remove] itself failed (the last event, its error swallowed); on
    success the file is gone because it was moved to the destination. *)
Theorem precise_temp_file_discipline (env : Env) (input_path output_path_ : string)
    (quality : Quality) (gs_path : option string) (timeout : option Z)
    (w : World) (res : CompressResult) (w' : World) :
  compress_with_ghostscript env input_path output_path_ quality gs_path timeout w
    = (Ret res, w') ->
  exists pre, (pre = [] \/ pre = [EvLocate]) /\
    ((res = gs_failure input_path output_path_ "Ghostscript not found" /\
      fs w' = fs w /\ log w' = log w ++ EvEnter ghostscript :: pre) \/
     (exists g tmp rc rest,
        log w' = log w ++ EvEnter ghostscript :: pre ++
                   EvMkstemp (Some tmp) :: EvRun (gs_cmd g quality tmp input_path) rc :: rest /\
        In ("-sOutputFile=" +:+ tmp) (gs_cmd g quality tmp input_path) /\
        Forall (fun e => sys_event e = true) rest /\
        (path_exists (fs w') tmp = false \/
         exists rest', rest = rest' ++ [EvRemove tmp false]) /\
        (ok res = true ->
           path_exists (fs w') tmp = false /\ In (EvMove tmp output_path_ true) rest))).
Proof.
  intros E.
  destruct (precise_spec env input_path output_path_ quality gs_path timeout w)
    as (pre & Hpre & H).
  rewrite E in H. exists pre. split; [exact Hpre|].
  destruct H as [H | (g & tmp & rc & rest & Hlog & Hsys & _ & Hgone & Hok)]; [left; exact H|].
  right. exists g, tmp, rc, rest.
  split; [exact Hlog|]. split; [apply gs_cmd_output_file|].
  split; [exact Hsys|]. split; [exact Hgone|].
  intros Hres. destruct (Hok Hres) as (_ & Ht & Hin). auto.
Qed.

(** the amended discipline at work on the job above *)
Lemma precise_temp_file_discipline_witness :
  exists res w',
    precise_job locked_files_host = (Ret res, w') /\
    exists pre, (pre = [] \/ pre = [EvLocate]) /\
    ((res = gs_failure "in.pdf" "out.pdf" "Ghostscript not found" /\
      fs w' = fs world0 /\ log w' = log world0 ++ EvEnter ghostscript :: pre) \/
     (exists g tmp rc rest,
        log w' = log world0 ++ EvEnter ghostscript :: pre ++
                   EvMkstemp (Some tmp) :: EvRun (gs_cmd g balanced tmp "in.pdf") rc :: rest /\
        In ("-sOutputFile=" +:+ tmp) (gs_cmd g balanced tmp "in.pdf") /\
        Forall (fun e => sys_event e = true) rest /\
        (path_exists (fs w') tmp = false \/
         exists rest', rest = rest' ++ [EvRemove tmp false]) /\
        (ok res = true ->
           path_exists (fs w') tmp = false /\ In (EvMove tmp "out.pdf" true) rest))).
Proof.
  destruct (precise_job locked_files_host) as [[res|e] w'] eqn:E.
  - exists res, w'. split; [reflexivity|].
    exact (precise_temp_file_discipline locked_files_host "in.pdf" "out.pdf" balanced
             (Some "/usr/bin/gs") None world0 res w' E).
  - vm_compute in E. discriminate E.
Defined.

(* ===================================================================== *)
(** * The quality preset and the Basic backend (C9) *)
(* ===================================================================== *)

(** C9. For fixed input and output paths the Basic backend is the same
    computation for any two quality presets: from every world it makes the
    same library calls, leaves the same world and yields the same
    outcome. *)
Theorem basic_ignores_quality (env : Env) (input_path output_path_ : string)
    (q1 q2 : Quality) (w : World) :
  compress_with_pikepdf env input_path output_path_ q1 w
  = compress_with_pikepdf env input_path output_path_ q2 w.
Proof. reflexivity. Qed.

(* ===================================================================== *)
(** * The installer (C7) *)
(* ===================================================================== *)

(** C7, as stated, fails: when the installer exits with status 1 and its
    file cannot be deleted, the error of [os.remove] is swallowed and the
    downloaded installer is still there when the function returns. *)
Lemma installer_left_when_remove_fails :
  fst (ensure_ghostscript_installed failing_installer_host true world0) = Ret None /\
  log (snd (ensure_ghostscript_installed failing_installer_host true world0))
    = [ EvLocate;
        EvUrlopen GITHUB_RELEASE_API true;
        EvUrlopen "https://example.org/gs10040w64.exe" true;
        EvMkstemp (Some "/tmp/gs-setup-k3x9q2.exe");
        EvCopy "/tmp/gs-setup-k3x9q2.exe" true;
        EvRun ["/tmp/gs-setup-k3x9q2.exe"; "/S"] (Some 1);
        EvRun ["/tmp/gs-setup-k3x9q2.exe"] (Some 1);
        EvRemove "/tmp/gs-setup-k3x9q2.exe" false ] /\
  fs (snd (ensure_ghostscript_installed failing_installer_host true world0))
    !! "/tmp/gs-setup-k3x9q2.exe" = Some (File "MZ installer") /\
  ~ installer_always_deleted.
Proof.
  split; [vm_compute; reflexivity|]. split; [vm_compute; reflexivity|].
  split; [vm_compute; reflexivity|].
  intros H.
  destruct (ensure_ghostscript_installed failing_installer_host true world0)
    as [[r|e] w'] eqn:E.
  - pose proof E as E'. vm_compute in E'. injection E' as Hr Hw.
    assert (Hgone : path_exists (fs w') "/tmp/gs-setup-k3x9q2.exe" = false).
    { eapply (H failing_installer_host true world0 r w'
                [EvLocate; EvUrlopen GITHUB_RELEASE_API true;
                 EvUrlopen "https://example.org/gs10040w64.exe" true;
                 EvMkstemp (Some "/tmp/gs-setup-k3x9q2.exe")]
                _ "/tmp/gs-setup-k3x9q2.exe" E).
      rewrite <- Hw. reflexivity. }
    rewrite <- Hw in Hgone. vm_compute in Hgone. discriminate Hgone.
  - vm_compute in E. discriminate E.
Qed.

Lemma truthy_app_r s t : Py.truthy t = true -> Py.truthy (s +:+ t) = true.
Proof. destruct s; [intros H; exact H | reflexivity]. Qed.

Lemma join2_truthy d b : Py.truthy b = true -> Py.truthy (OsPath.join2 d b) = true.
Proof.
  intros H. unfold OsPath.join2.
  destruct (Py.startswith "/" b); [exact H|].
  destruct (negb (Py.truthy d) || Py.endswith "/" d).
  - apply truthy_app_r, H.
  - apply truthy_app_r, truthy_app_r, H.
Qed.

(** [mkstemp] never yields an empty path when a suffix is given *)
Lemma mkstemp_path_truthy env prefix suffix w :
  Py.truthy suffix = true -> Py.truthy (mkstemp_path env prefix suffix w) = true.
Proof.
  intros H. unfold mkstemp_path. apply join2_truthy, truthy_app_r, truthy_app_r, H.
Qed.

#[local] Opaque mkstemp_path.

(** C7, amended. [ensure_ghostscript_installed] never raises.  When the
    locator finds the tool, that path is returned at once and nothing but
    the lookup happens; when the tool is absent and [auto_install] is
    false, absence is returned, again after the lookup alone.  Otherwise a
    path is returned only if no step of the installation failed and a
    process exited with status 0.  Once a download was completed to a
    file, that file no longer exists at return unless deleting it failed
    (the error of that [os.remove] is swallowed). *)
Theorem ensure_ghostscript_installed_best_effort (env : Env) (auto_install : bool)
    (w : World) :
  let w1 := mkWorld (fs w) (log w ++ [EvLocate]) in
  exists r w' evs,
    ensure_ghostscript_installed env auto_install w = (Ret r, w') /\
    log w' = log w ++ EvLocate :: evs /\
    (Py.truthy_opt (locate env w1) = true ->
       r = locate env w1 /\ evs = [] /\ fs w' = fs w) /\
    (Py.truthy_opt (locate env w1) = false -> auto_install = false ->
       r = None /\ evs = [] /\ fs w' = fs w) /\
    (r <> None ->
       evs = [] \/ (existsb step_failed evs = false /\ existsb exited_zero evs = true)) /\
    (forall p, In (EvCopy p true) evs ->
       path_exists (fs w') p = false \/ In (EvRemove p false) evs).
Proof.
  intros w1.
  unfold ensure_ghostscript_installed.
  rewrite (bind_ret_eq _ _ _ _ _ (get_ghostscript_path_eq env w)). fold w1.
  destruct (Py.truthy_opt (locate env w1)) eqn:Hfound.
  { exists (locate env w1), w1, []. repeat split; auto; try discriminate. }
  destruct auto_install.
  2:{ exists None, w1, []. repeat split; auto; try discriminate; try congruence. }
  cbn [negb].
  unfold _fetch_latest_download_url, _download_to_temp, _run_installer, fetch, mkstemp,
    copy_to, run, os_remove, get_ghostscript_path.
  unfold_monad.
  split_cases.
  all: try match goal with
           | H : negb (Py.truthy (mkstemp_path _ _ _ _)) = true |- _ =>
               rewrite mkstemp_path_truthy in H by reflexivity; discriminate H
           end.
  all: do 3 eexists; (split; [reflexivity|]); cbn [fs log].
  all: rewrite <- ?app_assoc; cbn [app].
  all: (split; [reflexivity|]).
  all: (split; [discriminate|]).
  all: (split; [discriminate|]).
  all: split;
    [ intros Hr; try congruence; right; cbn;
      repeat match goal with
             | H : negb _ = false |- _ => apply negb_false_iff in H
             end;
      repeat match goal with
             | H : (_ =? _) = true |- _ => rewrite H
             | H : (_ =? _) = false |- _ => rewrite H
             end; cbn; auto
    | intros p Hin; cbn in Hin;
      repeat (destruct Hin as [Hin|Hin]; [try discriminate Hin|]);
      try contradiction;
      try (injection Hin as <-;
           first [ left; unfold path_exists; rewrite lookup_delete_eq; reflexivity
                 | right; cbn; auto 12 ]) ].
Qed.

(* ===================================================================== *)
(** * Failed results carry a message *)
(* ===================================================================== *)

Section Returns.
Context {A B : Type}.

Lemma returns_ret (P : A -> Prop) a : P a -> returns P (mret a).
Proof. intros H w a' w' E. injection E as <- _. exact H. Qed.

Lemma returns_bind (Q : A -> Prop) (P : B -> Prop) (m : M A) (k : A -> M B) :
  returns Q m -> (forall a, Q a -> returns P (k a)) -> returns P (m ≫= k).
Proof.
  intros Hm Hk w b w' E. unfold mbind, M_bind in E.
  destruct (m w) as [[a|e] w1] eqn:Em; [|discriminate E].
  eapply Hk; [eapply Hm, Em | exact E].
Qed.

Lemma returns_any (m : M A) : returns (fun _ => True) m.
Proof. intros w a w' _. exact I. Qed.

Lemma returns_try_except (P : A -> Prop) (m : M A) (h : Exn -> M A) :
  returns P m -> (forall e, returns P (h e)) -> returns P (try_except m h).
Proof.
  intros Hm Hh w a w' E. unfold try_except in E.
  destruct (m w) as [[a1|e] w1] eqn:Em.
  - injection E as <- _. eapply Hm, Em.
  - eapply Hh, E.
Qed.

Lemma returns_try_finally (P : A -> Prop) (m : M A) (c : M unit) :
  returns P m -> returns P (try_finally m c).
Proof.
  intros Hm w a w' E. unfold try_finally in E.
  destruct (m w) as [r w1] eqn:Em. destruct (c w1) as [[[]|e] w2]; [|discriminate E].
  injection E as -> _. eapply Hm, Em.
Qed.

End Returns.

Lemma truthy_nonempty s : Py.truthy s = true -> s <> EmptyString.
Proof. intros H ->. discriminate H. Qed.

Lemma truthy_or_else a b : Py.truthy b = true -> Py.truthy (Py.or_else a b) = true.
Proof. unfold Py.or_else. destruct (Py.truthy a) eqn:Ea; auto. Qed.

Section Reported.
Variable env : Env.

Lemma gs_failure_reported i o msg : Py.truthy msg = true -> reported (gs_failure i o msg).
Proof. intros H _. apply truthy_nonempty, H. Qed.

Lemma move_into_place_reported tmp i o :
  returns (fun r => match r with Some failure => reported failure | None => True end)
          (move_into_place env tmp i o).
Proof.
  unfold move_into_place. apply returns_try_except.
  - apply (returns_bind (fun _ => True)); [apply returns_any | intros w _].
    apply (returns_bind (fun _ => True)); [apply returns_any | intros _ _].
    apply (returns_bind (fun _ => True)); [apply returns_any | intros _ _].
    apply returns_ret. exact I.
  - intros e. apply returns_ret, gs_failure_reported. reflexivity.
Qed.

(** whatever the Precise backend returns, a failure has a message *)
Lemma precise_reported i o q gs timeout :
  returns reported (compress_with_ghostscript env i o q gs timeout).
Proof.
  unfold compress_with_ghostscript.
  apply (returns_bind (fun _ => True)); [apply returns_any | intros _ _].
  apply (returns_bind (fun _ => True)); [apply returns_any | intros g _].
  apply (returns_bind (fun _ => True)); [apply returns_any | intros w _].
  destruct g as [g|]; [|apply returns_ret, gs_failure_reported; reflexivity].
  destruct (_ || _); [apply returns_ret, gs_failure_reported; reflexivity|].
  unfold gs_attempt.
  apply (returns_bind (fun _ => True)); [apply returns_any | intros tmp _].
  apply returns_try_finally, returns_try_except.
  - unfold run_ghostscript.
    apply (returns_bind (fun _ => True)); [apply returns_any | intros [[rc out] err] _].
    apply (returns_bind (fun _ => True)); [apply returns_any | intros w1 _].
    destruct (_ && _).
    + apply (returns_bind (fun _ => True)); [apply returns_any | intros _ _].
      eapply returns_bind; [apply move_into_place_reported|].
      intros [failure|] Hf; apply returns_ret; [exact Hf | intros H; discriminate H].
    + apply returns_ret, gs_failure_reported.
      apply truthy_or_else, truthy_or_else. reflexivity.
  - intros [|msg]; apply returns_ret, gs_failure_reported; reflexivity.
Qed.

(** whatever the Basic backend returns, a failure has a message *)
Lemma basic_reported i o q : returns reported (compress_with_pikepdf env i o q).
Proof.
  intros w res w' E.
  destruct (basic_spec env i o q w) as (r & w1 & E1 & _ & _ & Hmsg).
  rewrite E in E1. injection E1 as <- _. exact Hmsg.
Qed.

(** on every path that returns, each of the three operations reports its
    failures in the message field *)
Lemma failures_are_reported op i o q : returns reported (perform env op i o q).
Proof.
  destruct op as [gs timeout| |]; simpl.
  - apply precise_reported.
  - apply basic_reported.
  - unfold auto_compress.
    apply (returns_bind (fun _ => True)); [apply returns_any | intros gs _].
    destruct (Py.truthy_opt gs); [|apply basic_reported].
    eapply returns_bind; [apply precise_reported|].
    intros res Hres. destruct (ok res); [apply returns_ret, Hres | apply basic_reported].
Qed.

End Reported.

(* ===================================================================== *)
(** * Exit codes of the command-line front end (C8) *)
(* ===================================================================== *)

Lemma bind_assoc_ret {A} (m : M A) w :
  (m ≫= (fun _ => mret tt)) w =
    match m w with
    | (Ret _, w') => (Ret tt, w')
    | (Raise e, w') => (Raise e, w')
    end.
Proof. reflexivity. Qed.

Lemma all_counted (l : list (string * bool)) :
  length (List.filter snd l) = length l <-> forallb snd l = true.
Proof.
  induction l as [|[s b] l IH]; simpl; [tauto|].
  destruct b; simpl.
  - rewrite <- IH. lia.
  - pose proof (filter_length_le snd l). split; [lia | discriminate].
Qed.

Lemma some_uncounted (l : list (string * bool)) :
  length (List.filter snd l) <> length l ->
  existsb (fun r => negb (snd r)) l = true.
Proof.
  induction l as [|[s b] l IH]; simpl; [congruence|].
  destruct b; simpl; [intros H; apply IH; lia | reflexivity].
Qed.

Section CliFacts.
Variable env : Env.

(** a line was printed when the computation went on to return *)
Lemma bind_print_ret {A} line (k : unit -> M A) w a w' :
  (print env line ≫= k) w = (Ret a, w') ->
  k tt (mkWorld (fs w) (log w ++ [EvPrint line])) = (Ret a, w').
Proof.
  unfold print. unfold mbind at 1, M_bind at 1.
  destruct (os_fault env (CPrint line) w); [discriminate | auto].
Qed.

(** the folder was listed when the computation went on to return *)
Lemma bind_os_listdir_ret {A} d (k : list string -> M A) w a w' :
  (os_listdir env d ≫= k) w = (Ret a, w') ->
  k (listdir env d w) w = (Ret a, w').
Proof.
  unfold os_listdir. unfold mbind at 1, M_bind at 1.
  destruct (os_fault env (CListdir d) w); [discriminate | auto].
Qed.

(** a backend chosen by [choose_engine] records no per-file result *)
Lemma compressor_log e i o q w :
  exists evs,
    log (snd (choose_engine env e i o q w)) = log w ++ evs /\ finished evs = [].
Proof.
  destruct e; simpl.
  - unfold auto_compress.
    rewrite (bind_ret_eq _ _ _ _ _ (get_ghostscript_path_eq env w)).
    set (w1 := mkWorld (fs w) (log w ++ [EvLocate])).
    assert (Hb : forall w2 evs0, log w2 = log w ++ evs0 -> finished evs0 = [] ->
              exists evs, log (snd (compress_with_pikepdf env i o q w2)) = log w ++ evs /\
                          finished evs = []).
    { intros w2 evs0 Hl Hf.
      destruct (basic_log env i o q w2) as (evs2 & Hl2 & Hs2).
      exists (evs0 ++ EvEnter basic :: evs2). rewrite Hl2, Hl, <- app_assoc.
      split; [reflexivity|]. rewrite finished_app, Hf. simpl. apply finished_sys, Hs2. }
    destruct (Py.truthy_opt (locate env w1)); [|apply (Hb w1 [EvLocate]); reflexivity].
    destruct (precise_log env i o q (locate env w1) None w1) as (evs1 & Hl1 & Hs1).
    assert (Hl1' : log (snd (compress_with_ghostscript env i o q (locate env w1) None w1))
                   = log w ++ EvLocate :: EvEnter ghostscript :: evs1).
    { rewrite Hl1. unfold w1. simpl. rewrite <- app_assoc. reflexivity. }
    assert (Hf1 : finished (EvLocate :: EvEnter ghostscript :: evs1) = []).
    { simpl. apply finished_sys, Hs1. }
    destruct (compress_with_ghostscript env i o q (locate env w1) None w1)
      as [[res|ex] w2] eqn:Hp; simpl in Hl1'.
    + rewrite (bind_ret_eq _ _ _ _ _ Hp). destruct (ok res).
      * eexists. split; [exact Hl1' | exact Hf1].
      * eapply Hb; eauto.
    + rewrite (bind_raise_eq _ _ _ _ _ Hp). eexists. split; [exact Hl1' | exact Hf1].
  - destruct (precise_log env i o q None None w) as (evs1 & Hl1 & Hs1).
    eexists. split; [exact Hl1|]. simpl. apply finished_sys, Hs1.
  - destruct (basic_log env i o q w) as (evs1 & Hl1 & Hs1).
    eexists. split; [exact Hl1|]. simpl. apply finished_sys, Hs1.
Qed.

(** [compress_one] records exactly one result, that of its file *)
Lemma compress_one_spec out_arg e q src out_dir w :
  exists evs,
    log (snd (compress_one out_arg (choose_engine env e) q src out_dir w)) = log w ++ evs /\
    match fst (compress_one out_arg (choose_engine env e) q src out_dir w) with
    | Ret (_, res_ok, _) => finished evs = [(src, res_ok)]
    | Raise _ => finished evs = []
    end.
Proof.
  unfold compress_one. rewrite bind_get_world.
  set (out_path := match out_arg with
                   | Some o => if out_arg_is_pdf out_arg then o
                               else default_output_path_for (fs w) src out_dir
                   | None => default_output_path_for (fs w) src out_dir
                   end).
  destruct (compressor_log e src out_path q w) as (evs & Hl & Hf).
  destruct (choose_engine env e src out_path q w) as [[res|ex] w1] eqn:Hc; simpl in Hl.
  - rewrite (bind_ret_eq _ _ _ _ _ Hc). rewrite bind_emit. simpl.
    exists (evs ++ [EvDone src out_path (ok res)]).
    rewrite Hl, <- app_assoc. split; [reflexivity|].
    rewrite finished_app, Hf. reflexivity.
  - rewrite (bind_raise_eq _ _ _ _ _ Hc). simpl. eauto.
Qed.

(** the folder loop compresses the files in order and counts the
    successes *)
Lemma folder_loop_spec out_arg e q total out_dir pdfs :
  forall i ok_count w n w',
    folder_loop env out_arg (choose_engine env e) q total out_dir i pdfs ok_count w
      = (Ret n, w') ->
    exists evs,
      log w' = log w ++ evs /\
      map fst (finished evs) = pdfs /\
      n = (ok_count + length (List.filter snd (finished evs)))%nat.
Proof.
  induction pdfs as [|p rest IH]; intros i ok_count w n w' E.
  - simpl in E. injection E as <- <-. exists []. rewrite app_nil_r. simpl. auto.
  - cbn [folder_loop] in E.
    destruct (compress_one_spec out_arg e q p out_dir w) as (evs1 & Hl1 & Hf1).
    destruct (compress_one out_arg (choose_engine env e) q p out_dir w)
      as [[[[out_path res_ok] msg]|ex] w1] eqn:Hc; simpl in Hl1, Hf1.
    2:{ rewrite (bind_raise_eq _ _ _ _ _ Hc) in E. discriminate E. }
    rewrite (bind_ret_eq _ _ _ _ _ Hc) in E. cbv beta iota in E.
    apply bind_print_ret in E.
    destruct res_ok; cbn [negb] in E.
    + apply IH in E as (evs2 & Hl2 & Hm2 & Hn2). simpl in Hl2.
      eexists (evs1 ++ _ :: evs2). rewrite Hl2, Hl1, <- !app_assoc.
      split; [reflexivity|]. rewrite finished_app, Hf1. simpl.
      rewrite Hm2. split; [reflexivity|]. lia.
    + apply bind_print_ret in E.
      apply IH in E as (evs2 & Hl2 & Hm2 & Hn2). simpl in Hl2.
      eexists (evs1 ++ _ :: _ :: evs2). rewrite Hl2, Hl1, <- !app_assoc.
      split; [reflexivity|]. rewrite finished_app, Hf1. simpl.
      rewrite Hm2. split; [reflexivity|]. lia.
Qed.

Lemma quiet_make_out_dir out_dir : quiet (make_out_dir env out_dir).
Proof. unfold make_out_dir. quiet_tac. Qed.

(** the optional auto-install never raises and only makes calls *)
Lemma auto_install_step_spec args w :
  exists w0 evs0,
    auto_install_step env args w = (Ret tt, w0) /\
    log w0 = log w ++ evs0 /\
    Forall (fun e => sys_event e = true) evs0.
Proof.
  unfold auto_install_step.
  destruct (_ && _).
  - cbn [when].
    destruct (quiet_ensure_ghostscript_installed env true w) as (evs & Hl & Hs).
    unfold try_except. rewrite bind_assoc_ret.
    destruct (ensure_ghostscript_installed env true w) as [[r|ex] w0]; simpl in *; eauto.
  - exists w, []. rewrite app_nil_r. repeat split; auto.
Qed.

End CliFacts.

(** X29. The exit code of a job that returns.  For a CLI invocation with a
    non-empty [--input] (which is what [if not args.input] tests),
    whenever [_run_cli] returns an exit code: the files with a recorded
    result are exactly the requested ones, in order, and the code is 1
    exactly when no valid input was found (no PDF file in the folder, or
    a single path that does not exist or does not end in [.pdf]), in
    which case no backend was entered; 0 exactly when there were
    requested files and every one succeeded; 2 exactly when one or more
    failed. *)
Theorem run_cli_exit_code (env : Env) (args : Args) (input : string)
    (w : World) (code : Z) (w' : World) :
  arg_input args = Some input ->
  Py.truthy input = true ->
  _run_cli env args w = (Ret code, w') ->
  let requested :=
    requested_files env args input (snd (auto_install_step env args w)) in
  exists evs,
    log w' = log w ++ evs /\
    map fst (finished evs) = requested /\
    ((code = 1 /\ requested = [] /\ entered evs = []) \/
     (code = 0 /\ requested <> [] /\ forallb snd (finished evs) = true) \/
     (code = 2 /\ requested <> [] /\
      existsb (fun r => negb (snd r)) (finished evs) = true)).
Proof.
  intros Hin Htruthy E requested.
  unfold _run_cli in E. rewrite Hin, Htruthy in E. cbn [negb] in E.
  destruct (auto_install_step_spec env args w) as (w0 & evs0 & Hstep & Hl0 & Hs0).
  unfold requested, requested_files. rewrite Hstep. cbn [snd].
  rewrite (bind_ret_eq _ _ _ _ _ Hstep), bind_get_world in E.
  set (in_path := abspath env input) in *.
  set (out_arg := out_arg_of env args) in *.
  destruct (path_isdir (fs w0) in_path).
  - (* folder mode *)
    unfold folder_mode in E.
    destruct (quiet_make_out_dir env out_arg w0) as (evs1 & Hl1 & Hs1).
    destruct (make_out_dir env out_arg w0) as [[[]|ex] w1] eqn:Hmk; simpl in Hl1.
    2:{ rewrite (bind_raise_eq _ _ _ _ _ Hmk) in E. discriminate E. }
    rewrite (bind_ret_eq _ _ _ _ _ Hmk) in E.
    apply bind_os_listdir_ret in E. rewrite bind_get_world in E.
    change (pdfs_among in_path (listdir env in_path w1) w1)
      with (list_pdfs env in_path w1) in E. cbn [snd].
    destruct (list_pdfs env in_path w1) as [|p pdfs] eqn:Hpdfs.
    + apply bind_print_ret in E. unfold mret, M_ret in E. inversion E; subst code w'; clear E. simpl.
      exists (evs0 ++ evs1 ++ [EvPrint "No PDF files found in folder."]).
      rewrite Hl1, Hl0, <- !app_assoc. split; [reflexivity|].
      rewrite !finished_app, !entered_app.
      rewrite (finished_sys _ Hs0), (finished_sys _ Hs1).
      rewrite (entered_sys _ Hs0), (entered_sys _ Hs1). simpl. auto.
    + destruct (folder_loop env out_arg (choose_engine env (arg_engine args)) (arg_quality args)
                  (length (p :: pdfs)) out_arg 1 (p :: pdfs) 0 w1)
        as [[n|ex] w2] eqn:Hloop.
      2:{ rewrite (bind_raise_eq _ _ _ _ _ Hloop) in E. discriminate E. }
      rewrite (bind_ret_eq _ _ _ _ _ Hloop) in E.
      apply bind_print_ret in E. unfold mret, M_ret in E. inversion E; subst code w'; clear E.
      apply folder_loop_spec in Hloop as (evs2 & Hl2 & Hm2 & Hn2).
      assert (Hlen : length (finished evs2) = length (p :: pdfs)).
      { rewrite <- Hm2, length_map. reflexivity. }
      assert (Hreq : p :: pdfs <> []) by discriminate.
      cbn [length] in Hlen.
      eexists (evs0 ++ evs1 ++ evs2 ++ [_]). cbn [log].
      rewrite Hl2, Hl1, Hl0, <- !app_assoc. split; [reflexivity|].
      rewrite !finished_app.
      rewrite (finished_sys _ Hs0), (finished_sys _ Hs1). cbn [finished app].
      rewrite app_nil_r. split; [exact Hm2|].
      right. destruct (Nat.eqb_spec n (S (length pdfs))) as [Heq|Hne].
      * left. split; [reflexivity|]. split; [exact Hreq|].
        apply all_counted. lia.
      * right. split; [reflexivity|]. split; [exact Hreq|].
        apply some_uncounted. lia.
  - (* single file *)
    unfold single_mode in E. rewrite bind_get_world in E.
    destruct (negb (Py.endswith ".pdf" (Py.lower in_path)) || negb (path_exists (fs w0) in_path)).
    + apply bind_print_ret in E. unfold mret, M_ret in E. inversion E; subst code w'; clear E. simpl.
      eexists (evs0 ++ [_]). rewrite Hl0, <- app_assoc. split; [reflexivity|].
      rewrite finished_app, entered_app.
      rewrite (finished_sys _ Hs0), (entered_sys _ Hs0). simpl. auto.
    + set (out_dir := if out_arg_is_pdf out_arg then None else out_arg) in *.
      destruct (quiet_make_out_dir env out_dir w0) as (evs1 & Hl1 & Hs1).
      destruct (make_out_dir env out_dir w0) as [[[]|ex] w1] eqn:Hmk; simpl in Hl1.
      2:{ rewrite (bind_raise_eq _ _ _ _ _ Hmk) in E. discriminate E. }
      rewrite (bind_ret_eq _ _ _ _ _ Hmk) in E.
      destruct (compress_one_spec env out_arg (arg_engine args) (arg_quality args)
                  in_path out_dir w1) as (evs2 & Hl2 & Hf2).
      destruct (compress_one out_arg (choose_engine env (arg_engine args)) (arg_quality args)
                  in_path out_dir w1) as [[[[out_path res_ok] msg]|ex] w2] eqn:Hc;
        simpl in Hl2, Hf2.
      2:{ rewrite (bind_raise_eq _ _ _ _ _ Hc) in E. discriminate E. }
      rewrite (bind_ret_eq _ _ _ _ _ Hc) in E. cbv beta iota in E.
      destruct res_ok; apply bind_print_ret in E; unfold mret, M_ret in E;
        inversion E; subst code w'; clear E; cbn [log].
      * eexists (evs0 ++ evs1 ++ evs2 ++ [_]).
        rewrite Hl2, Hl1, Hl0, <- !app_assoc. split; [reflexivity|].
        rewrite !finished_app, (finished_sys _ Hs0), (finished_sys _ Hs1), Hf2. simpl.
        split; [reflexivity|]. right. left. repeat split. discriminate.
      * eexists (evs0 ++ evs1 ++ evs2 ++ [_]).
        rewrite Hl2, Hl1, Hl0, <- !app_assoc. split; [reflexivity|].
        rewrite !finished_app, (finished_sys _ Hs0), (finished_sys _ Hs1), Hf2. simpl.
        split; [reflexivity|]. right. right. repeat split. discriminate.
Qed.

(** the exit code of a folder job in which one of two files fails *)
Lemma run_cli_exit_code_witness :
  arg_input docs_args = Some "docs" /\
  Py.truthy "docs" = true /\
  exists w',
    _run_cli docs_host docs_args docs_world = (Ret 2, w') /\
    let requested :=
      requested_files docs_host docs_args "docs"
        (snd (auto_install_step docs_host docs_args docs_world)) in
    exists evs,
      log w' = log docs_world ++ evs /\
      map fst (finished evs) = requested /\
      ((2 = 1 /\ requested = [] /\ entered evs = []) \/
       (2 = 0 /\ requested <> [] /\ forallb snd (finished evs) = true) \/
       (2 = 2 /\ requested <> [] /\
        existsb (fun r => negb (snd r)) (finished evs) = true)).
Proof.
  split; [reflexivity|]. split; [reflexivity|].
  destruct (_run_cli docs_host docs_args docs_world) as [[code|ex] w'] eqn:E.
  - assert (Hcode : code = 2).
    { pose proof E as E'. vm_compute in E'. injection E' as <- _. reflexivity. }
    subst code. exists w'. split; [reflexivity|].
    exact (run_cli_exit_code docs_host docs_args "docs" docs_world 2 w'
             eq_refl eq_refl E).
  - vm_compute in E. discriminate E.
Defined.

(** C8: a valid input whose compression crashes.  [in.pdf] exists, the
    tool is found and the temporary file cannot be created: the exception
    of [tempfile.mkstemp] escapes from [_run_cli], so the process ends
    with exit status 1, which the claim reserves for "no valid input",
    although a file was requested and no success was recorded for it;
    the claim asks for 2 there. *)
Theorem cli_crash_exits_with_status_1 :
  let job := _run_cli tool_without_temp_dir_host single_file_args world0 in
  requested_files tool_without_temp_dir_host single_file_args "in.pdf"
    (snd (auto_install_step tool_without_temp_dir_host single_file_args world0))
    = ["in.pdf"] /\
  fst job = Raise (Error "No usable temporary directory found") /\
  exit_status (fst job) = 1 /\
  finished (log (snd job)) = [] /\
  ~ exit_code_tells_outcome.
Proof.
  intros job.
  assert (Hreq : requested_files tool_without_temp_dir_host single_file_args "in.pdf"
                   (snd (auto_install_step tool_without_temp_dir_host single_file_args
                           world0)) = ["in.pdf"]) by (vm_compute; reflexivity).
  assert (Hstatus : exit_status (fst job) = 1) by (vm_compute; reflexivity).
  assert (Hfin : finished (log (snd job)) = []) by (vm_compute; reflexivity).
  split; [exact Hreq|]. split; [vm_compute; reflexivity|].
  split; [exact Hstatus|]. split; [exact Hfin|].
  intros H.
  destruct (H tool_without_temp_dir_host single_file_args "in.pdf" world0
              (log (snd job)) eq_refl eq_refl eq_refl) as (_ & _ & Hfailed).
  fold job in Hfailed. rewrite Hreq, Hfin, Hstatus in Hfailed.
  assert (H12 : (1 : Z) = 2); [|discriminate H12].
  apply Hfailed. constructor. intros [].
Qed.

(* ===================================================================== *)
(** * The requested files *)
(* ===================================================================== *)

(** no valid input, spelled out *)
Lemma requested_files_empty env args input w :
  requested_files env args input w = [] <->
  (if path_isdir (fs w) (abspath env input)
   then list_pdfs env (abspath env input) (snd (make_out_dir env (out_arg_of env args) w)) = []
   else Py.endswith ".pdf" (Py.lower (abspath env input)) = false \/
        path_exists (fs w) (abspath env input) = false).
Proof.
  unfold requested_files.
  destruct (path_isdir (fs w) (abspath env input)); [tauto|].
  destruct (Py.endswith ".pdf" (Py.lower (abspath env input)));
    destruct (path_exists (fs w) (abspath env input)); simpl;
    split; auto; try discriminate; intros [H|H]; discriminate H.
Qed.

(* ===================================================================== *)
(** * The end-to-end scenarios of the specification, run on the model *)
(* ===================================================================== *)

(** a folder with [x.pdf], [y.pdf] and [notes.txt]: exactly the two PDF
    files are processed, and one failure gives exit code 2 *)
Example folder_scenario :
  fst (_run_cli docs_host docs_args docs_world) = Ret 2 /\
  finished (log (snd (_run_cli docs_host docs_args docs_world)))
    = [("docs/x.pdf", true); ("docs/y.pdf", false)].
Proof. vm_compute. split; reflexivity. Qed.

(** [--input missing.pdf]: exit code 1, the message, and nothing else *)
Example missing_input_scenario :
  _run_cli docs_host (mkArgs (Some "missing.pdf") None auto false balanced) docs_world
  = (Ret 1, mkWorld docs_disk [EvPrint "Input must be an existing PDF file or a folder."]).
Proof. vm_compute. reflexivity. Qed.

(** a single file into a new output folder with the Basic engine *)
Example single_file_scenario :
  fst (_run_cli docs_host (mkArgs (Some "docs/x.pdf") (Some "out") basic false balanced)
         docs_world) = Ret 0 /\
  finished (log (snd (_run_cli docs_host
                        (mkArgs (Some "docs/x.pdf") (Some "out") basic false balanced)
                        docs_world)))
    = [("docs/x.pdf", true)].
Proof. vm_compute. split; reflexivity. Qed.

(** [--input EmptyString]: the empty string is falsy, the GUI is launched and its
    exit code is returned *)
Example empty_input_scenario :
  fst (_run_cli quiet_host (mkArgs (Some EmptyString) None auto false balanced) world0) = Ret 0 /\
  last (log (snd (_run_cli quiet_host (mkArgs (Some EmptyString) None auto false balanced) world0)))
    = Some (EvGui true).
Proof. vm_compute. split; reflexivity. Qed.

(* ===================================================================== *)
(** * Footprints of computations *)
(* ===================================================================== *)

Create HintDb only_db.

Section Only.
Context {A B : Type}.
Variable P : Event -> bool.

Lemma only_ret (a : A) : only P (mret a).
Proof. intros w. exists []. simpl. rewrite app_nil_r. auto. Qed.

Lemma only_raise (e : Exn) : only P (@raise A e).
Proof. intros w. exists []. simpl. rewrite app_nil_r. auto. Qed.

Lemma only_bind (m : M A) (k : A -> M B) :
  only P m -> (forall a, only P (k a)) -> only P (m ≫= k).
Proof.
  intros Hm Hk w. unfold mbind, M_bind.
  destruct (Hm w) as (e1 & H1 & F1). destruct (m w) as [[a|e] w1]; simpl in *.
  - destruct (Hk a w1) as (e2 & H2 & F2).
    exists (e1 ++ e2). rewrite H2, H1, app_assoc. split; [reflexivity|].
    apply Forall_app; auto.
  - exists e1. auto.
Qed.

Lemma only_try_except (m : M A) (h : Exn -> M A) :
  only P m -> (forall e, only P (h e)) -> only P (try_except m h).
Proof.
  intros Hm Hh w. unfold try_except.
  destruct (Hm w) as (e1 & H1 & F1). destruct (m w) as [[a|e] w1]; simpl in *.
  - exists e1. auto.
  - destruct (Hh e w1) as (e2 & H2 & F2).
    exists (e1 ++ e2). rewrite H2, H1, app_assoc. split; [reflexivity|].
    apply Forall_app; auto.
Qed.

Lemma only_try_finally (m : M A) (c : M unit) :
  only P m -> only P c -> only P (try_finally m c).
Proof.
  intros Hm Hc w. unfold try_finally.
  destruct (Hm w) as (e1 & H1 & F1). destruct (m w) as [r w1]; simpl in *.
  destruct (Hc w1) as (e2 & H2 & F2). destruct (c w1) as [[[]|e] w2]; simpl in *;
    exists (e1 ++ e2); rewrite H2, H1, app_assoc; (split; [reflexivity|]);
    apply Forall_app; auto.
Qed.

End Only.

Section OnlyBasics.
Variable P : Event -> bool.

Lemma only_swallow (m : M unit) : only P m -> only P (swallow m).
Proof. intros H. apply only_try_except; [exact H | intros; apply only_ret]. Qed.

Lemma only_when b (m : M unit) : only P m -> only P (when b m).
Proof. intros H. destruct b; [exact H | apply only_ret]. Qed.

Lemma only_get_world : only P get_world.
Proof. intros w. exists []. simpl. rewrite app_nil_r. auto. Qed.

Lemma only_set_fs f : only P (set_fs f).
Proof. intros w. exists []. simpl. rewrite app_nil_r. auto. Qed.

Lemma only_emit e : P e = true -> only P (emit e).
Proof. intros H w. exists [e]. simpl. auto. Qed.

End OnlyBasics.

Lemma only_print (env : Env) (P : Event -> bool) line :
  P (EvPrint line) = true -> only P (print env line).
Proof.
  intros H w. unfold print. destruct (os_fault env (CPrint line) w).
  - exists []. simpl. rewrite app_nil_r. auto.
  - exists [EvPrint line]. simpl. auto.
Qed.

Lemma only_os_listdir (env : Env) (P : Event -> bool) d : only P (os_listdir env d).
Proof.
  intros w. unfold os_listdir. exists [].
  destruct (os_fault env (CListdir d) w); simpl; rewrite app_nil_r; auto.
Qed.

Lemma only_mono {A} (P Q : Event -> bool) (m : M A) :
  (forall e, P e = true -> Q e = true) -> only P m -> only Q m.
Proof.
  intros HPQ Hm w. destruct (Hm w) as (evs & Hl & HF).
  exists evs. split; [exact Hl|]. eapply Forall_impl; [exact HF|]. exact HPQ.
Qed.

#[global] Hint Resolve only_ret only_raise only_get_world only_set_fs only_os_listdir
  : only_db.

(** close a goal about one event of a footprint *)
Ltac event_ok :=
  cbn;
  rewrite ?String.eqb_refl, ?orb_true_r, ?andb_true_r;
  first
    [ reflexivity
    | apply bool_decide_eq_true_2; reflexivity
    | apply orb_true_iff;
      first [ left; apply bool_decide_eq_true_2; reflexivity
            | right; apply bool_decide_eq_true_2; reflexivity ]
    | auto ].

(** an operating-system or library call: it appends exactly one event *)
Ltac only_primitive :=
  unfold mkstemp, os_remove, shutil_move, os_makedirs, run,
    import_pikepdf, pikepdf_open_, pikepdf_save_, fetch, copy_to,
    _fetch_latest_download_url, _show_critical_message, emit;
  intros ?w;
  repeat match goal with
         | |- context [match ?x with _ => _ end] => destruct x eqn:?
         end;
  (eexists [_]; cbn [snd log]; split;
   [reflexivity | constructor; [event_ok | constructor]]).

(** decompose a monadic term, one combinator at a time *)
Ltac only_step :=
  match goal with
  | |- only _ (mbind _ _) => apply only_bind; [| intros ?]
  | |- only _ (_ ≫= _) => apply only_bind; [| intros ?]
  | |- only _ (try_except _ _) => apply only_try_except; [| intros ?]
  | |- only _ (try_finally _ _) => apply only_try_finally
  | |- only _ (swallow _) => apply only_swallow
  | |- only _ (when _ _) => apply only_when
  | |- only _ (match ?x with _ => _ end) => destruct x
  | |- only _ (if ?b then _ else _) => destruct b
  | |- only _ (let '(_, _) := ?x in _) => destruct x
  | |- only _ (print _ _) => apply only_print; first [solve [auto] | event_ok]
  | |- only _ _ => solve [auto with only_db]
  | |- only _ _ => solve [only_primitive]
  end.

Ltac only_tac := repeat only_step.

(* ===================================================================== *)
(** * [ghostscript_finder.py]: the search for the tool *)
(* ===================================================================== *)

Section FinderFacts.
Variable env : Env.

Lemma key_le_refl k : key_le k k = true.
Proof.
  destruct k as [[] s]; unfold key_le; cbn [fst snd];
    destruct (String.leb_total s s); assumption.
Qed.

Lemma key_le_total a b : key_le a b = true \/ key_le b a = true.
Proof.
  destruct a as [[] s], b as [[] t]; unfold key_le; cbn [fst snd]; auto;
    apply String.leb_total.
Qed.

Lemma string_leb_trans s t u :
  String.leb s t = true -> String.leb t u = true -> String.leb s u = true.
Proof.
  intros H1 H2. apply Is_true_true. apply Is_true_true in H1, H2.
  exact (transitivity (R := String.le) H1 H2).
Qed.

Lemma key_le_trans a b c :
  key_le a b = true -> key_le b c = true -> key_le a c = true.
Proof.
  destruct a as [[] s], b as [[] t], c as [[] u]; unfold key_le; cbn [fst snd];
    try discriminate; auto; apply string_leb_trans.
Qed.

(** a path with ["64c"] in its base name sorts before every path without *)
Lemma key_le_64c p q :
  key_le (probe_key env p) (probe_key env q) = true ->
  Py.contains "64c" (os_path_basename env q) = true ->
  Py.contains "64c" (os_path_basename env p) = true.
Proof.
  unfold key_le, probe_key. cbn [fst snd]. intros H Hq. rewrite Hq in H.
  destruct (Py.contains "64c" (os_path_basename env p)); [reflexivity | discriminate H].
Qed.

Lemma insert_sorted_perm x l : insert_sorted env x l ≡ₚ x :: l.
Proof.
  induction l as [|y r IH]; [reflexivity|]. cbn [insert_sorted].
  destruct (key_le (probe_key env y) (probe_key env x)); [|reflexivity].
  rewrite IH. apply Permutation_swap.
Qed.

Lemma sorted_by_key_perm_acc l acc :
  fold_left (fun acc x => insert_sorted env x acc) l acc ≡ₚ l ++ acc.
Proof.
  revert acc. induction l as [|x l IH]; intros acc; [reflexivity|].
  cbn [fold_left]. rewrite IH, insert_sorted_perm.
  symmetry. apply Permutation_middle.
Qed.

(** [sorted] returns the list it was given, in some order *)
Lemma sorted_by_key_perm l : sorted_by_key env l ≡ₚ l.
Proof. unfold sorted_by_key. rewrite sorted_by_key_perm_acc, app_nil_r. reflexivity. Qed.

Lemma insert_sorted_least x l : least_first env l -> least_first env (insert_sorted env x l).
Proof.
  intros Hl h Hh q Hq.
  destruct l as [|y r].
  - cbn in Hh, Hq. destruct Hq as [<-|[]]. injection Hh as <-. apply key_le_refl.
  - cbn [insert_sorted] in Hh, Hq.
    destruct (key_le (probe_key env y) (probe_key env x)) eqn:Hyx.
    + injection Hh as <-. destruct Hq as [<-|Hq]; [apply key_le_refl|].
      apply (Permutation_in _ (insert_sorted_perm x r)) in Hq.
      destruct Hq as [<-|Hq]; [exact Hyx|].
      apply (Hl y eq_refl). right. exact Hq.
    + injection Hh as <-. destruct Hq as [<-|Hq]; [apply key_le_refl|].
      assert (Hxy : key_le (probe_key env x) (probe_key env y) = true).
      { destruct (key_le_total (probe_key env x) (probe_key env y)); congruence. }
      eapply key_le_trans; [exact Hxy|]. apply (Hl y eq_refl), Hq.
Qed.

Lemma sorted_by_key_least_acc l acc :
  least_first env acc -> least_first env (fold_left (fun acc x => insert_sorted env x acc) l acc).
Proof.
  revert acc. induction l as [|x l IH]; intros acc Hacc; [exact Hacc|].
  cbn [fold_left]. apply IH, insert_sorted_least, Hacc.
Qed.

Lemma sorted_by_key_least l : least_first env (sorted_by_key env l).
Proof. apply sorted_by_key_least_acc. intros h Hh. discriminate Hh. Qed.

End FinderFacts.

(** X1. [_which_any] returns the answer of [shutil.which] for the first name,
    in the order given, for which that answer is a non-empty path; names
    for which [which] answers nothing or an empty string are passed over,
    and the result is absent exactly when that is so for every name. *)
Theorem which_any_first_hit (env : Env) (names : list string) (w : World) :
  match _which_any env names w with
  | Some p =>
      p <> EmptyString /\
      exists before name after,
        names = before ++ name :: after /\
        which env name w = Some p /\
        forall n, In n before -> which env n w = None \/ which env n w = Some EmptyString
  | None =>
      forall n, In n names -> which env n w = None \/ which env n w = Some EmptyString
  end.
Proof.
  induction names as [|name rest IH]; cbn [_which_any].
  - intros n [].
  - destruct (which env name w) as [path|] eqn:Hw.
    + destruct (Py.truthy path) eqn:Ht.
      * split; [apply truthy_nonempty, Ht|].
        exists [], name, rest. repeat split; auto. intros n [].
      * assert (Hempty : path = EmptyString).
        { unfold Py.truthy in Ht. apply negb_false_iff, String.eqb_eq in Ht. exact Ht. }
        subst path.
        destruct (_which_any env rest w) as [p|].
        -- destruct IH as (Hp & before & n0 & after & -> & Hn0 & Hbefore).
           split; [exact Hp|]. exists (name :: before), n0, after.
           repeat split; auto. intros n [<-|Hn]; auto.
        -- intros n [<-|Hn]; auto.
    + destruct (_which_any env rest w) as [p|].
      * destruct IH as (Hp & before & n0 & after & -> & Hn0 & Hbefore).
        split; [exact Hp|]. exists (name :: before), n0, after.
        repeat split; auto. intros n [<-|Hn]; auto.
      * intros n [<-|Hn]; auto.
Qed.

(** X2. [_probe_common_windows_paths] returns one of the paths the four glob
    patterns matched, and a least one for the sort key, whatever the
    host's [os.path.basename] is: whenever some match has ["64c"] in its
    base name, so has the path returned (the 64-bit console build is
    preferred), and no match with the same answer to that test comes
    before it in the order of strings.  It returns nothing only when
    nothing matched. *)
Theorem probe_prefers_64bit_console (env : Env) (w : World) :
  let candidates := flat_map (fun pattern => glob env pattern w) windows_patterns in
  let is_64c := fun p => Py.contains "64c" (os_path_basename env p) in
  match _probe_common_windows_paths env w with
  | Some p =>
      In p candidates /\
      (forall q, In q candidates -> key_le (probe_key env p) (probe_key env q) = true) /\
      (forall q, In q candidates -> is_64c q = true -> is_64c p = true) /\
      (forall q, In q candidates -> is_64c q = is_64c p -> String.leb p q = true)
  | None => candidates = []
  end.
Proof.
  intros candidates is_64c. unfold _probe_common_windows_paths. fold candidates.
  pose proof (sorted_by_key_perm env candidates) as Hperm.
  pose proof (sorted_by_key_least env candidates) as Hleast.
  destruct (sorted_by_key env candidates) as [|p rest] eqn:Hs; cbn [head].
  - apply Permutation_nil in Hperm. exact Hperm.
  - assert (Hmin : forall q, In q candidates ->
                     key_le (probe_key env p) (probe_key env q) = true).
    { intros q Hq. apply (Hleast p eq_refl).
      apply (Permutation_in _ (Permutation_sym Hperm)), Hq. }
    split; [apply (Permutation_in _ Hperm); left; reflexivity|].
    split; [exact Hmin|].
    split.
    + intros q Hq H64. eapply key_le_64c; [apply Hmin, Hq | exact H64].
    + intros q Hq Hsame. specialize (Hmin q Hq).
      unfold key_le, probe_key in Hmin. cbn [fst snd] in Hmin.
      fold (is_64c p) (is_64c q) in Hmin. rewrite Hsame in Hmin.
      destruct (is_64c p); exact Hmin.
Qed.

(** on a Windows host the 64-bit tool is returned, although the path of
    the 32-bit tool, which lies in a folder named [gs64c], comes first in
    the order of strings *)
Lemma probe_prefers_64bit_console_witness :
  String.leb tool32_in_gs64c tool64_in_gs956 = true /\
  Py.contains "64c" (os_path_basename windows_host tool32_in_gs64c) = false /\
  _probe_common_windows_paths windows_host world0 = Some tool64_in_gs956.
Proof.
  split; [reflexivity|]. split; [reflexivity|].
  pose proof (probe_prefers_64bit_console windows_host world0) as H.
  cbv zeta in H.
  destruct (_probe_common_windows_paths windows_host world0) as [p|] eqn:E.
  - destruct H as (Hin & _ & H64 & _).
    assert (Hp : Py.contains "64c" (os_path_basename windows_host p) = true).
    { apply (H64 tool64_in_gs956); [vm_compute; auto | reflexivity]. }
    vm_compute in Hin. destruct Hin as [<-|[<-|[]]]; [reflexivity|].
    vm_compute in Hp. discriminate Hp.
  - vm_compute in H. discriminate H.
Defined.

(** X3. A bundled tool takes precedence: when one of the bundled candidates
    exists, the lookup returns the first bundled candidate that exists, in
    the order of the two nested loops, whatever [PATH] and the usual
    install locations hold. *)
Theorem bundled_tool_wins (env : Env) (w : World) (c : string) :
  In c (bundled_candidates env) ->
  path_exists (fs w) c = true ->
  exists p before after,
    locate env w = Some p /\
    bundled_candidates env = before ++ p :: after /\
    path_exists (fs w) p = true /\
    forall q, In q before -> path_exists (fs w) q = false.
Proof.
  intros Hin Hex. unfold locate.
  generalize dependent (bundled_candidates env). intros l Hin.
  assert (H : exists p before after,
            List.find (path_exists (fs w)) l = Some p /\
            l = before ++ p :: after /\ path_exists (fs w) p = true /\
            forall q, In q before -> path_exists (fs w) q = false).
  { induction l as [|x l IH]; [destruct Hin|]. cbn [List.find].
    destruct (path_exists (fs w) x) eqn:Hx.
    - exists x, [], l. repeat split; auto. intros q [].
    - destruct Hin as [->|Hin]; [congruence|].
      destruct (IH Hin) as (p & before & after & Hf & -> & Hp & Hb).
      exists p, (x :: before), after. repeat split; auto.
      intros q [<-|Hq]; auto. }
  destruct H as (p & before & after & Hf & Hl & Hp & Hb).
  exists p, before, after. rewrite Hf. auto.
Qed.

(** a bundled 32-bit tool is found although another tool is on [PATH] *)
Lemma bundled_tool_wins_witness :
  In "/opt/app/ghostscript/bin/gswin32c.exe" (bundled_candidates portable_host) /\
  path_exists (fs portable_world) "/opt/app/ghostscript/bin/gswin32c.exe" = true /\
  exists p before after,
    locate portable_host portable_world = Some p /\
    bundled_candidates portable_host = before ++ p :: after /\
    path_exists (fs portable_world) p = true /\
    forall q, In q before -> path_exists (fs portable_world) q = false.
Proof.
  assert (Hin : In "/opt/app/ghostscript/bin/gswin32c.exe"
                  (bundled_candidates portable_host)) by (vm_compute; auto).
  assert (Hex : path_exists (fs portable_world)
                  "/opt/app/ghostscript/bin/gswin32c.exe" = true) by reflexivity.
  split; [exact Hin|]. split; [exact Hex|].
  exact (bundled_tool_wins portable_host portable_world _ Hin Hex).
Defined.

(** a hit of [_which_any] is a non-empty answer of [shutil.which] for one
    of the names *)
Lemma which_any_member (env : Env) (names : list string) (w : World) :
  match _which_any env names w with
  | Some p =>
      Py.truthy p = true /\
      exists name, In name names /\ which env name w = Some p
  | None =>
      forall n, In n names -> which env n w = None \/ which env n w = Some EmptyString
  end.
Proof.
  induction names as [|name rest IH]; cbn [_which_any]; [intros n []|].
  assert (Hrest : forall r,
            which env name w = r -> (r = None \/ r = Some EmptyString) ->
            match _which_any env rest w with
            | Some p =>
                Py.truthy p = true /\
                exists name0, In name0 (name :: rest) /\ which env name0 w = Some p
            | None =>
                forall n, In n (name :: rest) ->
                  which env n w = None \/ which env n w = Some EmptyString
            end).
  { intros r Hr Hnone. destruct (_which_any env rest w) as [p|].
    - destruct IH as (Hp & n0 & Hin & Hn0). split; [exact Hp|].
      exists n0. split; [right; exact Hin | exact Hn0].
    - intros n [<-|Hn]; [rewrite Hr; exact Hnone | apply IH, Hn]. }
  destruct (which env name w) as [path|] eqn:Hw; [|apply (Hrest None); auto].
  destruct (Py.truthy path) eqn:Ht.
  - split; [exact Ht|]. exists name. split; [left; reflexivity | exact Hw].
  - apply (Hrest (Some path)); [reflexivity|]. right.
    unfold Py.truthy in Ht. apply negb_false_iff, String.eqb_eq in Ht. congruence.
Qed.

Lemma bundled_candidates_truthy (env : Env) (p : string) :
  In p (bundled_candidates env) -> Py.truthy p = true.
Proof.
  unfold bundled_candidates. intros H. apply in_flat_map in H as (root & _ & H).
  cbn [map] in H.
  destruct H as [<-|[<-|[]]]; cbn [OsPath.join fold_left]; apply join2_truthy; reflexivity.
Qed.

(** X4. [get_ghostscript_path] never raises and changes no file.  A path it
    returns is not empty and names something that exists, unless it is
    the answer of [shutil.which] for one of the five command names, which
    is returned unchecked.  It returns nothing only when no bundled
    candidate exists and [shutil.which] knows none of the five names. *)
Theorem get_ghostscript_path_sound (env : Env) (w : World) :
  let w1 := mkWorld (fs w) (log w ++ [EvLocate]) in
  let names := ["gswin64c"; "gswin64c.exe"; "gswin32c"; "gswin32c.exe"; "gs"] in
  exists r,
    get_ghostscript_path env w = (Ret r, w1) /\
    match r with
    | Some p =>
        p <> EmptyString /\
        (path_exists (fs w) p = true \/
         exists name, In name names /\ which env name w1 = Some p)
    | None =>
        (forall c, In c (bundled_candidates env) -> path_exists (fs w) c = false) /\
        (forall name, In name names ->
           which env name w1 = None \/ which env name w1 = Some EmptyString)
    end.
Proof.
  intros w1 names. exists (locate env w1). split; [reflexivity|].
  unfold locate. fold names. change (fs w1) with (fs w).
  destruct (List.find (path_exists (fs w)) (bundled_candidates env)) as [p|] eqn:Hf.
  { apply find_some in Hf as (Hin & Hex).
    split; [apply truthy_nonempty, (bundled_candidates_truthy env), Hin | auto]. }
  pose proof (which_any_member env names w1) as Hw.
  destruct (_which_any env names w1) as [p|]; cbn [Py.truthy_opt].
  { destruct Hw as (Ht & name & Hn & Hwhich).
    rewrite Ht. split; [apply truthy_nonempty, Ht|]. right. exists name. auto. }
  assert (Hnone : (forall c, In c (bundled_candidates env) -> path_exists (fs w) c = false) /\
                  (forall name, In name names ->
                     which env name w1 = None \/ which env name w1 = Some EmptyString)).
  { split; [apply find_none, Hf | exact Hw]. }
  destruct (_probe_common_windows_paths env w1) as [p|]; [|exact Hnone].
  destruct (Py.truthy p) eqn:Ht; cbn [andb]; [|exact Hnone].
  destruct (path_exists (fs w) p) eqn:Hex; [|exact Hnone].
  split; [apply truthy_nonempty, Ht | auto].
Qed.

(* ===================================================================== *)
(** * [ghostscript_installer.py]: query, download and installer run *)
(* ===================================================================== *)

(** X7. [_run_installer] never raises and starts at most two processes.  It
    first runs the installer (with [/S] when [silent]); exit status 0
    gives [True]; a process that cannot be started or times out gives
    [False]; any other exit status gives [False] when not [silent], and
    otherwise one more run, without [/S], whose outcome decides. *)
Theorem run_installer_protocol (env : Env) (installer_path : string)
    (silent : bool) (w : World) :
  let first := if silent then [installer_path; "/S"] else [installer_path] in
  exists b w' runs,
    _run_installer env installer_path silent w = (Ret b, w') /\
    log w' = log w ++ runs /\
    ((runs = [EvRun first (Some 0)] /\ b = true) \/
     (runs = [EvRun first None] /\ b = false) \/
     (silent = false /\
      exists rc, rc <> 0 /\ runs = [EvRun first (Some rc)] /\ b = false) \/
     (silent = true /\
      exists rc again,
        rc <> 0 /\
        runs = [EvRun first (Some rc); EvRun [installer_path] again] /\
        b = match again with Some rc2 => rc2 =? 0 | None => false end)).
Proof.
  intros first. unfold _run_installer, run. fold first. unfold_monad.
  destruct (subprocess_run env first (Some 600) w) as [[rc out err|e] f] eqn:H1;
    cbn [fst snd fs log].
  2:{ do 3 eexists. split; [reflexivity|]. split; [reflexivity|]. auto. }
  destruct (Z.eqb_spec rc 0) as [->|Hrc].
  { do 3 eexists. split; [reflexivity|]. split; [reflexivity|]. auto. }
  destruct silent.
  2:{ do 3 eexists. split; [reflexivity|]. split; [reflexivity|].
      right. right. left. split; [reflexivity|]. exists rc. auto. }
  match goal with
  | |- context [subprocess_run env [installer_path] (Some 600) ?w1] =>
      destruct (subprocess_run env [installer_path] (Some 600) w1)
        as [[rc2 out2 err2|e2] f2] eqn:H2
  end; cbn [fst snd fs log].
  - do 3 eexists. split; [reflexivity|]. split; [rewrite <- app_assoc; reflexivity|].
    right. right. right. split; [reflexivity|]. exists rc, (Some rc2). auto.
  - do 3 eexists. split; [reflexivity|]. split; [rewrite <- app_assoc; reflexivity|].
    right. right. right. split; [reflexivity|]. exists rc, None. auto.
Qed.

(** the release query returns after one call *)
Lemma fetch_latest_download_url_returns (env : Env) (arch : string) (w : World) :
  exists r answered,
    _fetch_latest_download_url env arch w
      = (Ret r, mkWorld (fs w) (log w ++ [EvUrlopen GITHUB_RELEASE_API answered])).
Proof.
  unfold _fetch_latest_download_url.
  destruct (release_assets env GITHUB_RELEASE_API w); do 2 eexists; reflexivity.
Qed.

(** X5. [_fetch_latest_download_url] never raises, makes one query, to the
    release API, and changes no file.  A URL it returns is not empty, ends
    in [.exe] and is the download URL of the first asset of the answer
    whose name matches the pattern for the architecture and whose URL
    ends in [.exe]. *)
Theorem fetch_latest_download_url_sound (env : Env) (arch : string) (w : World) :
  exists r answered,
    _fetch_latest_download_url env arch w
      = (Ret r, mkWorld (fs w) (log w ++ [EvUrlopen GITHUB_RELEASE_API answered])) /\
    forall u, r = Some u ->
      u <> EmptyString /\ Py.endswith ".exe" u = true /\
      exists before a after,
        release_assets env GITHUB_RELEASE_API w = inr (before ++ a :: after) /\
        browser_download_url a = Some u /\
        re_search_ignorecase env (_guess_asset_name_pattern arch) (asset_name a) = true /\
        forall a', In a' before ->
          asset_matches env (_guess_asset_name_pattern arch) a' = false.
Proof.
  unfold _fetch_latest_download_url.
  destruct (release_assets env GITHUB_RELEASE_API w) as [msg|assets].
  { do 2 eexists. split; [reflexivity|]. discriminate. }
  do 2 eexists. split; [reflexivity|]. intros u Hu.
  set (pat := _guess_asset_name_pattern arch) in *.
  assert (H : exists before a after,
            assets = before ++ a :: after /\
            List.find (asset_matches env pat) assets = Some a /\
            forall a', In a' before -> asset_matches env pat a' = false).
  { clear -Hu. induction assets as [|x l IH]; [discriminate Hu|].
    cbn [List.find] in *. destruct (asset_matches env pat x) eqn:Hx.
    - exists [], x, l. repeat split; auto. intros a' [].
    - destruct (IH Hu) as (before & a & after & -> & Hf & Hb).
      exists (x :: before), a, after. repeat split; auto.
      intros a' [<-|Ha']; auto. }
  destruct H as (before & a & after & -> & Hf & Hb).
  rewrite Hf in Hu. apply find_some in Hf as (_ & Hm).
  unfold asset_matches in Hm. rewrite Hu in Hm.
  apply andb_true_iff in Hm as (Hname & Hurl).
  apply andb_true_iff in Hurl as (Ht & Hexe).
  split; [apply truthy_nonempty, Ht|]. split; [exact Hexe|].
  exists before, a, after. auto.
Qed.

(** X6. [_download_to_temp] never raises.  When it returns a path, that path
    did not exist before and now holds the body of the response, and
    nothing else changed.  When it returns nothing, either no file
    changed, or the copy failed after [mkstemp] had created the file: the
    temporary file is then left behind, and its name is not returned to
    the caller. *)
Theorem download_to_temp_outcomes (env : Env) (url : string) (w : World) :
  exists r w',
    _download_to_temp env url w = (Ret r, w') /\
    match r with
    | Some p =>
        exists body,
          urlopen env url w = inr body /\
          fs w !! p = None /\
          fs w' = <[p := File body]> (fs w) /\
          log w' = log w ++ [EvUrlopen url true; EvMkstemp (Some p); EvCopy p true]
    | None =>
        fs w' = fs w \/
        exists p,
          fs w !! p = None /\
          (exists content, fs w' = <[p := File content]> (fs w)) /\
          log w' = log w ++ [EvUrlopen url true; EvMkstemp (Some p); EvCopy p false]
    end.
Proof.
  unfold _download_to_temp, fetch, mkstemp, copy_to. unfold_monad.
  split_cases; do 2 eexists; (split; [reflexivity|]); cbn [fs log]; auto.
  - right. eexists. split; [eassumption|]. split; [eexists; reflexivity|].
    rewrite <- !app_assoc. reflexivity.
  - eexists. split; [reflexivity|]. split; [assumption|].
    split; [apply insert_insert_eq|]. rewrite <- !app_assoc. reflexivity.
Qed.

Section InstallFootprint.
Variable env : Env.

Lemma download_to_temp_trace url w :
  let p := mkstemp_path env "gs-setup-" ".exe"
             (mkWorld (fs w) (log w ++ [EvUrlopen url true])) in
  exists r w' evs,
    _download_to_temp env url w = (Ret r, w') /\
    log w' = log w ++ evs /\
    Forall (fun e => install_call url p e = true) evs /\
    (r = None \/ r = Some p).
Proof.
  intros p. unfold _download_to_temp, fetch, mkstemp, copy_to. unfold_monad.
  fold p. cbn [fs log].
  split_cases; do 3 eexists; (split; [reflexivity|]); cbn [fs log];
    rewrite <- ?app_assoc; cbn [app];
    (split; [reflexivity|]); (split; [repeat constructor; event_ok | auto]).
Qed.

End InstallFootprint.

(** X8. An installation keeps to one download: besides looking the tool up,
    [ensure_ghostscript_installed] opens no URL but the release API and
    the one download URL it got from there, creates and writes one
    temporary file, starts no program but that file (with [/S], then
    without), and deletes nothing but that file. *)
Theorem ensure_ghostscript_installed_footprint (env : Env) (auto_install : bool)
    (w : World) :
  exists url p evs,
    log (snd (ensure_ghostscript_installed env auto_install w)) = log w ++ evs /\
    Forall (fun e => install_call url p e = true) evs.
Proof.
  unfold ensure_ghostscript_installed.
  rewrite (bind_ret_eq _ _ _ _ _ (get_ghostscript_path_eq env w)).
  set (w0 := mkWorld (fs w) (log w ++ [EvLocate])).
  assert (Hdone : forall (r : option string), exists url p evs,
            log (snd (mret (M := M) r w0)) = log w ++ evs /\
            Forall (fun e => install_call url p e = true) evs).
  { intros r. exists EmptyString, EmptyString, [EvLocate]. split; [reflexivity | repeat constructor]. }
  destruct (Py.truthy_opt (locate env w0)); [apply Hdone|].
  destruct (negb auto_install); [apply Hdone|]. clear Hdone.
  destruct (fetch_latest_download_url_returns env (_arch_tag env) w0) as (r & answered & Hf).
  rewrite (bind_ret_eq _ _ _ _ _ Hf).
  set (w1 := mkWorld (fs w0) (log w0 ++ [EvUrlopen GITHUB_RELEASE_API answered])) in *.
  assert (Hstop : forall (r : option string) url p, exists evs,
            log (snd (mret (M := M) r w1)) = log w ++ evs /\
            Forall (fun e => install_call url p e = true) evs).
  { intros r0 url p. exists [EvLocate; EvUrlopen GITHUB_RELEASE_API answered].
    split; [cbn; rewrite <- app_assoc; reflexivity | repeat constructor]. }
  destruct r as [url|]; [|exists EmptyString, EmptyString; apply Hstop].
  destruct (negb (Py.truthy url)); [exists EmptyString, EmptyString; apply Hstop|].
  exists url.
  destruct (download_to_temp_trace env url w1) as (r & w2 & evs2 & Hd & Hl2 & HF2 & Hr).
  set (p := mkstemp_path env "gs-setup-" ".exe"
              (mkWorld (fs w1) (log w1 ++ [EvUrlopen url true]))) in *.
  exists p. rewrite (bind_ret_eq _ _ _ _ _ Hd).
  assert (Hpre : log w2 = log w ++ EvLocate :: EvUrlopen GITHUB_RELEASE_API answered :: evs2).
  { rewrite Hl2. cbn. rewrite <- !app_assoc. reflexivity. }
  assert (HFpre : Forall (fun e => install_call url p e = true)
                    (EvLocate :: EvUrlopen GITHUB_RELEASE_API answered :: evs2)).
  { repeat constructor; assumption. }
  assert (Hrest : forall (k : M (option string)),
            only (install_call url p) k ->
            exists evs, log (snd (k w2)) = log w ++ evs /\
                        Forall (fun e => install_call url p e = true) evs).
  { intros k Hk. destruct (Hk w2) as (evs3 & Hl3 & HF3).
    eexists. rewrite Hl3, Hpre, <- app_assoc. split; [reflexivity|].
    apply Forall_app. auto. }
  destruct Hr as [-> | ->]; [apply Hrest, only_ret|].
  destruct (negb (Py.truthy p)); [apply Hrest, only_ret|].
  apply Hrest.
  unfold _run_installer, get_ghostscript_path. only_tac.
Qed.

(* ===================================================================== *)
(** * [pdf_compressor.py]: the Precise backend, case by case *)
(* ===================================================================== *)

Section PreciseCases.
Variable env : Env.

Lemma lookup_eq gs w :
  (match gs with
   | Some g => mret (Some g)
   | None => get_ghostscript_path env
   end) (mkWorld (fs w) (log w ++ [EvEnter ghostscript]))
  = (Ret (resolved_tool env gs w), lookup_world gs w).
Proof.
  destruct gs as [g|].
  - unfold lookup_world. reflexivity.
  - rewrite get_ghostscript_path_eq. unfold resolved_tool, lookup_world.
    cbn [fs log]. rewrite <- app_assoc. reflexivity.
Qed.

(** the backend up to the examination of the tool path *)
Lemma precise_lookup_eq i o q gs timeout w :
  compress_with_ghostscript env i o q gs timeout w =
    match resolved_tool env gs w with
    | None => (Ret (gs_failure i o "Ghostscript not found"), lookup_world gs w)
    | Some g =>
        if negb (Py.truthy g) || negb (path_exists (fs w) g)
        then (Ret (gs_failure i o "Ghostscript not found"), lookup_world gs w)
        else gs_attempt env g i o q timeout (lookup_world gs w)
    end.
Proof.
  unfold compress_with_ghostscript. rewrite bind_emit.
  rewrite (bind_ret_eq _ _ _ _ _ (lookup_eq gs w)), bind_get_world.
  destruct (resolved_tool env gs w) as [g|]; [|reflexivity].
  change (fs (lookup_world gs w)) with (fs w).
  destruct (negb (Py.truthy g) || negb (path_exists (fs w) g)); reflexivity.
Qed.

(** once the tool is ready, the backend is the [try] statement run in the
    world in which the temporary file was created *)
Lemma precise_ready_eq i o q gs g timeout w :
  tool_ready env gs g w ->
  compress_with_ghostscript env i o q gs timeout w =
    try_finally
      (try_except
         (run_ghostscript env (gs_cmd g q (tmp_of env gs w) i) timeout
            (tmp_of env gs w) i o)
         (gs_except i o))
      (remove_temp env (tmp_of env gs w))
      (tool_world env gs w).
Proof.
  intros (Hres & Ht & Hex & Hfault & Hfree).
  rewrite precise_lookup_eq, Hres, Ht, Hex. cbn [negb orb].
  unfold gs_attempt.
  assert (Hmk : mkstemp env "tmp" ".pdf" (lookup_world gs w)
                = (Ret (tmp_of env gs w), tool_world env gs w)).
  { unfold mkstemp. rewrite Hfault. fold (tmp_of env gs w).
    change (fs (lookup_world gs w)) with (fs w). rewrite Hfree. reflexivity. }
  rewrite (bind_ret_eq _ _ _ _ _ Hmk). reflexivity.
Qed.

(** the [finally] block keeps the outcome of the [try] statement *)
Lemma finally_remove_temp {A} (m : M A) tmp w (r : Outcome A) w2 :
  m w = (r, w2) ->
  exists w3,
    try_finally m (remove_temp env tmp) w = (r, w3) /\
    ((path_exists (fs w2) tmp = false /\ w3 = w2) \/
     (fs w3 = delete tmp (fs w2) /\ log w3 = log w2 ++ [EvRemove tmp true]) \/
     (path_exists (fs w2) tmp = true /\ fs w3 = fs w2 /\
      log w3 = log w2 ++ [EvRemove tmp false])).
Proof.
  intros Hm. unfold try_finally. rewrite Hm.
  destruct (remove_temp_spec env tmp w2) as (w3 & -> & Hc).
  exists w3. split; [reflexivity | exact Hc].
Qed.



End PreciseCases.

(** X9. Without a usable tool the Precise backend gives up at once: when the
    tool path (given, or else looked up) is absent, empty or names
    nothing that exists, the result is the failure "Ghostscript not
    found"; no file is touched, no temporary file is created, no process
    is started and no installation is attempted. *)
Theorem precise_tool_missing (env : Env) (input_path output_path_ : string)
    (quality : Quality) (gs_path : option string) (timeout : option Z) (w : World) :
  match resolved_tool env gs_path w with
  | Some g => Py.truthy g && path_exists (fs w) g = false
  | None => True
  end ->
  compress_with_ghostscript env input_path output_path_ quality gs_path timeout w
  = (Ret (mkCompressResult false ghostscript input_path output_path_
            "Ghostscript not found"),
     lookup_world gs_path w).
Proof.
  intros H. rewrite precise_lookup_eq.
  destruct (resolved_tool env gs_path w) as [g|]; [|reflexivity].
  apply andb_false_iff in H.
  destruct (Py.truthy g); [|reflexivity].
  destruct H as [H|H]; [discriminate H|]. rewrite H. reflexivity.
Qed.

(** nothing is installed on [quiet_host]: the lookup finds nothing *)
Lemma precise_tool_missing_witness :
  resolved_tool quiet_host None world0 = None /\
  compress_with_ghostscript quiet_host "in.pdf" "out.pdf" balanced None None world0
  = (Ret (mkCompressResult false ghostscript "in.pdf" "out.pdf" "Ghostscript not found"),
     mkWorld disk0 [EvEnter ghostscript; EvLocate]).
Proof.
  split; [reflexivity|].
  exact (precise_tool_missing quiet_host "in.pdf" "out.pdf" balanced None None world0 I).
Defined.

(** X10. When the tool run fails (the process cannot be started, times out,
    exits with a non-zero status, or leaves no file at the temporary
    path), the Precise backend returns a failure whose message tells the
    cases apart: "Ghostscript timed out", "Ghostscript error: ..." with
    the text of the exception, or else what the tool printed (standard
    error before standard output, blanks stripped), or else "Exited with
    code N".  After the run it only tries to delete the temporary file:
    every other path, the destination included, is as the tool left it. *)
Theorem precise_tool_failure (env : Env) (input_path output_path_ : string)
    (quality : Quality) (gs_path : option string) (timeout : option Z)
    (w : World) (g : string) (r : RunOutcome) (f : gmap string Node) :
  let tmp := tmp_of env gs_path w in
  let cmd := gs_cmd g quality tmp input_path in
  tool_ready env gs_path g w ->
  subprocess_run env cmd timeout (tool_world env gs_path w) = (r, f) ->
  tool_failed r f tmp = true ->
  exists res w' rc cleanup,
    compress_with_ghostscript env input_path output_path_ quality gs_path timeout w
      = (Ret res, w') /\
    res = mkCompressResult false ghostscript input_path output_path_ (message res) /\
    message res =
      match r with
      | RunRaised TimeoutExpired => "Ghostscript timed out"
      | RunRaised (Error msg) => "Ghostscript error: " +:+ msg
      | Completed rc stdout stderr =>
          if Py.truthy (Py.strip stderr) then Py.strip stderr
          else if Py.truthy (Py.strip stdout) then Py.strip stdout
          else "Exited with code " +:+ pretty rc
      end /\
    (forall p, p <> tmp -> fs w' !! p = f !! p) /\
    log w' = log (tool_world env gs_path w) ++ EvRun cmd rc :: cleanup /\
    (cleanup = [] \/ exists done, cleanup = [EvRemove tmp done]).
Proof.
  intros tmp cmd Hready Hrun Hfail.
  rewrite (precise_ready_eq env _ _ _ _ g _ _ Hready). fold tmp cmd.
  set (tw := tool_world env gs_path w) in *.
  assert (Hbody : exists res rc,
            try_except (run_ghostscript env cmd timeout tmp input_path output_path_)
              (gs_except input_path output_path_) tw
            = (Ret res, mkWorld f (log tw ++ [EvRun cmd rc])) /\
            res = mkCompressResult false ghostscript input_path output_path_ (message res) /\
            message res =
              match r with
              | RunRaised TimeoutExpired => "Ghostscript timed out"
              | RunRaised (Error msg) => "Ghostscript error: " +:+ msg
              | Completed rc stdout stderr =>
                  if Py.truthy (Py.strip stderr) then Py.strip stderr
                  else if Py.truthy (Py.strip stdout) then Py.strip stdout
                  else "Exited with code " +:+ pretty rc
              end).
  { unfold try_except, run_ghostscript, run.
    unfold mbind at 1, M_bind at 1. rewrite Hrun.
    destruct r as [rc stdout stderr|e].
    - cbn [tool_failed] in Hfail. apply negb_true_iff in Hfail.
      rewrite bind_get_world. cbn [fs]. rewrite Hfail.
      do 2 eexists. split; [reflexivity|]. split; reflexivity.
    - destruct e; do 2 eexists; (split; [reflexivity|]); split; reflexivity. }
  destruct Hbody as (res & rc & Hbody & Hres & Hmsg).
  destruct (finally_remove_temp env _ tmp _ _ _ Hbody) as (w' & E & Hc).
  exists res, w', rc. cbn [fs log] in Hc.
  destruct Hc as [(_ & ->) | [(Hfs & Hl3) | (_ & Hfs & Hl3)]].
  - exists []. cbn [fs log]. auto 10.
  - exists [EvRemove tmp true]. rewrite Hl3, Hfs, <- app_assoc.
    repeat split; eauto. intros p Hp. apply lookup_delete_ne. congruence.
  - exists [EvRemove tmp false]. rewrite Hl3, Hfs, <- app_assoc.
    repeat split; eauto.
Qed.

(** a tool that exits with status 3 and prints only blanks, a no-break
    space among them *)
Lemma precise_tool_failure_witness :
  exists res w',
    compress_with_ghostscript silent_failure_host "in.pdf" "out.pdf" balanced
      (Some "/usr/bin/gs") None world0 = (Ret res, w') /\
    ok res = false /\
    message res = "Exited with code 3" /\
    fs w' !! "out.pdf" = None.
Proof.
  destruct (precise_tool_failure silent_failure_host "in.pdf" "out.pdf" balanced
              (Some "/usr/bin/gs") None world0 "/usr/bin/gs" (Completed 3 EmptyString blanks)
              (fs (tool_world silent_failure_host (Some "/usr/bin/gs") world0)))
    as (res & w' & rc & cleanup & E & Hres & Hmsg & Hfs & _).
  - vm_compute. auto.
  - reflexivity.
  - reflexivity.
  - exists res, w'. split; [exact E|]. split; [rewrite Hres; reflexivity|].
    split; [exact Hmsg|]. rewrite Hfs; [reflexivity|].
    intros H. vm_compute in H. discriminate H.
Defined.



(** a destination two folders deep: both folders are created *)
Example precise_creates_missing_folders :
  let w' := snd (compress_with_ghostscript working_tool_host "in.pdf" nested_output
                   balanced (Some "/usr/bin/gs") None world0) in
  fs w' !! "new" = Some Dir /\
  fs w' !! "new/sub" = Some Dir /\
  fs w' !! nested_output = Some (File "%PDF-1.4 compressed").
Proof. vm_compute. auto. Qed.

(* ===================================================================== *)
(** * [pdf_compressor.py]: what a result says, and what a backend calls *)
(* ===================================================================== *)

Section Fields.
Variable env : Env.

Lemma precise_names_job i o q gs timeout :
  returns (names_job ghostscript i o) (compress_with_ghostscript env i o q gs timeout).
Proof.
  assert (Hf : forall msg, names_job ghostscript i o (gs_failure i o msg))
    by (intros; repeat split).
  unfold compress_with_ghostscript.
  apply (returns_bind (fun _ => True)); [apply returns_any | intros _ _].
  apply (returns_bind (fun _ => True)); [apply returns_any | intros g _].
  apply (returns_bind (fun _ => True)); [apply returns_any | intros w _].
  destruct g as [g|]; [|apply returns_ret, Hf].
  destruct (_ || _); [apply returns_ret, Hf|].
  unfold gs_attempt.
  apply (returns_bind (fun _ => True)); [apply returns_any | intros tmp _].
  apply returns_try_finally, returns_try_except.
  - unfold run_ghostscript.
    apply (returns_bind (fun _ => True)); [apply returns_any | intros [[rc out] err] _].
    apply (returns_bind (fun _ => True)); [apply returns_any | intros w1 _].
    destruct (_ && _); [|apply returns_ret, Hf].
    apply (returns_bind (fun _ => True)); [apply returns_any | intros _ _].
    apply (returns_bind
             (fun r => match r with
                       | Some failure => names_job ghostscript i o failure
                       | None => True
                       end)).
    + unfold move_into_place. apply returns_try_except.
      * apply (returns_bind (fun _ => True)); [apply returns_any | intros w2 _].
        apply (returns_bind (fun _ => True)); [apply returns_any | intros _ _].
        apply (returns_bind (fun _ => True)); [apply returns_any | intros _ _].
        apply returns_ret. exact I.
      * intros e. apply returns_ret, Hf.
    + intros [failure|] H; apply returns_ret; [exact H | repeat split].
  - intros [|msg]; apply returns_ret, Hf.
Qed.

Lemma basic_names_job i o q :
  returns (names_job basic i o) (compress_with_pikepdf env i o q).
Proof.
  intros w res w'.
  unfold compress_with_pikepdf, import_pikepdf, pikepdf_open_, pikepdf_save_.
  unfold_monad. split_cases; intros E; simplify_eq/=; repeat split.
Qed.

End Fields.


(** X15. A result names its job and the backend that produced it: for each of
    the three operations, the result returned carries the input and
    output paths it was called with, and its [engine] field is the
    backend entered last, so it is never "auto".  In auto mode a result of
    the Precise backend is always a success, since a failure of it is
    replaced by the result of the Basic backend. *)
Theorem result_identifies_job (env : Env) (op : Operation)
    (input_path_ output_path_ : string) (quality : Quality)
    (w : World) (res : CompressResult) (w' : World) (evs : list Event) :
  perform env op input_path_ output_path_ quality w = (Ret res, w') ->
  log w' = log w ++ evs ->
  input_path res = input_path_ /\
  output_path res = output_path_ /\
  last (entered evs) = Some (engine res) /\
  engine res <> auto /\
  (op = OpAuto -> engine res = ghostscript -> ok res = true).
Proof.
  set (i := input_path_). set (o := output_path_).
  assert (Hprecise : forall gs timeout w0 r w1 pre,
            compress_with_ghostscript env i o quality gs timeout w0 = (Ret r, w1) ->
            log w0 = log w ++ pre ->
            names_job ghostscript i o r /\
            exists evs1, log w1 = log w ++ evs1 /\
                         last (entered evs1) = Some ghostscript).
  { intros gs timeout w0 r w1 pre E Hl.
    split; [exact (precise_names_job env i o quality gs timeout w0 r w1 E)|].
    destruct (precise_log env i o quality gs timeout w0) as (evs1 & Hl1 & Hs1).
    rewrite E in Hl1. cbn [snd] in Hl1.
    exists (pre ++ EvEnter ghostscript :: evs1).
    rewrite Hl1, Hl, <- app_assoc. split; [reflexivity|].
    rewrite entered_app. cbn [entered]. rewrite (entered_sys _ Hs1).
    apply last_snoc. }
  assert (Hbasic : forall w0 r w1 pre,
            compress_with_pikepdf env i o quality w0 = (Ret r, w1) ->
            log w0 = log w ++ pre ->
            names_job basic i o r /\
            exists evs1, log w1 = log w ++ evs1 /\
                         last (entered evs1) = Some basic).
  { intros w0 r w1 pre E Hl.
    split; [exact (basic_names_job env i o quality w0 r w1 E)|].
    destruct (basic_log env i o quality w0) as (evs1 & Hl1 & Hs1).
    rewrite E in Hl1. cbn [snd] in Hl1.
    exists (pre ++ EvEnter basic :: evs1).
    rewrite Hl1, Hl, <- app_assoc. split; [reflexivity|].
    rewrite entered_app. cbn [entered]. rewrite (entered_sys _ Hs1).
    apply last_snoc. }
  assert (Hfinish : forall e r w1,
            (names_job e i o r /\
             exists evs1, log w1 = log w ++ evs1 /\ last (entered evs1) = Some e) ->
            e <> auto ->
            log w1 = log w ++ evs ->
            input_path r = i /\ output_path r = o /\
            last (entered evs) = Some (engine r) /\ engine r <> auto).
  { intros e r w1 ((He & Hi & Ho) & evs1 & Hl1 & Hlast) Hne Hl.
    rewrite Hl1 in Hl. apply app_inv_head in Hl. subst evs1.
    rewrite He. auto. }
  intros E Hlog. destruct op as [gs timeout| |]; cbn [perform] in E.
  - destruct (Hfinish ghostscript res w'
                (Hprecise gs timeout w res w' [] E (eq_sym (app_nil_r _))))
      as (? & ? & ? & ?); [discriminate | exact Hlog |].
    repeat split; auto. discriminate.
  - destruct (Hfinish basic res w' (Hbasic w res w' [] E (eq_sym (app_nil_r _))))
      as (? & ? & ? & ?); [discriminate | exact Hlog |].
    repeat split; auto. discriminate.
  - unfold auto_compress in E.
    rewrite (bind_ret_eq _ _ _ _ _ (get_ghostscript_path_eq env w)) in E.
    set (w1 := mkWorld (fs w) (log w ++ [EvLocate])) in *.
    destruct (Py.truthy_opt (locate env w1)).
    + destruct (compress_with_ghostscript env i o quality (locate env w1) None w1)
        as [[r|ex] w2] eqn:Hp.
      2:{ rewrite (bind_raise_eq _ _ _ _ _ Hp) in E. discriminate E. }
      rewrite (bind_ret_eq _ _ _ _ _ Hp) in E.
      destruct (Hprecise _ _ _ _ _ [EvLocate] Hp eq_refl) as (Hn & evs1 & Hl1 & Hlast).
      destruct (ok r) eqn:Hok.
      * cbv beta iota delta [mret M_ret] in E. injection E as <- <-.
        destruct (Hfinish ghostscript r w2) as (? & ? & ? & ?);
          [eauto | discriminate | exact Hlog |].
        repeat split; auto.
      * destruct (Hfinish basic res w' (Hbasic w2 res w' evs1 E Hl1))
          as (? & ? & Hlast' & ?); [discriminate | exact Hlog |].
        repeat split; auto. intros _ He.
        destruct (basic_names_job env i o quality w2 res w' E) as (Hb & _).
        congruence.
    + destruct (Hfinish basic res w' (Hbasic w1 res w' [EvLocate] E eq_refl))
        as (? & ? & Hlast' & ?); [discriminate | exact Hlog |].
      repeat split; auto. intros _ He.
      destruct (basic_names_job env i o quality w1 res w' E) as (Hb & _).
      congruence.
Qed.

(** auto mode on a host without the tool: the result is that of the
    Basic backend *)
Lemma result_identifies_job_witness :
  exists res w',
    perform locked_files_host OpAuto "in.pdf" "out.pdf" balanced world0 = (Ret res, w') /\
    engine res = basic /\
    last (entered (log w')) = Some (engine res).
Proof.
  destruct (perform locked_files_host OpAuto "in.pdf" "out.pdf" balanced world0)
    as [[res|e] w'] eqn:E.
  2:{ vm_compute in E. discriminate E. }
  pose proof E as E'. vm_compute in E'. injection E' as Hres Hw'.
  destruct (result_identifies_job locked_files_host OpAuto "in.pdf" "out.pdf" balanced
              world0 res w' (log w') E eq_refl) as (_ & _ & Hlast & _).
  exists res, w'. split; [reflexivity|].
  split; [rewrite <- Hres; reflexivity | exact Hlast].
Defined.

(** X13. The Precise backend keeps to its job: besides looking the tool up and
    creating one temporary file, it starts no process but the tool with
    the command line of [gs_cmd] writing to that temporary file, calls
    [os.makedirs] on no path but the folder of the destination, and
    deletes or moves nothing but the temporary file and the destination.  It never uses
    the PDF library or the network and prints nothing. *)
Theorem precise_footprint (env : Env) (input_path output_path_ : string)
    (quality : Quality) (gs_path : option string) (timeout : option Z) (w : World) :
  exists g tmp evs,
    log (snd (compress_with_ghostscript env input_path output_path_ quality
                gs_path timeout w)) = log w ++ evs /\
    Forall (fun e => precise_call g input_path output_path_ quality tmp e = true) evs.
Proof.
  rewrite precise_lookup_eq.
  assert (Hl : forall g tmp, exists pre,
            log (lookup_world gs_path w) = log w ++ pre /\
            Forall (fun e => precise_call g input_path output_path_ quality tmp e = true) pre).
  { intros g tmp. unfold lookup_world. eexists. split; [reflexivity|].
    destruct gs_path; repeat constructor. }
  assert (Hnone : exists g tmp evs,
            log (lookup_world gs_path w) = log w ++ evs /\
            Forall (fun e => precise_call g input_path output_path_ quality tmp e = true) evs).
  { destruct (Hl EmptyString EmptyString) as (pre & ? & ?). exists EmptyString, EmptyString, pre. auto. }
  destruct (resolved_tool env gs_path w) as [g|]; [|exact Hnone].
  destruct (negb (Py.truthy g) || negb (path_exists (fs w) g)); [exact Hnone|].
  clear Hnone. set (lw := lookup_world gs_path w) in *.
  set (tmp := mkstemp_path env "tmp" ".pdf" lw).
  destruct (Hl g tmp) as (pre & Hpre & HFpre).
  exists g, tmp.
  set (P := precise_call g input_path output_path_ quality tmp).
  assert (Hrest : only P
            (try_finally
               (try_except
                  (run_ghostscript env (gs_cmd g quality tmp input_path) timeout tmp
                     input_path output_path_)
                  (gs_except input_path output_path_))
               (remove_temp env tmp))).
  { unfold run_ghostscript, move_into_place, remove_temp, gs_except, P.
    only_tac. }
  unfold gs_attempt.
  destruct (mkstemp env "tmp" ".pdf" lw) as [[p|e] w1] eqn:Hmk.
  - rewrite (bind_ret_eq _ _ _ _ _ Hmk).
    assert (p = tmp /\ log w1 = log lw ++ [EvMkstemp (Some tmp)]) as (-> & Hl1).
    { revert Hmk. unfold mkstemp. split_cases; intros; simplify_eq/=; auto. }
    destruct (Hrest w1) as (evs & Hlog & HF).
    exists (pre ++ EvMkstemp (Some tmp) :: evs).
    rewrite Hlog, Hl1, Hpre, <- !app_assoc. split; [reflexivity|].
    apply Forall_app. split; [exact HFpre|]. constructor; [|exact HF].
    unfold P. cbn. apply String.eqb_refl.
  - rewrite (bind_raise_eq _ _ _ _ _ Hmk).
    assert (log w1 = log lw ++ [EvMkstemp None]) as Hl1.
    { revert Hmk. unfold mkstemp. split_cases; intros; simplify_eq/=; auto. }
    exists (pre ++ [EvMkstemp None]). cbn [snd].
    rewrite Hl1, Hpre, <- !app_assoc. split; [reflexivity|].
    apply Forall_app. split; [exact HFpre|]. repeat constructor.
Qed.

(** X14. The Basic backend keeps to its job: it only imports the PDF library,
    opens the input and saves to the output path with stream compression
    and linearization switched on.  It starts no process, creates no
    temporary file, deletes, moves and downloads nothing; and no file
    changes unless the library's save was called. *)
Theorem basic_footprint (env : Env) (input_path output_path_ : string)
    (quality : Quality) (w : World) :
  exists evs,
    log (snd (compress_with_pikepdf env input_path output_path_ quality w))
      = log w ++ evs /\
    Forall (fun e => basic_call input_path output_path_ e = true) evs /\
    ((forall done, ~ In (EvPikepdfSave output_path_ true true done) evs) ->
     fs (snd (compress_with_pikepdf env input_path output_path_ quality w)) = fs w).
Proof.
  unfold compress_with_pikepdf, import_pikepdf, pikepdf_open_, pikepdf_save_.
  unfold_monad. cbn [fs log].
  split_cases; cbn [fs log snd]; rewrite <- ?app_assoc; cbn [app];
    eexists; (split; [reflexivity|]);
    (split; [repeat constructor; event_ok|]);
    try reflexivity; intros H; exfalso; eapply H; cbn [In]; eauto 10.
Qed.

(** X16. Every failure says why: for each of the three operations, a result
    returned with [ok=false] carries a non-empty message. *)
Theorem failed_result_has_message (env : Env) (op : Operation)
    (input_path_ output_path_ : string) (quality : Quality)
    (w : World) (res : CompressResult) (w' : World) :
  perform env op input_path_ output_path_ quality w = (Ret res, w') ->
  ok res = false ->
  message res <> EmptyString.
Proof.
  intros E Hok.
  exact (failures_are_reported env op input_path_ output_path_ quality w res w' E Hok).
Qed.

(** the failure of the tool on [locked_files_host] *)
Lemma failed_result_has_message_witness :
  exists res w',
    precise_job locked_files_host = (Ret res, w') /\
    ok res = false /\
    message res <> EmptyString.
Proof.
  destruct (precise_job locked_files_host) as [[res|e] w'] eqn:E.
  2:{ vm_compute in E. discriminate E. }
  assert (Hok : ok res = false).
  { pose proof E as E'. vm_compute in E'. injection E' as <- _. reflexivity. }
  exists res, w'. split; [reflexivity|]. split; [exact Hok|].
  exact (failed_result_has_message locked_files_host (OpPrecise (Some "/usr/bin/gs") None)
           "in.pdf" "out.pdf" balanced world0 res w' E Hok).
Defined.

(* ===================================================================== *)
(** * [pdf_compressor.py]: the resolver never proposes the source *)
(* ===================================================================== *)

Section ResolverFacts.
Import Py PyFacts OsPath OsPathFacts OsPathJoin.

Lemma endswith_sep_split d : endswith "/" d = true -> exists x, d = x +:+ "/".
Proof.
  unfold endswith. intros H. apply andb_true_iff in H as (_ & H).
  apply String.eqb_eq in H.
  exists (take (String.length d - String.length "/") d).
  pose proof (take_drop (String.length d - String.length "/") d) as Htd.
  rewrite H in Htd. symmetry. exact Htd.
Qed.

Lemma endswith_app s t : endswith t (s +:+ t) = true.
Proof.
  unfold endswith. rewrite str_length_app.
  replace (String.length s + String.length t - String.length t)%nat
    with (String.length s) by lia.
  rewrite drop_app_length, String.eqb_refl.
  rewrite andb_true_r. apply Nat.leb_le. lia.
Qed.

Lemma basename_sep_name x b : ~ has_char sep b -> basename (x +:+ String sep b) = b.
Proof.
  intros Hb. unfold basename. rewrite (rfind_last sep x b Hb).
  unfold slice_from, len.
  replace (Z.to_nat (Z.of_nat (String.length x) + 1))
    with (String.length (x +:+ String sep EmptyString)) by (rewrite str_length_app; simpl; lia).
  replace (x +:+ String sep b) with ((x +:+ String sep EmptyString) +:+ b)
    by (rewrite str_app_assoc; reflexivity).
  apply drop_app_length.
Qed.

Lemma basename_name b : ~ has_char sep b -> basename b = b.
Proof.
  intros Hb. unfold basename. rewrite (rfind_absent sep b Hb). reflexivity.
Qed.

(** the base name of [os.path.join(d, b)] is [b] *)
Lemma basename_join_name d b : ~ has_char sep b -> basename (join2 d b) = b.
Proof.
  intros Hb. rewrite (join2_name d b Hb).
  destruct (truthy d) eqn:Ht; cbn [negb orb].
  - destruct (endswith "/" d) eqn:He.
    + apply endswith_sep_split in He as (x & ->).
      rewrite str_app_assoc. apply basename_sep_name, Hb.
    + rewrite str_app_assoc. apply basename_sep_name, Hb.
  - unfold truthy in Ht. apply negb_false_iff, String.eqb_eq in Ht. subst d.
    apply basename_name, Hb.
Qed.

(** the path returned by [default_output_path_for] is the proposed name
    with an optional counter, in the target directory *)
Lemma default_output_path_for_shape (f : gmap string Node) src output_dir :
  exists suffix,
    ~ has_char sep suffix /\
    default_output_path_for f src output_dir =
      join (target_dir_for src output_dir)
        [stem_of src +:+ "-compressed" +:+ suffix +:+ ".pdf"].
Proof.
  set (d := target_dir_for src output_dir).
  assert (Hres : default_output_path_for f src output_dir =
                 ensure_unique_output_path f (join d [stem_of src +:+ "-compressed.pdf"])).
  { unfold default_output_path_for, stem_of, d.
    destruct (splitext (basename src)) as [s e]. reflexivity. }
  rewrite Hres. unfold ensure_unique_output_path, ensure_unique_output_path_fuel.
  destruct (path_exists f (join d [stem_of src +:+ "-compressed.pdf"])); cbn [negb].
  - rewrite splitext_base_candidate.
    set (root := _ +:+ stem_of src +:+ "-compressed").
    destruct (unique_loop_total (path_exists f) root ".pdf"
                (map fst (map_to_list f)) (S (size f)))
      as (k & _ & Hloop & _).
    + intros k. apply path_exists_listed.
    + rewrite listed_length. lia.
    + rewrite Hloop. cbn [default from_option id].
      exists (" (" +:+ str_of_nat k +:+ ")"). split; [apply counting_suffix_no_sep|].
      apply numbered_candidate.
  - exists EmptyString. split; [simpl; tauto | reflexivity].
Qed.

End ResolverFacts.

(** the default path is not the source and ends in [.pdf] *)
Lemma default_output_path_for_spares_source_facts
    (f : gmap string Node) (src_path : string) (output_dir : option string) :
  default_output_path_for f src_path output_dir <> src_path /\
  Py.endswith ".pdf" (default_output_path_for f src_path output_dir) = true.
Proof.
  destruct (default_output_path_for_shape f src_path output_dir) as (suffix & Hs & Hres).
  rewrite Hres, OsPathJoin.join_single.
  pose proof (compressed_name_no_sep src_path suffix Hs) as Hname.
  pose proof (basename_join_name (target_dir_for src_path output_dir) _ Hname) as Hbase.
  split.
  - intros Heq. rewrite Heq in Hbase.
    assert (Hstem : stem_of src_path = stem_of src_path +:+ "-compressed" +:+ suffix).
    { unfold stem_of at 1. rewrite Hbase.
      pose proof (OsPathFacts.splitext_pdf EmptyString (stem_of src_path) "-"
                    ("compressed" +:+ suffix)) as Hsp.
      rewrite PyFacts.str_app_empty_l in Hsp.
      replace (stem_of src_path +:+ "-compressed" +:+ suffix +:+ ".pdf")
        with ((stem_of src_path +:+ String "-" ("compressed" +:+ suffix)) +:+ ".pdf")
        by (rewrite !PyFacts.str_app_assoc; reflexivity).
      rewrite Hsp; [reflexivity | discriminate |].
      intros Hc. apply PyFacts.has_char_app in Hc as [Hc|Hc];
        [exact (OsPathFacts.stem_no_sep _ Hc)|].
      change (String "-" ("compressed" +:+ suffix))
        with ("-compressed" +:+ suffix) in Hc.
      apply PyFacts.has_char_app in Hc as [Hc|Hc]; [|exact (Hs Hc)].
      unfold OsPath.sep in Hc. simpl in Hc.
      repeat (destruct Hc as [Hc|Hc]; [discriminate Hc|]). exact Hc. }
    apply (f_equal String.length) in Hstem.
    rewrite PyFacts.str_length_app in Hstem.
    rewrite PyFacts.str_length_app in Hstem. simpl in Hstem. lia.
  - replace (OsPath.join2 (target_dir_for src_path output_dir)
               (stem_of src_path +:+ "-compressed" +:+ suffix +:+ ".pdf"))
      with ((if negb (Py.truthy (target_dir_for src_path output_dir)) ||
                Py.endswith "/" (target_dir_for src_path output_dir)
             then target_dir_for src_path output_dir
             else target_dir_for src_path output_dir +:+ "/")
            +:+ stem_of src_path +:+ "-compressed" +:+ suffix +:+ ".pdf")
      by (symmetry; apply OsPathJoin.join2_name, Hname).
    rewrite <- !PyFacts.str_app_assoc. apply endswith_app.
Qed.

(** X17. [default_output_path_for] never proposes the source itself, whatever
    exists on disk and whatever the output directory: the base name of
    its result is the stem of the source followed by [-compressed], an
    optional counter and [.pdf].  A compression directed at the default
    path therefore never overwrites its input, and its output always
    carries the extension [.pdf]. *)
Theorem default_output_path_for_spares_source
    (f : gmap string Node) (src_path : string) (output_dir : option string) :
  default_output_path_for f src_path output_dir <> src_path /\
  Py.endswith ".pdf" (default_output_path_for f src_path output_dir) = true /\
  exists suffix,
    OsPath.basename (default_output_path_for f src_path output_dir) =
      stem_of src_path +:+ "-compressed" +:+ suffix +:+ ".pdf".
Proof.
  destruct (default_output_path_for_spares_source_facts f src_path output_dir) as (H1 & H2).
  split; [exact H1|]. split; [exact H2|].
  destruct (default_output_path_for_shape f src_path output_dir) as (suffix & Hs & Hres).
  exists suffix. rewrite Hres, OsPathJoin.join_single.
  apply basename_join_name, compressed_name_no_sep, Hs.
Qed.

(** X18. Two resolutions never collide once the first result has been
    created: after something is put at the path resolved for one source,
    the resolver returns a different path for any source, whatever the
    two sources and the output directory are. *)
Theorem default_output_path_for_successive
    (f : gmap string Node) (src1 src2 : string) (output_dir : option string)
    (written : Node) :
  let first := default_output_path_for f src1 output_dir in
  default_output_path_for (<[first := written]> f) src2 output_dir <> first.
Proof.
  intros first Heq.
  assert (Hfree : path_exists (<[first := written]> f)
                    (default_output_path_for (<[first := written]> f) src2 output_dir)
                  = false).
  { unfold default_output_path_for.
    destruct (OsPath.splitext (OsPath.basename src2)) as [s e].
    apply ensure_unique_output_path_free. }
  rewrite Heq in Hfree. unfold path_exists in Hfree.
  rewrite lookup_insert_eq in Hfree. discriminate Hfree.
Qed.

(* ===================================================================== *)
(** * [__main__.py]: the front end without [--input] *)
(* ===================================================================== *)

Section CliMore.
Variable env : Env.

(** [ensure_ghostscript_installed] starts with the lookup and makes only
    calls *)
Lemma ensure_ghostscript_installed_log b w :
  exists evs,
    log (snd (ensure_ghostscript_installed env b w)) = log w ++ EvLocate :: evs /\
    Forall (fun e => sys_event e = true) evs.
Proof.
  unfold ensure_ghostscript_installed.
  rewrite (bind_ret_eq _ _ _ _ _ (get_ghostscript_path_eq env w)).
  set (w0 := mkWorld (fs w) (log w ++ [EvLocate])).
  match goal with
  | |- context [snd (?k w0)] => assert (Hq : quiet k)
  end.
  { pose proof (quiet_download_to_temp env). pose proof (quiet_run_installer env).
    quiet_tac. }
  destruct (Hq w0) as (evs & Hl & Hs). exists evs. rewrite Hl. unfold w0. cbn [log].
  rewrite <- app_assoc. auto.
Qed.

Lemma quiet_safe_log msg : quiet (safe_log env msg).
Proof. unfold safe_log. quiet_tac. Qed.

End CliMore.

(** X19. Without [--input] (absent or empty) [_run_cli] launches the GUI and
    never raises.  It starts by looking for the tool (the first step of
    the installation attempt made before the GUI is started); it
    compresses nothing; it returns 0 when the GUI was imported and ran to
    its end, and otherwise 2 after showing a message box as its last
    action. *)
Theorem run_cli_without_input_launches_gui (env : Env) (args : Args) (w : World) :
  arg_input args = None \/ arg_input args = Some EmptyString ->
  exists code w' evs,
    _run_cli env args w = (Ret code, w') /\
    log w' = log w ++ evs /\
    head evs = Some EvLocate /\
    entered evs = [] /\
    finished evs = [] /\
    ((code = 0 /\ last evs = Some (EvGui true)) \/
     (code = 2 /\ exists title text, last evs = Some (EvMessageBox title text))).
Proof.
  intros Hin.
  assert (Hgui : _run_cli env args = launch_gui env).
  { unfold _run_cli. destruct Hin as [-> | ->]; reflexivity. }
  rewrite Hgui. clear Hgui Hin. unfold launch_gui.
  assert (Hstep : exists w1 evs1,
            try_except (_ ← ensure_ghostscript_installed env true; mret tt)
              (fun e => _ ← safe_log env ("Auto-install ghostscript failed: " +:+ exn_text e);
                        mret tt) w
            = (Ret tt, w1) /\
            log w1 = log w ++ EvLocate :: evs1 /\
            Forall (fun e => sys_event e = true) evs1).
  { destruct (ensure_ghostscript_installed_log env true w) as (evs & Hl & Hs).
    unfold try_except. rewrite bind_assoc_ret.
    destruct (ensure_ghostscript_installed env true w) as [[r|ex] w0]; cbn [snd] in Hl.
    - exists w0, evs. auto.
    - destruct (quiet_safe_log env ("Auto-install ghostscript failed: " +:+ exn_text ex) w0)
        as (evs2 & Hl2 & Hs2).
      rewrite bind_assoc_ret.
      assert (Hret : exists l, fst (safe_log env
                        ("Auto-install ghostscript failed: " +:+ exn_text ex) w0) = Ret l).
      { unfold safe_log. unfold_monad. split_cases; eauto. }
      destruct Hret as (l & Hret).
      destruct (safe_log env _ w0) as [r w1]. cbn [fst snd] in *. subst r.
      exists w1, (evs ++ evs2). rewrite Hl2, Hl, <- app_assoc.
      repeat split; auto. apply Forall_app. auto. }
  destruct Hstep as (w1 & evs1 & Hstep & Hl1 & Hs1).
  rewrite (bind_ret_eq _ _ _ _ _ Hstep), bind_get_world.
  assert (Hfin : forall code w' tail,
            log w' = log w1 ++ tail ->
            Forall (fun e => sys_event e = true) tail ->
            ((code = 0 /\ last tail = Some (EvGui true)) \/
             (code = 2 /\ exists title text, last tail = Some (EvMessageBox title text))) ->
            exists evs,
              log w' = log w ++ evs /\
              head evs = Some EvLocate /\
              entered evs = [] /\
              finished evs = [] /\
              ((code = 0 /\ last evs = Some (EvGui true)) \/
               (code = 2 /\ exists title text, last evs = Some (EvMessageBox title text)))).
  { intros code w' tail Hl Hs Hlast.
    exists (EvLocate :: evs1 ++ tail).
    rewrite Hl, Hl1, <- app_assoc. split; [reflexivity|]. split; [reflexivity|].
    assert (Hall : Forall (fun e => sys_event e = true) (EvLocate :: evs1 ++ tail)).
    { constructor; [reflexivity|]. apply Forall_app. auto. }
    split; [apply entered_sys, Hall|]. split; [apply finished_sys, Hall|].
    assert (Hl' : forall x, last tail = Some x -> last (EvLocate :: evs1 ++ tail) = Some x).
    { intros x Hx. rewrite app_comm_cons, last_app, Hx. reflexivity. }
    destruct Hlast as [(-> & H)|(-> & title & text & H)]; [left | right]; eauto 6. }
  unfold safe_log, _show_critical_message. unfold_monad. cbn [fs log].
  split_cases; cbn [fs log].
  all: match goal with
       | |- exists code w' evs, (Ret ?c, ?w2) = _ /\ _ =>
           exists c, w2;
           cut (exists evs,
                  log w2 = log w ++ evs /\
                  head evs = Some EvLocate /\
                  entered evs = [] /\
                  finished evs = [] /\
                  ((c = 0 /\ last evs = Some (EvGui true)) \/
                   (c = 2 /\ exists title text, last evs = Some (EvMessageBox title text))));
           [intros (evs & H); exists evs; split; [reflexivity | exact H] |]
       end.
  all: eapply Hfin;
         [cbn [log]; rewrite <- ?app_assoc; reflexivity
         | cbn [app]; repeat constructor | cbn [app] ].
  all: first [left; split; reflexivity | right; split; [reflexivity|]; do 2 eexists; reflexivity].
Qed.

(** the GUI starts on a host without network *)
Lemma run_cli_without_input_launches_gui_witness :
  exists w' evs,
    _run_cli quiet_host no_args world0 = (Ret 0, w') /\
    log w' = log world0 ++ evs /\
    last evs = Some (EvGui true).
Proof.
  destruct (run_cli_without_input_launches_gui quiet_host no_args world0)
    as (code & w' & evs & E & Hl & _ & _ & _ & Hcode); [left; reflexivity|].
  assert (Hc : code = 0).
  { pose proof E as E'. vm_compute in E'. injection E' as <- _. reflexivity. }
  subst code. exists w', evs. split; [exact E|]. split; [exact Hl|].
  destruct Hcode as [(_ & H)|(H & _)]; [exact H | discriminate H].
Defined.

(* ===================================================================== *)
(** * [__main__.py]: where a CLI job writes *)
(* ===================================================================== *)

Lemma destinations_app l1 l2 : destinations (l1 ++ l2) = destinations l1 ++ destinations l2.
Proof.
  induction l1 as [|e l1 IH]; [reflexivity|].
  destruct e; simpl; rewrite ?IH; reflexivity.
Qed.

Lemma destinations_unfinished evs : finished evs = [] -> destinations evs = [].
Proof.
  induction evs as [|e evs IH]; [reflexivity|].
  destruct e; simpl; auto. discriminate.
Qed.

Lemma destinations_sys evs :
  Forall (fun e => sys_event e = true) evs -> destinations evs = [].
Proof. intros H. apply destinations_unfinished, finished_sys, H. Qed.

(** a chosen backend enters the backends its engine stands for, none of
    them twice, and records no per-file result *)
Lemma compressor_enters (env : Env) (e : Engine) (i o : string) (q : Quality) (w : World) :
  exists evs,
    log (snd (choose_engine env e i o q w)) = log w ++ evs /\
    finished evs = [] /\
    match e with
    | ghostscript => entered evs = [ghostscript]
    | basic => entered evs = [basic]
    | auto =>
        entered evs = [ghostscript] \/ entered evs = [ghostscript; basic] \/
        entered evs = [basic]
    end.
Proof.
  destruct e; cbn [choose_engine].
  - unfold auto_compress.
    rewrite (bind_ret_eq _ _ _ _ _ (get_ghostscript_path_eq env w)).
    set (w1 := mkWorld (fs w) (log w ++ [EvLocate])).
    assert (Hb : forall w2 evs0, log w2 = log w ++ evs0 -> finished evs0 = [] ->
              exists evs, log (snd (compress_with_pikepdf env i o q w2)) = log w ++ evs /\
                          finished evs = [] /\ entered evs = entered evs0 ++ [basic]).
    { intros w2 evs0 Hl Hf.
      destruct (basic_log env i o q w2) as (evs2 & Hl2 & Hs2).
      exists (evs0 ++ EvEnter basic :: evs2). rewrite Hl2, Hl, <- app_assoc.
      split; [reflexivity|]. rewrite finished_app, entered_app, Hf. cbn [finished entered app].
      rewrite (finished_sys _ Hs2), (entered_sys _ Hs2). auto. }
    destruct (Py.truthy_opt (locate env w1)).
    2:{ destruct (Hb w1 [EvLocate]) as (evs & Hl & Hf & He); [reflexivity..|].
        exists evs. auto. }
    destruct (precise_log env i o q (locate env w1) None w1) as (evs1 & Hl1 & Hs1).
    assert (Hl1' : log (snd (compress_with_ghostscript env i o q (locate env w1) None w1))
                   = log w ++ EvLocate :: EvEnter ghostscript :: evs1).
    { rewrite Hl1. unfold w1. cbn [log]. rewrite <- app_assoc. reflexivity. }
    assert (Hf1 : finished (EvLocate :: EvEnter ghostscript :: evs1) = []).
    { cbn [finished]. apply finished_sys, Hs1. }
    assert (He1 : entered (EvLocate :: EvEnter ghostscript :: evs1) = [ghostscript]).
    { cbn [entered]. rewrite (entered_sys _ Hs1). reflexivity. }
    destruct (compress_with_ghostscript env i o q (locate env w1) None w1)
      as [[res|ex] w2] eqn:Hp; cbn [snd] in Hl1'.
    + rewrite (bind_ret_eq _ _ _ _ _ Hp). destruct (ok res).
      * eexists. split; [exact Hl1'|]. auto.
      * destruct (Hb w2 _ Hl1' Hf1) as (evs & Hl & Hf & He).
        exists evs. rewrite He, He1. auto.
    + rewrite (bind_raise_eq _ _ _ _ _ Hp). eexists. split; [exact Hl1'|]. auto.
  - destruct (precise_log env i o q None None w) as (evs1 & Hl1 & Hs1).
    eexists. split; [exact Hl1|]. cbn [finished entered].
    rewrite (finished_sys _ Hs1), (entered_sys _ Hs1). auto.
  - destruct (basic_log env i o q w) as (evs1 & Hl1 & Hs1).
    eexists. split; [exact Hl1|]. cbn [finished entered].
    rewrite (finished_sys _ Hs1), (entered_sys _ Hs1). auto.
Qed.

(** [compress_one] chooses its destination, calls the backend on it and
    records the result *)
Lemma compress_one_out (env : Env) (out_arg : option string)
    (engine_ : Engine) (quality : Quality) (src : string) (out_dir : option string)
    (w : World) (out : string) (res_ok : bool) (msg : string) (w' : World) :
  compress_one out_arg (choose_engine env engine_) quality src out_dir w
    = (Ret (out, res_ok, msg), w') ->
  out = (if out_arg_is_pdf out_arg then default out out_arg
         else default_output_path_for (fs w) src out_dir) /\
  exists res w1,
    choose_engine env engine_ src out quality w = (Ret res, w1) /\
    res_ok = ok res /\
    msg = message res /\
    w' = mkWorld (fs w1) (log w1 ++ [EvDone src out res_ok]).
Proof.
  intros E. unfold compress_one in E. rewrite bind_get_world in E.
  set (out_path := match out_arg with
                   | Some o => if out_arg_is_pdf out_arg then o
                               else default_output_path_for (fs w) src out_dir
                   | None => default_output_path_for (fs w) src out_dir
                   end) in *.
  destruct (choose_engine env engine_ src out_path quality w) as [[res|ex] w1] eqn:Hc.
  2:{ rewrite (bind_raise_eq _ _ _ _ _ Hc) in E. discriminate E. }
  rewrite (bind_ret_eq _ _ _ _ _ Hc), bind_emit in E.
  cbv beta iota delta [mret M_ret] in E. injection E as <- <- <- <-.
  split.
  - unfold out_path. destruct out_arg as [o|]; [|reflexivity].
    destruct (out_arg_is_pdf (Some o)); reflexivity.
  - exists res, w1. auto.
Qed.

(** X20. [compress_one] calls the chosen backend once, on its file and its
    destination, and records the result of that call: the engine's
    backend is entered (for the auto engine Precise, Basic, or Precise
    followed by Basic), none twice, and the world at return is the one
    the backend left, with the per-file result added to the history.
    The destination is [--output] itself when that names a [.pdf] path
    (in any letter case); otherwise it is the default path, at which
    nothing existed when the file was taken up, which is not the source
    and which ends in [.pdf]: unless [--output] names a PDF file, a CLI
    job overwrites neither an existing file nor its input. *)
Theorem compress_one_destination (env : Env) (out_arg : option string)
    (engine_ : Engine) (quality : Quality) (src : string) (out_dir : option string)
    (w : World) (out : string) (res_ok : bool) (msg : string) (w' : World) :
  compress_one out_arg (choose_engine env engine_) quality src out_dir w
    = (Ret (out, res_ok, msg), w') ->
  (exists res w1 evs,
     choose_engine env engine_ src out quality w = (Ret res, w1) /\
     res_ok = ok res /\
     msg = message res /\
     w' = mkWorld (fs w1) (log w1 ++ [EvDone src out res_ok]) /\
     log w1 = log w ++ evs /\
     finished evs = [] /\
     match engine_ with
     | ghostscript => entered evs = [ghostscript]
     | basic => entered evs = [basic]
     | auto =>
         entered evs = [ghostscript] \/ entered evs = [ghostscript; basic] \/
         entered evs = [basic]
     end) /\
  (if out_arg_is_pdf out_arg then out_arg = Some out
   else out = default_output_path_for (fs w) src out_dir /\
        path_exists (fs w) out = false /\
        out <> src /\
        Py.endswith ".pdf" out = true).
Proof.
  intros E. apply compress_one_out in E as (Hout & res & w1 & Hc & Hok & Hmsg & Hw').
  split.
  - destruct (compressor_enters env engine_ src out quality w) as (evs & Hl & Hf & He).
    rewrite Hc in Hl. cbn [snd] in Hl.
    exists res, w1, evs. auto 10.
  - destruct (out_arg_is_pdf out_arg) eqn:Hpdf.
    + destruct out_arg as [o|]; [|discriminate Hpdf]. cbn in Hout. congruence.
    + destruct (default_output_path_for_spares_source_facts (fs w) src out_dir) as (H1 & H2).
      rewrite Hout. split; [reflexivity|]. split; [|auto].
      unfold default_output_path_for.
      destruct (OsPath.splitext (OsPath.basename src)) as [s e].
      apply ensure_unique_output_path_free.
Qed.

(** a file of the folder [docs] compressed next to its source by the
    Basic backend *)
Lemma compress_one_destination_witness :
  exists res_ok msg w' evs,
    compress_one None (choose_engine docs_host basic) balanced "docs/x.pdf" None docs_world
      = (Ret ("docs/x-compressed.pdf", res_ok, msg), w') /\
    log w' = log docs_world ++ evs ++ [EvDone "docs/x.pdf" "docs/x-compressed.pdf" res_ok] /\
    entered evs = [basic] /\
    path_exists (fs docs_world) "docs/x-compressed.pdf" = false.
Proof.
  destruct (compress_one None (choose_engine docs_host basic) balanced "docs/x.pdf" None
              docs_world) as [[[[out res_ok] msg]|ex] w'] eqn:E.
  2:{ vm_compute in E. discriminate E. }
  assert (Hout : out = "docs/x-compressed.pdf").
  { pose proof E as E'. vm_compute in E'. injection E' as <- _ _ _. reflexivity. }
  destruct (compress_one_destination docs_host None basic balanced "docs/x.pdf" None
              docs_world out res_ok msg w' E)
    as ((res & w1 & evs & _ & _ & _ & Hw' & Hl & _ & He) & _ & Hfree & _).
  subst out. exists res_ok, msg, w', evs. split; [reflexivity|].
  split; [rewrite Hw'; cbn [log]; rewrite Hl, <- app_assoc; reflexivity|].
  split; [exact He | exact Hfree].
Defined.

(* ===================================================================== *)
(** * [__main__.py]: what a CLI job never does *)
(* ===================================================================== *)

Section OnlyCli.
Variable env : Env.
Variable P : Event -> bool.
Hypothesis P_print : forall line, P (EvPrint line) = true.
Hypothesis P_makedirs : forall d done, P (EvMakedirs d done) = true.

Variable out_arg : option string.
Variable compressor : string -> string -> Quality -> M CompressResult.
Variable quality : Quality.
Hypothesis P_one :
  forall src out_dir, only P (compress_one out_arg compressor quality src out_dir).

Lemma only_folder_loop total out_dir pdfs :
  forall i ok_count,
    only P (folder_loop env out_arg compressor quality total out_dir i pdfs ok_count).
Proof.
  induction pdfs as [|p rest IH]; intros i ok_count; cbn [folder_loop].
  - apply only_ret.
  - only_tac; apply IH.
Qed.

Lemma only_make_out_dir out_dir : only P (make_out_dir env out_dir).
Proof. unfold make_out_dir. only_tac. Qed.

Lemma only_folder_mode in_path :
  only P (folder_mode env in_path out_arg compressor quality).
Proof.
  unfold folder_mode. pose proof only_make_out_dir. pose proof only_folder_loop.
  only_tac.
Qed.

Lemma only_single_mode in_path :
  only P (single_mode env in_path out_arg compressor quality).
Proof.
  unfold single_mode. pose proof only_make_out_dir.
  only_tac.
Qed.

End OnlyCli.

(** [compress_one] adds the per-file result to what its backend does *)
Lemma only_compress_one (P : Event -> bool) (out_arg : option string)
    (compressor : string -> string -> Quality -> M CompressResult) (quality : Quality) :
  (forall src out res_ok, P (EvDone src out res_ok) = true) ->
  (forall i o, only P (compressor i o quality)) ->
  forall src out_dir, only P (compress_one out_arg compressor quality src out_dir).
Proof. intros P_done P_compressor src out_dir. unfold compress_one. only_tac. Qed.

(** a CLI job made of the optional installation and one of the two
    modes *)
Lemma only_run_cli (env : Env) (P : Event -> bool) (args : Args) (input : string) :
  arg_input args = Some input ->
  Py.truthy input = true ->
  only P (auto_install_step env args) ->
  (forall in_path,
     only P (folder_mode env in_path (out_arg_of env args)
               (choose_engine env (arg_engine args)) (arg_quality args))) ->
  (forall in_path,
     only P (single_mode env in_path (out_arg_of env args)
               (choose_engine env (arg_engine args)) (arg_quality args))) ->
  only P (_run_cli env args).
Proof.
  intros Hin Htruthy Hstep Hfolder Hsingle.
  unfold _run_cli. rewrite Hin, Htruthy. cbn [negb].
  only_tac.
Qed.

Section Offline.
Variable env : Env.

(** no backend uses the network *)
Lemma backend_offline e i o q :
  only (fun ev => negb (network_event ev)) (choose_engine env e i o q).
Proof.
  destruct e; cbn [choose_engine];
    unfold auto_compress, compress_with_ghostscript, compress_with_pikepdf,
      get_ghostscript_path, gs_attempt, run_ghostscript, move_into_place,
      remove_temp, gs_except;
    only_tac.
Qed.

(** the Basic backend stays clear of the tool chain *)
Lemma basic_tool_free i o q :
  only (fun ev => negb (tool_chain_event ev)) (compress_with_pikepdf env i o q).
Proof. unfold compress_with_pikepdf. only_tac. Qed.

(** a backend called with the destination [o] saves and moves to [o]
    only *)
Lemma backend_aimed e i o q : only (aimed_at o) (choose_engine env e i o q).
Proof.
  destruct e; cbn [choose_engine];
    unfold auto_compress, compress_with_ghostscript, compress_with_pikepdf,
      get_ghostscript_path, gs_attempt, run_ghostscript, move_into_place,
      remove_temp, gs_except;
    only_tac.
Qed.

(** an installation saves and moves nothing *)
Lemma install_aimed o args : only (aimed_at o) (auto_install_step env args).
Proof.
  unfold auto_install_step, ensure_ghostscript_installed, get_ghostscript_path,
    _download_to_temp, _run_installer.
  only_tac.
Qed.

End Offline.

(* ===================================================================== *)
(** * [__main__.py]: an explicit PDF destination *)
(* ===================================================================== *)

Lemma aimed_destinations o evs :
  Forall (fun e => aimed_at o e = true) evs ->
  destinations evs = repeat o (length (finished evs)).
Proof.
  induction 1 as [|e evs He _ IH]; [reflexivity|].
  destruct e; cbn [destinations finished]; try exact IH.
  cbn [aimed_at] in He. apply String.eqb_eq in He. subst.
  cbn [length repeat]. rewrite IH. reflexivity.
Qed.

(** with [--output] naming a PDF file, [compress_one] aims at it *)
Lemma compress_one_aimed (env : Env) o e q src out_dir :
  out_arg_is_pdf (Some o) = true ->
  only (aimed_at o) (compress_one (Some o) (choose_engine env e) q src out_dir).
Proof.
  intros Hpdf. unfold compress_one. rewrite Hpdf.
  pose proof (backend_aimed env e).
  only_tac.
Qed.

(** X21. When [--output] names a [.pdf] path, every file of the job is
    directed at that one path: every recorded result names it as its
    destination, the PDF library saves to no other path and the Precise
    backend moves its temporary file to no other path, whether the job
    returns or not.  In folder mode all files of the folder thus share
    one destination, one after the other. *)
Theorem explicit_pdf_output_is_shared (env : Env) (args : Args) (input o : string)
    (w : World) :
  arg_input args = Some input ->
  Py.truthy input = true ->
  out_arg_of env args = Some o ->
  out_arg_is_pdf (Some o) = true ->
  exists evs,
    log (snd (_run_cli env args w)) = log w ++ evs /\
    Forall (fun e => aimed_at o e = true) evs /\
    destinations evs = repeat o (length (finished evs)).
Proof.
  intros Hin Htruthy Hout Hpdf.
  assert (H : only (aimed_at o) (_run_cli env args)).
  { apply (only_run_cli env _ args input Hin Htruthy).
    - apply install_aimed.
    - intros in_path. rewrite Hout. apply only_folder_mode; try reflexivity.
      intros src out_dir. apply compress_one_aimed, Hpdf.
    - intros in_path. rewrite Hout. apply only_single_mode; try reflexivity.
      intros src out_dir. apply compress_one_aimed, Hpdf. }
  destruct (H w) as (evs & Hl & HF). exists evs.
  split; [exact Hl|]. split; [exact HF | apply aimed_destinations, HF].
Qed.

(** the two PDF files of the folder [docs] are directed at the existing
    file [all.pdf]: the first is saved there, the second cannot be
    opened *)
Lemma explicit_pdf_output_is_shared_witness :
  exists evs,
    log (snd (_run_cli docs_host docs_into_one_file_args docs_world_with_output)) = evs /\
    Forall (fun e => aimed_at "all.pdf" e = true) evs /\
    finished evs = [("docs/x.pdf", true); ("docs/y.pdf", false)] /\
    destinations evs = ["all.pdf"; "all.pdf"].
Proof.
  destruct (explicit_pdf_output_is_shared docs_host docs_into_one_file_args
              "docs" "all.pdf" docs_world_with_output eq_refl eq_refl eq_refl eq_refl)
    as (evs & Hl & HF & Hd).
  exists evs. split; [exact Hl|]. split; [exact HF|].
  assert (Hf : finished evs = [("docs/x.pdf", true); ("docs/y.pdf", false)]).
  { cbn [log docs_world_with_output app] in Hl. rewrite <- Hl. vm_compute. reflexivity. }
  split; [exact Hf|]. rewrite Hd, Hf. reflexivity.
Defined.

(** X23. A CLI job run without [--auto-install-ghostscript] never uses the
    network: whatever the engine and the outcome, it opens no URL and
    downloads nothing. *)
Theorem job_without_auto_install_is_offline (env : Env) (args : Args)
    (input : string) (w : World) :
  arg_input args = Some input ->
  Py.truthy input = true ->
  arg_auto_install_ghostscript args = false ->
  exists evs,
    log (snd (_run_cli env args w)) = log w ++ evs /\
    Forall (fun e => network_event e = false) evs.
Proof.
  intros Hin Htruthy Hflag.
  assert (H : only (fun ev => negb (network_event ev)) (_run_cli env args)).
  { apply (only_run_cli env _ args input Hin Htruthy).
    - unfold auto_install_step. rewrite Hflag. apply only_ret.
    - intros in_path. apply only_folder_mode; try reflexivity.
      apply only_compress_one; [reflexivity | intros i o; apply backend_offline].
    - intros in_path. apply only_single_mode; try reflexivity.
      apply only_compress_one; [reflexivity | intros i o; apply backend_offline]. }
  destruct (H w) as (evs & Hl & HF). exists evs. split; [exact Hl|].
  eapply Forall_impl; [exact HF|]. intros e He. apply negb_true_iff, He.
Qed.

(** X24. A CLI job with [--engine basic] stays clear of the tool chain: it
    never looks for the external tool, creates no temporary file, starts
    no process, deletes and moves no file and downloads nothing, with or
    without [--auto-install-ghostscript]. *)
Theorem basic_engine_job_is_tool_free (env : Env) (args : Args)
    (input : string) (w : World) :
  arg_input args = Some input ->
  Py.truthy input = true ->
  arg_engine args = basic ->
  exists evs,
    log (snd (_run_cli env args w)) = log w ++ evs /\
    Forall (fun e => tool_chain_event e = false) evs.
Proof.
  intros Hin Htruthy Hengine.
  assert (H : only (fun ev => negb (tool_chain_event ev)) (_run_cli env args)).
  { apply (only_run_cli env _ args input Hin Htruthy).
    - unfold auto_install_step. rewrite Hengine. cbn [bool_decide decide_rel orb].
      rewrite andb_false_r. apply only_ret.
    - intros in_path. rewrite Hengine. apply only_folder_mode; try reflexivity.
      apply only_compress_one; [reflexivity | intros i o; apply basic_tool_free].
    - intros in_path. rewrite Hengine. apply only_single_mode; try reflexivity.
      apply only_compress_one; [reflexivity | intros i o; apply basic_tool_free]. }
  destruct (H w) as (evs & Hl & HF). exists evs. split; [exact Hl|].
  eapply Forall_impl; [exact HF|]. intros e He. apply negb_true_iff, He.
Qed.

(** the folder job of [docs_args] runs without the flag *)
Lemma job_without_auto_install_is_offline_witness :
  arg_auto_install_ghostscript docs_args = false /\
  exists evs,
    log (snd (_run_cli docs_host docs_args docs_world)) = log docs_world ++ evs /\
    Forall (fun e => network_event e = false) evs.
Proof.
  split; [reflexivity|].
  exact (job_without_auto_install_is_offline docs_host docs_args "docs" docs_world
           eq_refl eq_refl eq_refl).
Defined.

(** one file compressed into a new folder with the Basic engine *)
Lemma basic_engine_job_is_tool_free_witness :
  arg_engine into_new_folder_args = basic /\
  exists evs,
    log (snd (_run_cli quiet_host into_new_folder_args world0)) = log world0 ++ evs /\
    Forall (fun e => tool_chain_event e = false) evs.
Proof.
  split; [reflexivity|].
  exact (basic_engine_job_is_tool_free quiet_host into_new_folder_args "in.pdf" world0
           eq_refl eq_refl eq_refl).
Defined.

(* ===================================================================== *)
(** * [__main__.py]: the summary of a folder job *)
(* ===================================================================== *)

(** X22. A folder job that returns ends by printing its summary, and the
    summary agrees with the results: "No PDF files found in folder."
    when no file was taken up, and otherwise "Done. k/n succeeded."
    where [n] is the number of files taken up and [k] the number of
    those whose result was a success. *)
Theorem folder_job_summary (env : Env) (args : Args) (input : string)
    (w : World) (code : Z) (w' : World) (evs : list Event) :
  arg_input args = Some input ->
  Py.truthy input = true ->
  path_isdir (fs (snd (auto_install_step env args w))) (abspath env input) = true ->
  _run_cli env args w = (Ret code, w') ->
  log w' = log w ++ evs ->
  last evs =
    Some (EvPrint
            match finished evs with
            | [] => "No PDF files found in folder."
            | results =>
                "Done. " +:+ Py.str_of_nat (length (List.filter snd results)) +:+ "/" +:+
                Py.str_of_nat (length results) +:+ " succeeded."
            end).
Proof.
  intros Hin Htruthy Hdir E Hlog.
  unfold _run_cli in E. rewrite Hin, Htruthy in E. cbn [negb] in E.
  destruct (auto_install_step_spec env args w) as (w0 & evs0 & Hstep & Hl0 & Hs0).
  rewrite Hstep in Hdir. cbn [snd] in Hdir.
  rewrite (bind_ret_eq _ _ _ _ _ Hstep), bind_get_world, Hdir in E.
  set (in_path := abspath env input) in *.
  set (out_arg := out_arg_of env args) in *.
  unfold folder_mode in E.
  destruct (quiet_make_out_dir env out_arg w0) as (evs1 & Hl1 & Hs1).
  destruct (make_out_dir env out_arg w0) as [[[]|ex1] w1] eqn:Hmk; cbn [snd] in Hl1.
  2:{ rewrite (bind_raise_eq _ _ _ _ _ Hmk) in E. discriminate E. }
  rewrite (bind_ret_eq _ _ _ _ _ Hmk) in E.
  apply bind_os_listdir_ret in E. rewrite bind_get_world in E.
  change (pdfs_among in_path (listdir env in_path w1) w1)
    with (list_pdfs env in_path w1) in E.
  destruct (list_pdfs env in_path w1) as [|p pdfs].
  { apply bind_print_ret in E.
    cbv beta iota delta [mret M_ret] in E. injection E as _ <-.
    cbn [log] in Hlog. rewrite Hl1, Hl0, <- !app_assoc in Hlog.
    apply app_inv_head in Hlog. subst evs.
    rewrite !finished_app, (finished_sys _ Hs0), (finished_sys _ Hs1). cbn [finished app].
    rewrite !app_assoc. apply last_snoc. }
  destruct (folder_loop env out_arg (choose_engine env (arg_engine args)) (arg_quality args)
              (length (p :: pdfs)) out_arg 1 (p :: pdfs) 0 w1)
    as [[n|ex1] w2] eqn:Hloop.
  2:{ rewrite (bind_raise_eq _ _ _ _ _ Hloop) in E. discriminate E. }
  rewrite (bind_ret_eq _ _ _ _ _ Hloop) in E.
  apply bind_print_ret in E.
  cbv beta iota delta [mret M_ret] in E. injection E as _ <-.
  apply folder_loop_spec in Hloop as (evs2 & Hl2 & Hm2 & Hn2).
  cbn [log] in Hlog. rewrite Hl2, Hl1, Hl0, <- !app_assoc in Hlog.
  apply app_inv_head in Hlog. subst evs.
  rewrite !finished_app, (finished_sys _ Hs0), (finished_sys _ Hs1). cbn [finished app].
  rewrite app_nil_r.
  assert (Hlen : length (finished evs2) = length (p :: pdfs)).
  { rewrite <- Hm2, length_map. reflexivity. }
  rewrite !app_assoc, last_snoc.
  destruct (finished evs2) as [|r rs] eqn:Hf; [discriminate Hlen|].
  change (S (length pdfs)) with (length (p :: pdfs)).
  rewrite <- Hlen, Hn2. reflexivity.
Qed.

(** the folder [docs]: one of two files succeeds *)
Lemma folder_job_summary_witness :
  exists w' evs,
    _run_cli docs_host docs_args docs_world = (Ret 2, w') /\
    log w' = log docs_world ++ evs /\
    last evs = Some (EvPrint "Done. 1/2 succeeded.").
Proof.
  destruct (_run_cli docs_host docs_args docs_world) as [[code|ex] w'] eqn:E.
  2:{ vm_compute in E. discriminate E. }
  pose proof E as E'. vm_compute in E'. injection E' as Hcode Hw'.
  pose proof (folder_job_summary docs_host docs_args "docs" docs_world code w' (log w')
                eq_refl eq_refl eq_refl E eq_refl) as Hlast.
  subst code. exists w', (log w'). split; [reflexivity|]. split; [reflexivity|].
  rewrite Hlast, <- Hw'. reflexivity.
Defined.

(* ===================================================================== *)
(** * [logging_utils.py]: logging never loses data *)
(* ===================================================================== *)

Section LoggingFacts.
Import LoggingUtils.
Variable env : Env.
Variable host : LogHost.

(** a path joined with a name differs from the path *)
Lemma join_name_longer d b :
  ~ Py.has_char OsPath.sep b -> Py.truthy b = true ->
  (String.length d < String.length (OsPath.join d [b]))%nat.
Proof.
  intros Hb Ht. rewrite OsPathJoin.join_single, (OsPathJoin.join2_name d b Hb).
  destruct b as [|c b]; [discriminate Ht|].
  destruct (negb (Py.truthy d) || Py.endswith "/" d);
    rewrite ?PyFacts.str_length_app; simpl; lia.
Qed.

(** joining the same folder with a longer name gives a longer path *)
Lemma join_longer_name d b c :
  ~ Py.has_char OsPath.sep b -> Py.startswith "/" c = false ->
  (String.length b < String.length c)%nat ->
  (String.length (OsPath.join d [b]) < String.length (OsPath.join d [c]))%nat.
Proof.
  intros Hb Hc Hlen.
  rewrite OsPathJoin.join_single, (OsPathJoin.join2_name d b Hb).
  cbn [OsPath.join fold_left]. unfold OsPath.join2. rewrite Hc.
  destruct (negb (Py.truthy d) || Py.endswith "/" d);
    rewrite ?PyFacts.str_length_app; simpl; lia.
Qed.

(** what [get_log_path] returns and changes: [os.makedirs] adds
    directories at prefixes of the [logs] folder at most, and nothing at
    the path returned *)
Lemma get_log_path_spec w :
  match get_log_path env host w with
  | (Ret path, w') =>
      exists base,
        base_dir host w = Some base /\
        let logs_dir := OsPath.join base ["logs"] in
        (path = OsPath.join logs_dir ["app.log"] \/
         exists stamp, path = OsPath.join base ["app-error-" +:+ stamp +:+ ".log"]) /\
        (forall p,
           fs w' !! p = fs w !! p \/
           (fs w !! p = None /\ fs w' !! p = Some Dir /\
            Py.startswith p logs_dir = true)) /\
        fs w' !! path = fs w !! path
  | (Raise _, w') => fs w' = fs w
  end.
Proof.
  unfold get_log_path, _base_dir.
  unfold mbind at 1, M_bind at 1.
  destruct (base_dir host w) as [base|]; [|reflexivity].
  set (logs_dir := OsPath.join base ["logs"]).
  destruct (os_makedirs_grows env logs_dir w) as (_ & Hg).
  assert (Hfresh : forall path w',
            (String.length logs_dir < String.length path)%nat ->
            (forall p, fs w' !! p = fs w !! p \/
               (fs w !! p = None /\ fs w' !! p = Some Dir /\
                Py.startswith p logs_dir = true)) ->
            fs w' !! path = fs w !! path).
  { intros path w' Hlen H. destruct (H path) as [Heq|(_ & _ & Hpre)]; [exact Heq|].
    apply length_startswith in Hpre. lia. }
  unfold try_except. unfold mbind at 1, M_bind at 1.
  destruct (os_makedirs env logs_dir w) as [[[]|e] w1]; cbn [snd] in Hg;
    cbv beta iota delta [mbind M_bind mret M_ret get_world];
    exists base; (split; [reflexivity|]); cbv zeta; fold logs_dir.
  - split; [left; reflexivity|]. split; [exact Hg|].
    apply Hfresh; [|exact Hg].
    apply join_name_longer; [|reflexivity].
    unfold OsPath.sep. simpl. intuition discriminate.
  - split; [right; eexists; reflexivity|]. split; [exact Hg|].
    apply Hfresh; [|exact Hg].
    unfold logs_dir. apply join_longer_name.
    + unfold OsPath.sep. simpl. intuition discriminate.
    + reflexivity.
    + rewrite !PyFacts.str_length_app. simpl. lia.
Qed.

(** everything [safe_log] does after [get_log_path] returned [path] *)
Lemma write_line_spec path message w :
  match (old ← open_append host path;
         w1 ← get_world;
         _ ← write_append host path old (log_line (line_stamp host w1) message);
         mret (Some path)) w with
  | (Ret r, w') =>
      r = Some path /\
      exists old ts,
        (fs w !! path = Some (File old) \/ (fs w !! path = None /\ old = EmptyString)) /\
        fs w' = <[path := File (old +:+ log_line ts message)]> (fs w)
  | (Raise _, w') =>
      fs w' = fs w \/ (fs w !! path = None /\ fs w' = <[path := File EmptyString]> (fs w))
  end.
Proof.
  unfold open_append, write_append. unfold_monad.
  split_cases; cbn [fs]; auto.
  - split; [reflexivity|]. do 2 eexists. split; [left; reflexivity | reflexivity].
  - split; [reflexivity|]. do 2 eexists. split; [right; split; reflexivity|].
    apply insert_insert_eq.
Qed.

End LoggingFacts.

(** X26. [safe_log] never raises.  When it returns a path, that path is
    [logs/app.log] under the program folder, or an [app-error-...log]
    file in that folder when the [logs] folder could not be created, and
    the file there now consists of its previous contents (none for a new
    file) followed by the line for the message. *)
Theorem safe_log_appends_line (env : Env) (host : LogHost) (message : string)
    (w : World) :
  exists r w',
    LoggingUtils.safe_log env host message w = (Ret r, w') /\
    forall path, r = Some path ->
      exists base old ts,
        base_dir host w = Some base /\
        (path = OsPath.join (OsPath.join base ["logs"]) ["app.log"] \/
         exists stamp, path = OsPath.join base ["app-error-" +:+ stamp +:+ ".log"]) /\
        (fs w !! path = Some (File old) \/ (fs w !! path = None /\ old = EmptyString)) /\
        fs w' !! path = Some (File (old +:+ LoggingUtils.log_line ts message)).
Proof.
  unfold LoggingUtils.safe_log, try_except.
  pose proof (get_log_path_spec env host w) as Hp.
  unfold mbind at 1, M_bind at 1.
  destruct (LoggingUtils.get_log_path env host w) as [[path|e] w1].
  2:{ do 2 eexists. split; [reflexivity|]. discriminate. }
  destruct Hp as (base & Hbase & Hshape & _ & Hsame).
  pose proof (write_line_spec host path message w1) as Hw.
  match type of Hw with
  | match ?m with _ => _ end => destruct m as [[r|e] w2]
  end.
  2:{ do 2 eexists. split; [reflexivity|]. discriminate. }
  destruct Hw as (-> & old & ts & Hold & Hfs).
  do 2 eexists. split; [reflexivity|]. intros p Hp. injection Hp as <-.
  exists base, old, ts. split; [exact Hbase|]. split; [exact Hshape|].
  rewrite <- Hsame. split; [exact Hold|].
  rewrite Hfs. apply lookup_insert_eq.
Qed.

(** X27. [safe_log] only ever adds: whatever it returns, a file that existed
    before still exists and its previous contents are a prefix of its
    contents, and a directory is still a directory.  Logging never
    truncates, deletes or replaces anything. *)
Theorem safe_log_append_only (env : Env) (host : LogHost) (message : string)
    (w : World) (q : string) :
  let w' := snd (LoggingUtils.safe_log env host message w) in
  match fs w !! q with
  | Some (File contents) =>
      exists added, fs w' !! q = Some (File (contents +:+ added))
  | Some Dir => fs w' !! q = Some Dir
  | None => True
  end.
Proof.
  intros w'.
  set (keeps := fun (f1 f2 : gmap string Node) =>
         match f1 !! q with
         | Some (File c) => exists a, f2 !! q = Some (File (c +:+ a))
         | Some Dir => f2 !! q = Some Dir
         | None => True
         end).
  assert (Hrefl : forall f, keeps f f).
  { intros f. unfold keeps. destruct (f !! q) as [[c|]|]; auto.
    exists EmptyString. rewrite PyFacts.str_app_empty_r. reflexivity. }
  assert (Hnew : forall f p n, f !! p = None -> keeps f (<[p := n]> f)).
  { intros f p n Hnone. unfold keeps.
    destruct (decide (p = q)) as [->|Hne]; [rewrite Hnone; exact I|].
    rewrite lookup_insert_ne by exact Hne. apply Hrefl. }
  assert (Htrans : forall f1 f2 f3, keeps f1 f2 -> keeps f2 f3 -> keeps f1 f3).
  { unfold keeps. intros f1 f2 f3 H12 H23.
    destruct (f1 !! q) as [[c|]|]; [| |exact I].
    - destruct H12 as (a & H12). rewrite H12 in H23. destruct H23 as (b & H23).
      exists (a +:+ b). rewrite H23, PyFacts.str_app_assoc. reflexivity.
    - rewrite H12 in H23. exact H23. }
  change (keeps (fs w) (fs w')). unfold w'.
  unfold LoggingUtils.safe_log, try_except.
  pose proof (get_log_path_spec env host w) as Hp.
  unfold mbind at 1, M_bind at 1.
  destruct (LoggingUtils.get_log_path env host w) as [[path|e] w1].
  2:{ cbv beta iota delta [mret M_ret snd]. rewrite Hp. apply Hrefl. }
  destruct Hp as (base & _ & _ & Hdir & _).
  assert (H1 : keeps (fs w) (fs w1)).
  { unfold keeps. destruct (Hdir q) as [->|(-> & _)]; [apply Hrefl | exact I]. }
  apply (Htrans _ _ _ H1).
  pose proof (write_line_spec host path message w1) as Hw.
  match type of Hw with
  | match ?m with _ => _ end => destruct m as [[r|e] w2]
  end; cbv beta iota delta [mret M_ret snd].
  - destruct Hw as (_ & old & ts & Hold & ->).
    destruct Hold as [Hold|(Hnone & ->)]; [|apply Hnew, Hnone].
    unfold keeps. destruct (decide (path = q)) as [->|Hne].
    + rewrite Hold, lookup_insert_eq. eauto.
    + rewrite lookup_insert_ne by exact Hne. apply Hrefl.
  - destruct Hw as [->|(Hnone & ->)]; [apply Hrefl | apply Hnew, Hnone].
Qed.

